(** * The user database connection of TLE ([tle/util/db/user_db_conn.py])

    A shallow embedding of [UserDbConn]: the tables of [create_tables] as
    lists of records, the psycopg2 connection as a committed and a working
    copy of the database, every method as a computation in a state and
    exception monad, and every SQL statement as a function on the tables.

    Conventions of the embedding:
    - INTEGER, BIGINT and SERIAL values are [Z]; nullable columns are
      [option]; a comparison with NULL never selects a row.
    - [user_id] and [guild_id] columns declared TEXT hold the decimal text
      of a Discord id ([CAST(%s AS TEXT)]); they are modelled by the id.
    - REAL time stamps are only stored and read back; they are modelled by
      [Z] values standing for the stored REAL.
    - Values are assumed to fit the type of their column, except in
      [insert_duel]: the user ids it stores in INTEGER columns are
      Discord ids, so the range of the column is checked there.  *)

From Stdlib Require Import ZArith String List Bool Lia.
Import ListNotations.
Open Scope Z_scope.

(** ** Enumerations (IntEnum classes) *)

Module Gitgud.
Inductive t := GOTGUD | GITGUD | NOGUD | FORCED_NOGUD.
Definition value (x : t) : Z :=
  match x with GOTGUD => 0 | GITGUD => 1 | NOGUD => 2 | FORCED_NOGUD => 3 end.
End Gitgud.

Module Duel.
Inductive t :=
  PENDING | DECLINED | WITHDRAWN | EXPIRED | ONGOING | COMPLETE | INVALID.
Definition value (x : t) : Z :=
  match x with
  | PENDING => 0 | DECLINED => 1 | WITHDRAWN => 2 | EXPIRED => 3
  | ONGOING => 4 | COMPLETE => 5 | INVALID => 6
  end.
End Duel.

Module Winner.
Inductive t := DRAW | CHALLENGER | CHALLENGEE.
Definition value (x : t) : Z :=
  match x with DRAW => 0 | CHALLENGER => 1 | CHALLENGEE => 2 end.
End Winner.

Module DuelType.
Inductive t := UNOFFICIAL | OFFICIAL.
Definition value (x : t) : Z :=
  match x with UNOFFICIAL => 0 | OFFICIAL => 1 end.
End DuelType.

Module RatedVC.
Inductive t := ONGOING | FINISHED.
Definition value (x : t) : Z :=
  match x with ONGOING => 0 | FINISHED => 1 end.
End RatedVC.

Definition _DEFAULT_VC_RATING : Z := 1500.

(** ** Exceptions *)

Inductive exn :=
  | UniqueConstraintFailed      (* class UniqueConstraintFailed(UserDbError) *)
  | AttributeError              (* attribute lookup on None *)
  | TypeError                   (* subscript of None *)
  | SyntaxError                 (* psycopg2.errors.SyntaxError *)
  | GroupingError               (* psycopg2.errors.GroupingError *)
  | UniqueViolation             (* psycopg2.errors.UniqueViolation *)
  | ForeignKeyViolation         (* psycopg2.errors.ForeignKeyViolation *)
  | NumericValueOutOfRange      (* psycopg2.errors.NumericValueOutOfRange *)
  | InFailedSqlTransaction.     (* psycopg2.errors.InFailedSqlTransaction *)

(** ** Tables *)

Definition time := Z.

Record user_handle_row := {
  uh_user_id : Z;
  uh_guild_id : Z;
  uh_handle : string;
  uh_active : option Z
}.

Record duelist_row := {
  dl_user_id : Z;
  dl_rating : Z
}.

Record duel_row := {
  d_id : Z;
  d_challenger : Z;
  d_challengee : Z;
  d_issue_time : time;
  d_start_time : option time;
  d_finish_time : option time;
  d_problem_name : option string;
  d_contest_id : option Z;
  d_p_index : option string;
  d_status : option Z;
  d_winner : option Z;
  d_type : option Z
}.

Record challenge_row := {
  ch_id : Z;
  ch_user_id : Z;
  ch_issue_time : time;
  ch_finish_time : option time;
  ch_problem_name : string;
  ch_contest_id : Z;
  ch_p_index : string;
  ch_rating_delta : Z;
  ch_status : Z
}.

Record user_challenge_row := {
  uc_user_id : Z;
  uc_active_challenge_id : option Z;
  uc_issue_time : option time;
  uc_score : Z;
  uc_num_completed : Z;
  uc_num_skipped : Z
}.

Record rated_vc_row := {
  vc_id : Z;
  vc_contest_id : Z;
  vc_start_time : option time;
  vc_finish_time : option time;
  vc_status : option Z;
  vc_guild_id : option Z
}.

Record rated_vc_user_row := {
  vu_vc_id : Z;
  vu_user_id : Z;
  vu_rating : option Z
}.

Record rated_vc_settings_row := {
  vs_guild_id : Z;
  vs_channel_id : option Z
}.

(** The tables the modelled methods touch. *)
Record db := {
  user_handle : list user_handle_row;
  duelist : list duelist_row;
  duel : list duel_row;
  challenge : list challenge_row;
  user_challenge : list user_challenge_row;
  rated_vcs : list rated_vc_row;
  rated_vc_users : list rated_vc_user_row;
  rated_vc_settings : list rated_vc_settings_row
}.

Definition empty_db : db :=
  {| user_handle := []; duelist := []; duel := []; challenge := [];
     user_challenge := []; rated_vcs := []; rated_vc_users := [];
     rated_vc_settings := [] |}.

Definition set_user_handle (t : list user_handle_row) (d : db) : db :=
  {| user_handle := t; duelist := duelist d; duel := duel d;
     challenge := challenge d; user_challenge := user_challenge d;
     rated_vcs := rated_vcs d; rated_vc_users := rated_vc_users d;
     rated_vc_settings := rated_vc_settings d |}.

Definition set_duelist (t : list duelist_row) (d : db) : db :=
  {| user_handle := user_handle d; duelist := t; duel := duel d;
     challenge := challenge d; user_challenge := user_challenge d;
     rated_vcs := rated_vcs d; rated_vc_users := rated_vc_users d;
     rated_vc_settings := rated_vc_settings d |}.

Definition set_duel (t : list duel_row) (d : db) : db :=
  {| user_handle := user_handle d; duelist := duelist d; duel := t;
     challenge := challenge d; user_challenge := user_challenge d;
     rated_vcs := rated_vcs d; rated_vc_users := rated_vc_users d;
     rated_vc_settings := rated_vc_settings d |}.

Definition set_challenge (t : list challenge_row) (d : db) : db :=
  {| user_handle := user_handle d; duelist := duelist d; duel := duel d;
     challenge := t; user_challenge := user_challenge d;
     rated_vcs := rated_vcs d; rated_vc_users := rated_vc_users d;
     rated_vc_settings := rated_vc_settings d |}.

Definition set_user_challenge (t : list user_challenge_row) (d : db) : db :=
  {| user_handle := user_handle d; duelist := duelist d; duel := duel d;
     challenge := challenge d; user_challenge := t;
     rated_vcs := rated_vcs d; rated_vc_users := rated_vc_users d;
     rated_vc_settings := rated_vc_settings d |}.

Definition set_rated_vcs (t : list rated_vc_row) (d : db) : db :=
  {| user_handle := user_handle d; duelist := duelist d; duel := duel d;
     challenge := challenge d; user_challenge := user_challenge d;
     rated_vcs := t; rated_vc_users := rated_vc_users d;
     rated_vc_settings := rated_vc_settings d |}.

Definition set_rated_vc_users (t : list rated_vc_user_row) (d : db) : db :=
  {| user_handle := user_handle d; duelist := duelist d; duel := duel d;
     challenge := challenge d; user_challenge := user_challenge d;
     rated_vcs := rated_vcs d; rated_vc_users := t;
     rated_vc_settings := rated_vc_settings d |}.

(** SERIAL sequences.  [nextval] is not undone by a rollback, so the
    sequences live beside the transactional state. *)
Record seqs := {
  duel_id_seq : Z;
  rated_vcs_id_seq : Z
}.

(** ** The connection

    [committed] is what a [commit] made durable, [working] is what the
    open transaction sees.  A statement that fails leaves the transaction
    aborted: PostgreSQL refuses further statements until the transaction
    ends, and ending it discards its work. *)
Record conn := {
  committed : db;
  working : db;
  aborted : bool;
  sequences : seqs
}.

Definition at_rest (d : db) (s : seqs) : conn :=
  {| committed := d; working := d; aborted := false; sequences := s |}.

(** ** The monad of the methods: state plus exceptions *)

Inductive outcome (A : Type) :=
  | Ret (a : A)
  | Raise (e : exn).
Arguments Ret {A} a.
Arguments Raise {A} e.

Definition M (A : Type) := conn -> outcome A * conn.

Definition ret {A} (a : A) : M A := fun c => (Ret a, c).
Definition raise {A} (e : exn) : M A := fun c => (Raise e, c).
Definition bind {A B} (m : M A) (k : A -> M B) : M B :=
  fun c => match m c with
           | (Ret a, c') => k a c'
           | (Raise e, c') => (Raise e, c')
           end.

Notation "x <- m ;; k" := (bind m (fun x => k))
  (at level 61, m at next level, right associativity).
Notation "m ;;; k" := (bind m (fun _ => k))
  (at level 61, right associativity).

(** [self.conn.commit()]: on an aborted transaction the server answers
    with a rollback. *)
Definition commit : M unit := fun c =>
  let d := if aborted c then committed c else working c in
  (Ret tt, {| committed := d; working := d; aborted := false;
              sequences := sequences c |}).

(** [self.conn.rollback()] *)
Definition rollback : M unit := fun c =>
  (Ret tt, {| committed := committed c; working := committed c;
              aborted := false; sequences := sequences c |}).

(** [with self.conn: body]: commit when the body returns, roll back and
    re-raise when it raises. *)
Definition with_conn {A} (body : M A) : M A := fun c =>
  match body c with
  | (Ret a, c') => (Ret a, snd (commit c'))
  | (Raise e, c') => (Raise e, snd (rollback c'))
  end.

(** ** Cursors and statements *)

(** What a statement leaves in the cursor. *)
Record cursor (R : Type) := {
  rows : list R;
  rowcount : Z;
  lastrowid : Z
}.
Arguments rows {R} c.
Arguments rowcount {R} c.
Arguments lastrowid {R} c.

(** [lastrowid] is the OID of the inserted row.  No table of
    [create_tables] is declared WITH OIDS, so the server reports
    InvalidOid. *)
Definition InvalidOid : Z := 0.

(** A statement reads and writes the working copy and the sequences, and
    either fails or fills the cursor. *)
Definition statement (R : Type) := seqs -> db -> seqs * (exn + db * cursor R).

(** [cur.execute(query, params)].  The cursor filled by the statement is
    the result of the computation; the value of the Python expression
    itself is None, see [execute_value]. *)
Definition execute {R} (q : statement R) : M (cursor R) := fun c =>
  if aborted c then (Raise InFailedSqlTransaction, c)
  else
    match q (sequences c) (working c) with
    | (s', inl e) =>
        (Raise e, {| committed := committed c; working := working c;
                     aborted := true; sequences := s' |})
    | (s', inr (d', cur)) =>
        (Ret cur, {| committed := committed c; working := d';
                     aborted := false; sequences := s' |})
    end.

(** Python values a method chain can be applied to. *)
Inductive pyobject (R : Type) :=
  | PyNone
  | PyCursor (cur : cursor R).
Arguments PyNone {R}.
Arguments PyCursor {R} cur.

(** psycopg2's [cursor.execute] returns None. *)
Definition execute_value {R} (cur : cursor R) : pyobject R := PyNone.

(** [o.fetchone()] *)
Definition fetchone {R} (o : pyobject R) : M (option R) :=
  match o with
  | PyNone => raise AttributeError
  | PyCursor cur => ret (hd_error (rows cur))
  end.

(** [row[i]] and [row.name]: projections of a fetched row. *)
Definition getitem {R A} (row : option R) (proj : R -> A) : M A :=
  match row with
  | None => raise TypeError
  | Some r => ret (proj r)
  end.

Definition getattr {R A} (row : option R) (proj : R -> A) : M A :=
  match row with
  | None => raise AttributeError
  | Some r => ret (proj r)
  end.

(** *** Building blocks of the SQL statements *)

Section Sql.
Context {Row : Type}.

Definition count_where (p : Row -> bool) (t : list Row) : Z :=
  Z.of_nat (length (filter p t)).

Definition update_where (p : Row -> bool) (f : Row -> Row) (t : list Row)
  : list Row :=
  map (fun r => if p r then f r else r) t.

Definition delete_where (p : Row -> bool) (t : list Row) : list Row :=
  filter (fun r => negb (p r)) t.

(** [UPDATE table SET f WHERE p] *)
Definition sql_update (get : db -> list Row) (set : list Row -> db -> db)
    (p : Row -> bool) (f : Row -> Row) : statement unit :=
  fun s d =>
    (s, inr (set (update_where p f (get d)) d,
             {| rows := []; rowcount := count_where p (get d);
                lastrowid := InvalidOid |})).

(** [DELETE FROM table WHERE p] *)
Definition sql_delete (get : db -> list Row) (set : list Row -> db -> db)
    (p : Row -> bool) : statement unit :=
  fun s d =>
    (s, inr (set (delete_where p (get d)) d,
             {| rows := []; rowcount := count_where p (get d);
                lastrowid := InvalidOid |})).

End Sql.

(** The entries of a select list.  Without GROUP BY, PostgreSQL rejects a
    select list that has both an aggregate and a plain column. *)
Inductive target := Column | Aggregate.

Definition is_column (t : target) : bool :=
  match t with Column => true | Aggregate => false end.
Definition is_aggregate (t : target) : bool :=
  match t with Column => false | Aggregate => true end.

Definition grouping_ok (targets : list target) : bool :=
  negb (existsb is_aggregate targets && existsb is_column targets).

(** [SELECT targets FROM ... WHERE ...], with the rows it yields. *)
Definition sql_select {R} (targets : list target) (result : db -> list R)
  : statement R :=
  fun s d =>
    if grouping_ok targets then
      (s, inr (d, {| rows := result d;
                     rowcount := Z.of_nat (length (result d));
                     lastrowid := InvalidOid |}))
    else (s, inl GroupingError).

(** A query text holding several statements separated by [;].  The server
    parses the whole text before it runs any of it; [None] stands for a
    piece that is not a statement. *)
Fixpoint run_all {R} (qs : list (statement R)) (s : seqs) (d : db)
    (last : cursor R) : seqs * (exn + db * cursor R) :=
  match qs with
  | [] => (s, inr (d, last))
  | q :: qs' =>
      match q s d with
      | (s', inl e) => (s', inl e)
      | (s', inr (d', cur)) => run_all qs' s' d' cur
      end
  end.

Fixpoint parsed {R} (pieces : list (option (statement R)))
  : option (list (statement R)) :=
  match pieces with
  | [] => Some []
  | None :: _ => None
  | Some q :: rest =>
      match parsed rest with
      | Some qs => Some (q :: qs)
      | None => None
      end
  end.

Definition sql_script {R} (pieces : list (option (statement R)))
  : statement R :=
  fun s d =>
    match parsed pieces with
    | None => (s, inl SyntaxError)
    | Some qs =>
        run_all qs s d {| rows := []; rowcount := -1; lastrowid := InvalidOid |}
    end.

(** Comparison of a nullable column with a value: NULL selects nothing. *)
Definition sql_eq (x : option Z) (v : Z) : bool :=
  match x with
  | Some y => y =? v
  | None => false
  end.

(** Comparison of a column with a parameter that may be None. *)
Definition sql_eq_param (x : Z) (v : option Z) : bool :=
  match v with
  | Some y => x =? y
  | None => false
  end.

(** [MAX(col)] over the selected rows: NULL when there is none. *)
Definition sql_max (l : list Z) : option Z :=
  fold_left (fun acc x => match acc with
                          | None => Some x
                          | Some m => Some (Z.max m x)
                          end) l None.

(** [nextval] of the two SERIAL columns. *)
Definition next_duel_id (s : seqs) : Z * seqs :=
  (duel_id_seq s,
   {| duel_id_seq := duel_id_seq s + 1;
      rated_vcs_id_seq := rated_vcs_id_seq s |}).

Definition next_rated_vc_id (s : seqs) : Z * seqs :=
  (rated_vcs_id_seq s,
   {| duel_id_seq := duel_id_seq s;
      rated_vcs_id_seq := rated_vcs_id_seq s + 1 |}).

(** [for x in xs: body] *)
Fixpoint for_each {A} (xs : list A) (body : A -> M unit) : M unit :=
  match xs with
  | [] => ret tt
  | x :: xs' => body x ;;; for_each xs' body
  end.

(** [_fetchone(query, params, cursor_factory)] *)
Definition _fetchone {R} (query : statement R) : M (option R) :=
  cur <- execute query ;;
  fetchone (PyCursor cur).

(** ** Gitgud challenges *)

Definition with_challenge_done (finish_time : time) (r : challenge_row)
  : challenge_row :=
  {| ch_id := ch_id r; ch_user_id := ch_user_id r;
     ch_issue_time := ch_issue_time r; ch_finish_time := Some finish_time;
     ch_problem_name := ch_problem_name r; ch_contest_id := ch_contest_id r;
     ch_p_index := ch_p_index r; ch_rating_delta := ch_rating_delta r;
     ch_status := Gitgud.value Gitgud.GOTGUD |}.

Definition with_challenge_status (status : Z) (r : challenge_row)
  : challenge_row :=
  {| ch_id := ch_id r; ch_user_id := ch_user_id r;
     ch_issue_time := ch_issue_time r; ch_finish_time := ch_finish_time r;
     ch_problem_name := ch_problem_name r; ch_contest_id := ch_contest_id r;
     ch_p_index := ch_p_index r; ch_rating_delta := ch_rating_delta r;
     ch_status := status |}.

Definition is_gitgud (challenge_id : Z) (r : challenge_row) : bool :=
  (ch_id r =? challenge_id) && (ch_status r =? Gitgud.value Gitgud.GITGUD).

Definition has_active (user_id challenge_id : Z) (r : user_challenge_row)
  : bool :=
  (uc_user_id r =? user_id) && sql_eq (uc_active_challenge_id r) challenge_id.

Definition with_completed (delta : Z) (r : user_challenge_row)
  : user_challenge_row :=
  {| uc_user_id := uc_user_id r; uc_active_challenge_id := None;
     uc_issue_time := None; uc_score := uc_score r + delta;
     uc_num_completed := uc_num_completed r + 1;
     uc_num_skipped := uc_num_skipped r |}.

Definition with_slot_cleared (r : user_challenge_row) : user_challenge_row :=
  {| uc_user_id := uc_user_id r; uc_active_challenge_id := None;
     uc_issue_time := None; uc_score := uc_score r;
     uc_num_completed := uc_num_completed r;
     uc_num_skipped := uc_num_skipped r |}.

Definition complete_challenge (user_id challenge_id : Z) (finish_time : time)
    (delta : Z) : M Z :=
  let query1 := sql_update challenge set_challenge
                  (is_gitgud challenge_id) (with_challenge_done finish_time) in
  let query2 := sql_update user_challenge set_user_challenge
                  (has_active user_id challenge_id) (with_completed delta) in
  cur <- execute query1 ;;
  let rc := rowcount cur in
  if negb (rc =? 1) then rollback ;;; ret 0
  else
    cur <- execute query2 ;;
    let rc := rowcount cur in
    if negb (rc =? 1) then rollback ;;; ret 0
    else commit ;;; ret 1.

Definition skip_challenge (user_id challenge_id status : Z) : M Z :=
  let query1 := sql_update user_challenge set_user_challenge
                  (has_active user_id challenge_id) with_slot_cleared in
  let query2 := sql_update challenge set_challenge
                  (is_gitgud challenge_id) (with_challenge_status status) in
  cur <- execute query1 ;;
  let rc := rowcount cur in
  if negb (rc =? 1) then rollback ;;; ret 0
  else
    cur <- execute query2 ;;
    let rc := rowcount cur in
    if negb (rc =? 1) then rollback ;;; ret 0
    else commit ;;; ret 1.

(** ** Handles *)

Definition same_binding (user_id guild_id : Z) (r : user_handle_row) : bool :=
  (uh_user_id r =? user_id) && (uh_guild_id r =? guild_id).

Definition same_handle (guild_id : Z) (handle : string) (r : user_handle_row)
  : bool :=
  (uh_guild_id r =? guild_id) && String.eqb (uh_handle r) handle.

(** [INSERT INTO user_handle ... ON CONFLICT (user_id, guild_id) DO UPDATE
    SET handle, active]; the unique index [ix_user_handle_guild_handle]
    rejects a handle that another row of the guild holds. *)
Definition upsert_user_handle (user_id guild_id : Z) (handle : string)
  : statement unit :=
  fun s d =>
    let t := user_handle d in
    let row := {| uh_user_id := user_id; uh_guild_id := guild_id;
                  uh_handle := handle; uh_active := Some 1 |} in
    if existsb (fun r => same_handle guild_id handle r
                         && negb (same_binding user_id guild_id r)) t
    then (s, inl UniqueViolation)
    else if existsb (same_binding user_id guild_id) t
    then (s, inr (set_user_handle
                    (update_where (same_binding user_id guild_id)
                                  (fun _ => row) t) d,
                  {| rows := []; rowcount := 1; lastrowid := InvalidOid |}))
    else (s, inr (set_user_handle (t ++ [row]) d,
                  {| rows := []; rowcount := 1; lastrowid := InvalidOid |})).

Definition set_handle (user_id guild_id : Z) (handle : string) : M Z :=
  let query := sql_select [Column]
                 (fun d => map uh_user_id
                             (filter (same_handle guild_id handle)
                                     (user_handle d))) in
  cur <- execute query ;;
  existing <- fetchone (PyCursor cur) ;;
  (match existing with
   | Some owner =>
       if negb (owner =? user_id) then raise UniqueConstraintFailed
       else ret tt
   | None => ret tt
   end) ;;;
  with_conn (cur <- execute (upsert_user_handle user_id guild_id handle) ;;
             ret (rowcount cur)).

Definition get_handle (user_id guild_id : Z) : M (option string) :=
  let query := sql_select [Column]
                 (fun d => map uh_handle
                             (filter (same_binding user_id guild_id)
                                     (user_handle d))) in
  cur <- execute query ;;
  res <- fetchone (PyCursor cur) ;;
  ret res.

(** ** Duels *)

(** The fields of [cf.Problem] the module reads. *)
Record Problem := {
  name : string;
  contestId : Z;
  index : string
}.

Definition with_duel_status (status : Z) (r : duel_row) : duel_row :=
  {| d_id := d_id r; d_challenger := d_challenger r;
     d_challengee := d_challengee r; d_issue_time := d_issue_time r;
     d_start_time := d_start_time r; d_finish_time := d_finish_time r;
     d_problem_name := d_problem_name r; d_contest_id := d_contest_id r;
     d_p_index := d_p_index r; d_status := Some status;
     d_winner := d_winner r; d_type := d_type r |}.

Definition with_duel_started (start_time : time) (r : duel_row) : duel_row :=
  {| d_id := d_id r; d_challenger := d_challenger r;
     d_challengee := d_challengee r; d_issue_time := d_issue_time r;
     d_start_time := Some start_time; d_finish_time := d_finish_time r;
     d_problem_name := d_problem_name r; d_contest_id := d_contest_id r;
     d_p_index := d_p_index r;
     d_status := Some (Duel.value Duel.ONGOING);
     d_winner := d_winner r; d_type := d_type r |}.

Definition with_duel_completed (finish_time : time) (winner : Z)
    (r : duel_row) : duel_row :=
  {| d_id := d_id r; d_challenger := d_challenger r;
     d_challengee := d_challengee r; d_issue_time := d_issue_time r;
     d_start_time := d_start_time r; d_finish_time := Some finish_time;
     d_problem_name := d_problem_name r; d_contest_id := d_contest_id r;
     d_p_index := d_p_index r;
     d_status := Some (Duel.value Duel.COMPLETE);
     d_winner := Some winner; d_type := d_type r |}.

(** [WHERE id = %s AND status = {st}] *)
Definition duel_in (st : Duel.t) (duelid : Z) (r : duel_row) : bool :=
  (d_id r =? duelid) && sql_eq (d_status r) (Duel.value st).

(** [WHERE (challengee = %s OR challenger = %s)] *)
Definition involves (userid : Z) (r : duel_row) : bool :=
  (d_challengee r =? userid) || (d_challenger r =? userid).

Definition check_duel_decline (challengee : Z) : M (option (Z * Z)) :=
  let query := sql_select [Column; Column]
                 (fun d => map (fun r => (d_id r, d_challenger r))
                             (filter (fun r =>
                                        (d_challengee r =? challengee)
                                        && sql_eq (d_status r)
                                                  (Duel.value Duel.PENDING))
                                     (duel d))) in
  cur <- execute query ;;
  fetchone (PyCursor cur).

Definition check_duel_withdraw (challenger : Z) : M (option (Z * Z)) :=
  let query := sql_select [Column; Column]
                 (fun d => map (fun r => (d_id r, d_challengee r))
                             (filter (fun r =>
                                        (d_challenger r =? challenger)
                                        && sql_eq (d_status r)
                                                  (Duel.value Duel.PENDING))
                                     (duel d))) in
  cur <- execute query ;;
  cur' <- execute query ;;
  fetchone (execute_value cur').

(** The values of an INTEGER column: 32 bits, signed. *)
Definition fits_integer (z : Z) : bool :=
  (-2147483648 <=? z) && (z <=? 2147483647).

(** [INSERT INTO duel (...) VALUES (...)].  The columns challenger,
    challengee, contest_id and type are INTEGER: a value outside the
    range is refused when the statement is planned, before the sequence
    is asked for an id.  Otherwise the id comes from the SERIAL sequence,
    and the primary key rejects an id already in the table. *)
Definition insert_duel (challenger challengee : Z) (issue_time : time)
    (prob : Problem) (dtype : Z) : statement unit :=
  fun s d =>
    if negb (fits_integer challenger && fits_integer challengee
             && fits_integer (contestId prob) && fits_integer dtype)
    then (s, inl NumericValueOutOfRange)
    else
    let (id, s') := next_duel_id s in
    let row := {| d_id := id; d_challenger := challenger;
                  d_challengee := challengee; d_issue_time := issue_time;
                  d_start_time := None; d_finish_time := None;
                  d_problem_name := Some (name prob);
                  d_contest_id := Some (contestId prob);
                  d_p_index := Some (index prob);
                  d_status := Some (Duel.value Duel.PENDING);
                  d_winner := None; d_type := Some dtype |} in
    if existsb (fun r => d_id r =? id) (duel d)
    then (s', inl UniqueViolation)
    else (s', inr (set_duel (duel d ++ [row]) d,
                   {| rows := []; rowcount := 1; lastrowid := InvalidOid |})).

Definition create_duel (challenger challengee : Z) (issue_time : time)
    (prob : Problem) (dtype : Z) : M Z :=
  cur <- execute (insert_duel challenger challengee issue_time prob dtype) ;;
  let duelid := lastrowid cur in
  commit ;;;
  ret duelid.

Definition cancel_duel (duelid status : Z) : M Z :=
  let query := sql_update duel set_duel
                 (duel_in Duel.PENDING duelid) (with_duel_status status) in
  cur <- execute query ;;
  let rc := rowcount cur in
  if negb (rc =? 1) then rollback ;;; ret 0
  else commit ;;; ret rc.

Definition invalidate_duel (duelid : Z) : M Z :=
  let query := sql_update duel set_duel
                 (duel_in Duel.ONGOING duelid)
                 (with_duel_status (Duel.value Duel.INVALID)) in
  cur <- execute query ;;
  let rc := rowcount cur in
  if negb (rc =? 1) then rollback ;;; ret 0
  else commit ;;; ret rc.

(** The query text of [start_duel] has a [;] after the SET clause:
    [UPDATE duel SET start_time = %s, status = 4;] is a statement without
    WHERE, and [WHERE id = %s AND status = 0;] is not a statement. *)
Definition start_duel (duelid : Z) (start_time : time) : M Z :=
  let query := sql_script
                 [ Some (sql_update duel set_duel (fun _ => true)
                                    (with_duel_started start_time));
                   None ] in
  cur <- execute query ;;
  let rc := rowcount cur in
  if negb (rc =? 1) then rollback ;;; ret 0
  else commit ;;; ret rc.

Definition with_rating_delta (delta : Z) (r : duelist_row) : duelist_row :=
  {| dl_user_id := dl_user_id r; dl_rating := dl_rating r + delta |}.

Definition update_duel_rating (userid delta : Z) : M Z :=
  let query := sql_update duelist set_duelist
                 (fun r => dl_user_id r =? userid)
                 (with_rating_delta delta) in
  cur <- execute query ;;
  let rc := rowcount cur in
  commit ;;;
  ret rc.

(** The keyword arguments of [complete_duel] ([winner_id = -1],
    [loser_id = -1], [delta = 0], [dtype = DuelType.OFFICIAL]) are passed
    explicitly. *)
Definition complete_duel (duelid winner : Z) (finish_time : time)
    (winner_id loser_id delta dtype : Z) : M Z :=
  let query := sql_update duel set_duel
                 (duel_in Duel.ONGOING duelid)
                 (with_duel_completed finish_time winner) in
  cur <- execute query ;;
  let rc := rowcount cur in
  if negb (rc =? 1) then rollback ;;; ret 0
  else
    (if dtype =? DuelType.value DuelType.OFFICIAL
     then update_duel_rating winner_id delta ;;;
          update_duel_rating loser_id (- delta) ;;;
          ret tt
     else ret tt) ;;;
    commit ;;;
    ret 1.

(** [SELECT COUNT( * ) FROM duel WHERE p] followed by [fetchone()[0]]. *)
Definition count_duels (p : duel_row -> bool) : M Z :=
  let query := sql_select [Aggregate]
                 (fun d => [count_where p (duel d)]) in
  cur <- execute query ;;
  row <- fetchone (PyCursor cur) ;;
  getitem row (fun n => n).

Definition get_num_duel_completed (userid : Z) : M Z :=
  count_duels (fun r => involves userid r
                        && sql_eq (d_status r) (Duel.value Duel.COMPLETE)).

Definition get_num_duel_draws (userid : Z) : M Z :=
  count_duels (fun r => involves userid r
                        && sql_eq (d_winner r) (Winner.value Winner.DRAW)).

Definition get_num_duel_losses (userid : Z) : M Z :=
  count_duels (fun r =>
                 (((d_challengee r =? userid)
                   && sql_eq (d_winner r) (Winner.value Winner.CHALLENGER))
                  || ((d_challenger r =? userid)
                      && sql_eq (d_winner r) (Winner.value Winner.CHALLENGEE)))
                 && sql_eq (d_status r) (Duel.value Duel.COMPLETE)).

Definition get_num_duel_declined (userid : Z) : M Z :=
  count_duels (fun r => (d_challengee r =? userid)
                        && sql_eq (d_status r) (Duel.value Duel.DECLINED)).

Definition get_num_duel_rdeclined (userid : Z) : M Z :=
  count_duels (fun r => (d_challenger r =? userid)
                        && sql_eq (d_status r) (Duel.value Duel.DECLINED)).

Definition get_duel_rating (userid : Z) : M Z :=
  let query := sql_select [Column]
                 (fun d => map dl_rating
                             (filter (fun r => dl_user_id r =? userid)
                                     (duelist d))) in
  cur <- execute query ;;
  row <- fetchone (PyCursor cur) ;;
  getitem row (fun rating => rating).

(** ** Rated virtual contests *)

Definition same_participation (vc user_id : Z) (r : rated_vc_user_row)
  : bool :=
  (vu_vc_id r =? vc) && (vu_user_id r =? user_id).

(** [FOREIGN KEY (vc_id) REFERENCES rated_vcs(id)] *)
Definition references_vc (vc : Z) (d : db) : bool :=
  existsb (fun r => vc_id r =? vc) (rated_vcs d).

(** [INSERT INTO rated_vcs (...) VALUES (...)] *)
Definition insert_rated_vc (contest_id : Z) (start_time finish_time : time)
    (status : Z) (guild_id : Z) : statement unit :=
  fun s d =>
    let (id, s') := next_rated_vc_id s in
    let row := {| vc_id := id; vc_contest_id := contest_id;
                  vc_start_time := Some start_time;
                  vc_finish_time := Some finish_time;
                  vc_status := Some status; vc_guild_id := Some guild_id |} in
    if existsb (fun r => vc_id r =? id) (rated_vcs d)
    then (s', inl UniqueViolation)
    else (s', inr (set_rated_vcs (rated_vcs d ++ [row]) d,
                   {| rows := []; rowcount := 1; lastrowid := InvalidOid |})).

(** [INSERT INTO rated_vc_users (vc_id, user_id) VALUES (...)]: the primary
    key (vc_id, user_id) rejects a second row of the pair, and [fk_vc]
    rejects a vc_id that is no id of [rated_vcs]. *)
Definition insert_rated_vc_user (vc user_id : Z) : statement unit :=
  fun s d =>
    let t := rated_vc_users d in
    let row := {| vu_vc_id := vc; vu_user_id := user_id;
                  vu_rating := None |} in
    if existsb (same_participation vc user_id) t
    then (s, inl UniqueViolation)
    else if references_vc vc d
    then (s, inr (set_rated_vc_users (t ++ [row]) d,
                  {| rows := []; rowcount := 1; lastrowid := InvalidOid |}))
    else (s, inl ForeignKeyViolation).

Definition create_rated_vc (contest_id : Z) (start_time finish_time : time)
    (guild_id : Z) (user_ids : list Z) : M Z :=
  with_conn
    (cur <- execute (insert_rated_vc contest_id start_time finish_time
                       (RatedVC.value RatedVC.ONGOING) guild_id) ;;
     let id := lastrowid cur in
     for_each user_ids
       (fun user_id => execute (insert_rated_vc_user id user_id) ;;; ret tt) ;;;
     ret id).

Definition with_vc_rating (rating : Z) (r : rated_vc_user_row)
  : rated_vc_user_row :=
  {| vu_vc_id := vu_vc_id r; vu_user_id := vu_user_id r;
     vu_rating := Some rating |}.

(** [INSERT INTO rated_vc_users (vc_id, user_id, rating) VALUES (...)
    ON CONFLICT (vc_id, user_id) DO UPDATE SET rating = EXCLUDED.rating] *)
Definition upsert_vc_rating (vc user_id rating : Z) : statement unit :=
  fun s d =>
    let t := rated_vc_users d in
    let row := {| vu_vc_id := vc; vu_user_id := user_id;
                  vu_rating := Some rating |} in
    if existsb (same_participation vc user_id) t
    then (s, inr (set_rated_vc_users
                    (update_where (same_participation vc user_id)
                                  (with_vc_rating rating) t) d,
                  {| rows := []; rowcount := 1; lastrowid := InvalidOid |}))
    else if references_vc vc d
    then (s, inr (set_rated_vc_users (t ++ [row]) d,
                  {| rows := []; rowcount := 1; lastrowid := InvalidOid |}))
    else (s, inl ForeignKeyViolation).

Definition update_vc_rating (vc user_id rating : Z) : M unit :=
  with_conn (execute (upsert_vc_rating vc user_id rating) ;;; ret tt).

(** The row of [SELECT MAX(vc_id) AS latest_vc_id, rating]. *)
Record vc_rating_row := {
  latest_vc_id : option Z;
  rating : option Z
}.

Definition is_rated (user_id : Z) (r : rated_vc_user_row) : bool :=
  (vu_user_id r =? user_id)
  && match vu_rating r with Some _ => true | None => false end.

(** The select list of [get_vc_rating] names the aggregate [MAX(vc_id)]
    and the plain column [rating].  The row given here is the one the
    text is after: the largest vc_id and the rating stored with it. *)
Definition latest_rating_row (user_id : Z) (d : db) : vc_rating_row :=
  let mine := filter (is_rated user_id) (rated_vc_users d) in
  let latest := sql_max (map vu_vc_id mine) in
  {| latest_vc_id := latest;
     rating := match latest with
               | Some m =>
                   match find (fun r => vu_vc_id r =? m) mine with
                   | Some r => vu_rating r
                   | None => None
                   end
               | None => None
               end |}.

Definition get_vc_rating (user_id : Z) (default_if_not_exist : bool)
  : M (option Z) :=
  let query := sql_select [Aggregate; Column]
                 (fun d => [latest_rating_row user_id d]) in
  row <- _fetchone query ;;
  rating <- getattr row rating ;;
  match rating with
  | None => if default_if_not_exist then ret (Some _DEFAULT_VC_RATING)
            else ret None
  | Some r => ret (Some r)
  end.

(** [int(channel_id[0]) if channel_id else None]; [int(None)] raises. *)
Definition int_of_channel (channel_id : option (option Z)) : M (option Z) :=
  match channel_id with
  | None => ret None
  | Some None => raise TypeError
  | Some (Some c) => ret (Some c)
  end.

Definition get_rated_vc_channel (guild_id : Z) : M (option Z) :=
  let query := sql_select [Column]
                 (fun d => map vs_channel_id
                             (filter (fun r => vs_guild_id r =? guild_id)
                                     (rated_vc_settings d))) in
  cur <- execute query ;;
  fetchone (execute_value cur) ;;;
  channel_id <- fetchone (PyCursor cur) ;;
  int_of_channel channel_id.

Definition remove_last_ratedvc_participation (user_id : Z) : M Z :=
  let query := sql_select [Aggregate]
                 (fun d => [sql_max
                              (map vu_vc_id
                                   (filter (fun r => vu_user_id r =? user_id)
                                           (rated_vc_users d)))]) in
  row <- _fetchone query ;;
  vc <- getattr row (fun v => v) ;;
  let query := sql_delete rated_vc_users set_rated_vc_users
                 (fun r => (vu_user_id r =? user_id)
                           && sql_eq_param (vu_vc_id r) vc) in
  with_conn (cur <- execute query ;; ret (rowcount cur)).


(** * Reference statements and example databases *)

(** ** Completing a duel *)

(** The duel table after the guarded flip of [complete_duel]. *)
Definition duels_completed (duelid winner : Z) (finish_time : time)
    (t : list duel_row) : list duel_row :=
  update_where (duel_in Duel.ONGOING duelid)
               (with_duel_completed finish_time winner) t.

(** The ledger after [delta] was added to the rows of [userid]; a user
    without a row leaves it as it is. *)
Definition credited (userid delta : Z) (t : list duelist_row)
  : list duelist_row :=
  update_where (fun r => dl_user_id r =? userid) (with_rating_delta delta) t.

(** The ledger after an official completion, and after any other. *)
Definition settled (dtype winner_id loser_id delta : Z)
    (t : list duelist_row) : list duelist_row :=
  if dtype =? DuelType.value DuelType.OFFICIAL
  then credited loser_id (- delta) (credited winner_id delta t)
  else t.

Definition has_duelist (userid : Z) (d : db) : bool :=
  existsb (fun r => dl_user_id r =? userid) (duelist d).

(** The all-or-nothing reading of an official completion: when one of the
    three writes finds no row to change, the committed database is the
    one before the call. *)
Definition complete_duel_all_or_nothing (d : db) (s : seqs)
    (duelid winner : Z) (finish_time : time) (winner_id loser_id delta : Z)
  : Prop :=
  existsb (duel_in Duel.ONGOING duelid) (duel d)
  && has_duelist winner_id d && has_duelist loser_id d = false ->
  committed (snd (complete_duel duelid winner finish_time winner_id loser_id
                    delta (DuelType.value DuelType.OFFICIAL) (at_rest d s)))
  = d.

Definition fresh_seqs : seqs := {| duel_id_seq := 1; rated_vcs_id_seq := 1 |}.

Definition a_duel (id challenger challengee : Z) (status : Duel.t)
    (winner : option Z) : duel_row :=
  {| d_id := id; d_challenger := challenger; d_challengee := challengee;
     d_issue_time := 50; d_start_time := None; d_finish_time := None;
     d_problem_name := None; d_contest_id := None; d_p_index := None;
     d_status := Some (Duel.value status); d_winner := winner;
     d_type := Some (DuelType.value DuelType.OFFICIAL) |}.

(** Duel 1 between users 10 and 20 is ongoing; only user 20 is a
    registered duelist. *)
Definition db_unregistered_winner : db :=
  set_duel [a_duel 1 10 20 Duel.ONGOING None]
    (set_duelist [{| dl_user_id := 20; dl_rating := 1500 |}] empty_db).

(** ** Example databases *)

(** Duel 1 between users 10 and 20 has been issued and not answered. *)
Definition db_pending_duel : db :=
  set_duel [a_duel 1 10 20 Duel.PENDING None] empty_db.

(** User 7 took part in the rated VCs 3 and 7. *)
Definition db_two_vc_ratings : db :=
  set_rated_vcs
    [ {| vc_id := 3; vc_contest_id := 1000; vc_start_time := Some 0;
         vc_finish_time := Some 10;
         vc_status := Some (RatedVC.value RatedVC.FINISHED);
         vc_guild_id := Some 1 |};
      {| vc_id := 7; vc_contest_id := 1001; vc_start_time := Some 20;
         vc_finish_time := Some 30;
         vc_status := Some (RatedVC.value RatedVC.FINISHED);
         vc_guild_id := Some 1 |} ]
    (set_rated_vc_users
       [ {| vu_vc_id := 3; vu_user_id := 7; vu_rating := Some 1600 |};
         {| vu_vc_id := 7; vu_user_id := 7; vu_rating := Some 1450 |} ]
       empty_db).

Definition a_problem : Problem :=
  {| name := "Watermelon"; contestId := 4; index := "A" |}.

(** ** Duel statistics *)

Definition is_complete (r : duel_row) : bool :=
  sql_eq (d_status r) (Duel.value Duel.COMPLETE).

Definition is_declined (r : duel_row) : bool :=
  sql_eq (d_status r) (Duel.value Duel.DECLINED).

(** The user took part and the duel was drawn. *)
Definition is_draw_of (userid : Z) (r : duel_row) : bool :=
  involves userid r && sql_eq (d_winner r) (Winner.value Winner.DRAW).

(** The user took part and the other side won. *)
Definition is_loss_of (userid : Z) (r : duel_row) : bool :=
  ((d_challengee r =? userid)
   && sql_eq (d_winner r) (Winner.value Winner.CHALLENGER))
  || ((d_challenger r =? userid)
      && sql_eq (d_winner r) (Winner.value Winner.CHALLENGEE)).

(** The number of COMPLETE duels involving the user whose winner is
    DRAW. *)
Definition num_complete_draws (userid : Z) (d : db) : Z :=
  count_where (is_draw_of userid) (filter is_complete (duel d)).

(** The claim on [get_num_duel_draws] at one database and user. *)
Definition draws_count_complete_only (d : db) (s : seqs) (userid : Z)
  : Prop :=
  fst (get_num_duel_draws userid (at_rest d s))
  = Ret (num_complete_draws userid d).

(** The claim on a count query at one database and user: the duels that
    are not COMPLETE do not count, that is, the query answers as it does
    on the COMPLETE duels alone. *)
Definition counts_complete_only (query : Z -> M Z) (d : db) (s : seqs)
    (userid : Z) : Prop :=
  fst (query userid (at_rest d s))
  = fst (query userid
               (at_rest (set_duel (filter is_complete (duel d)) d) s)).

(** A winner is recorded only on COMPLETE duels. *)
Definition winner_at_complete (r : duel_row) : bool :=
  match d_winner r with
  | None => true
  | Some _ => is_complete r
  end.

Definition winner_only_at_complete (d : db) : bool :=
  forallb winner_at_complete (duel d).

(** User 10 challenged user 20, who declined: the database that
    [create_duel] and [cancel_duel] leave, see [declined_duel_is_produced]. *)
Definition db_declined_duel : db :=
  set_duel
    [ {| d_id := 1; d_challenger := 10; d_challengee := 20;
         d_issue_time := 50; d_start_time := None; d_finish_time := None;
         d_problem_name := Some "Watermelon"%string;
         d_contest_id := Some 4; d_p_index := Some "A"%string;
         d_status := Some (Duel.value Duel.DECLINED); d_winner := None;
         d_type := Some (DuelType.value DuelType.OFFICIAL) |} ]
    empty_db.

(** Duel 1 was invalidated, yet carries the winner value DRAW. *)
Definition db_invalid_draw : db :=
  set_duel [a_duel 1 10 20 Duel.INVALID (Some (Winner.value Winner.DRAW))]
           empty_db.

(** User 10 drew duel 1, lost duel 2 and has duel 3 pending. *)
Definition db_draw_and_loss : db :=
  set_duel
    [ a_duel 1 10 20 Duel.COMPLETE (Some (Winner.value Winner.DRAW));
      a_duel 2 10 30 Duel.COMPLETE (Some (Winner.value Winner.CHALLENGEE));
      a_duel 3 40 10 Duel.PENDING None ]
    empty_db.

(** ** Challenges *)

(** The skip counter of a user, when the user has a row. *)
Definition skipped_of (userid : Z) (d : db) : option Z :=
  option_map uc_num_skipped
             (find (fun r => uc_user_id r =? userid) (user_challenge d)).

(** The claim on the skip counter at one call: a skip that succeeds leaves
    the user with another skip count than before. *)
Definition skip_counter_updated (d : db) (s : seqs)
    (user_id challenge_id status : Z) : Prop :=
  fst (skip_challenge user_id challenge_id status (at_rest d s)) = Ret 1 ->
  skipped_of user_id
             (committed (snd (skip_challenge user_id challenge_id status
                                (at_rest d s))))
  <> skipped_of user_id d.

(** The tables after a completion and after a skip that went through. *)
Definition challenge_completed (user_id challenge_id : Z) (finish_time : time)
    (delta : Z) (d : db) : db :=
  set_user_challenge
    (update_where (has_active user_id challenge_id) (with_completed delta)
                  (user_challenge d))
    (set_challenge
       (update_where (is_gitgud challenge_id)
                     (with_challenge_done finish_time) (challenge d))
       d).

Definition challenge_skipped (user_id challenge_id status : Z) (d : db) : db :=
  set_challenge
    (update_where (is_gitgud challenge_id) (with_challenge_status status)
                  (challenge d))
    (set_user_challenge
       (update_where (has_active user_id challenge_id) with_slot_cleared
                     (user_challenge d))
       d).

(** The challenge is GITGUD and it is the one in the user's slot. *)
Definition is_active_gitgud (user_id challenge_id : Z) (d : db) : bool :=
  existsb (is_gitgud challenge_id) (challenge d)
  && existsb (has_active user_id challenge_id) (user_challenge d).

(** User 7 works on challenge 1 and has skipped three challenges so far. *)
Definition db_active_challenge : db :=
  set_challenge
    [ {| ch_id := 1; ch_user_id := 7; ch_issue_time := 50;
         ch_finish_time := None; ch_problem_name := "Watermelon";
         ch_contest_id := 4; ch_p_index := "A"; ch_rating_delta := 100;
         ch_status := Gitgud.value Gitgud.GITGUD |} ]
    (set_user_challenge
       [ {| uc_user_id := 7; uc_active_challenge_id := Some 1;
            uc_issue_time := Some 50; uc_score := 40;
            uc_num_completed := 2; uc_num_skipped := 3 |} ]
       empty_db).

(** ** Rated VC participations *)

(** The primary key of [rated_vc_users]. *)
Definition vc_key (r : rated_vc_user_row) : Z * Z :=
  (vu_vc_id r, vu_user_id r).

(** The claim on two calls of [update_vc_rating] at one database: after
    the second call, made on the connection the first call left, exactly
    one participation row has the key (vc, user). *)
Definition one_row_after_two_ratings (d : db) (s : seqs)
    (vc user_id r1 r2 : Z) : Prop :=
  count_where
    (same_participation vc user_id)
    (rated_vc_users
       (committed
          (snd (update_vc_rating vc user_id r2
                  (snd (update_vc_rating vc user_id r1 (at_rest d s)))))))
  = 1.

(** The participation table after [upsert_vc_rating] went through. *)
Definition rating_recorded (vc user_id rating : Z)
    (t : list rated_vc_user_row) : list rated_vc_user_row :=
  if existsb (same_participation vc user_id) t
  then update_where (same_participation vc user_id) (with_vc_rating rating) t
  else t ++ [{| vu_vc_id := vc; vu_user_id := user_id;
                vu_rating := Some rating |}].

(** ** Handle bindings *)

(** The columns of the unique index [ix_user_handle_guild_handle]. *)
Definition handle_key (r : user_handle_row) : Z * string :=
  (uh_guild_id r, uh_handle r).

(** The handle is bound to the user in the guild. *)
Definition handle_bound (user_id guild_id : Z) (handle : string) (d : db)
  : Prop :=
  exists r, In r (user_handle d) /\ uh_user_id r = user_id
            /\ uh_guild_id r = guild_id /\ uh_handle r = handle.

(** The handle is bound to the user in the guild and the binding is
    active. *)
Definition handle_active (user_id guild_id : Z) (handle : string) (d : db)
  : Prop :=
  exists r, In r (user_handle d) /\ uh_user_id r = user_id
            /\ uh_guild_id r = guild_id /\ uh_handle r = handle
            /\ uh_active r = Some 1.

(** In guild 1, user 100 holds the handle tourist and user 200 the handle
    Petr. *)
Definition db_handles : db :=
  set_user_handle
    [ {| uh_user_id := 100; uh_guild_id := 1; uh_handle := "tourist";
         uh_active := Some 1 |};
      {| uh_user_id := 200; uh_guild_id := 1; uh_handle := "Petr";
         uh_active := Some 1 |} ]
    empty_db.

(** The participations of a user, rated or not. *)
Definition participations (user_id : Z) (d : db) : list rated_vc_user_row :=
  filter (fun r => vu_user_id r =? user_id) (rated_vc_users d).

(** User 7 has a rating from VC 3 and is on the roster of VC 7, not yet
    rated; user 8 has a rating from VC 7. *)
Definition db_unrated_last : db :=
  set_rated_vc_users
    [ {| vu_vc_id := 3; vu_user_id := 7; vu_rating := Some 1600 |};
      {| vu_vc_id := 7; vu_user_id := 7; vu_rating := None |};
      {| vu_vc_id := 7; vu_user_id := 8; vu_rating := Some 1450 |} ]
    db_two_vc_ratings.

(** * Further methods of [UserDbConn]

    A SELECT without ORDER BY yields its rows in the order of the table
    here, where the server promises no order: the properties of results
    with several rows are stated by membership and length, and a single
    fetched row is used only where the selection has one row or where
    all selected rows agree. *)

(** [o.fetchall()] *)
Definition fetchall {R} (o : pyobject R) : M (list R) :=
  match o with
  | PyNone => raise AttributeError
  | PyCursor cur => ret (rows cur)
  end.

(** [_fetchall(query, params, cursor_factory)] *)
Definition _fetchall {R} (query : statement R) : M (list R) :=
  cur <- execute query ;;
  fetchall (PyCursor cur).

(** [cur.executemany(query, params)]: one execution per parameter tuple;
    the cursor ends with the sum of the row counts. *)
Fixpoint executemany_from {A} (query : A -> statement unit)
    (params : list A) (total : Z) : M Z :=
  match params with
  | [] => ret total
  | p :: rest =>
      cur <- execute (query p) ;;
      executemany_from query rest (total + rowcount cur)
  end.

Definition executemany {A} (query : A -> statement unit) (params : list A)
  : M Z :=
  executemany_from query params 0.

Definition set_rated_vc_settings (t : list rated_vc_settings_row) (d : db)
  : db :=
  {| user_handle := user_handle d; duelist := duelist d; duel := duel d;
     challenge := challenge d; user_challenge := user_challenge d;
     rated_vcs := rated_vcs d; rated_vc_users := rated_vc_users d;
     rated_vc_settings := t |}.

(** ** Handles *)

Definition with_active (active : Z) (r : user_handle_row) : user_handle_row :=
  {| uh_user_id := uh_user_id r; uh_guild_id := uh_guild_id r;
     uh_handle := uh_handle r; uh_active := Some active |}.

(** The parameter tuples of [set_inactive] are (guild_id, user_id). *)
Definition set_inactive (guild_id_user_id_pairs : list (Z * Z)) : M Z :=
  let query := fun pair : Z * Z =>
                 sql_update user_handle set_user_handle
                   (fun r => (uh_guild_id r =? fst pair)
                             && (uh_user_id r =? snd pair))
                   (with_active 0) in
  with_conn (executemany query guild_id_user_id_pairs).

Definition remove_handle (user_id guild_id : Z) : M Z :=
  let query := sql_delete user_handle set_user_handle
                 (same_binding user_id guild_id) in
  with_conn (cur <- execute query ;; ret (rowcount cur)).

Definition get_handles_for_guild (guild_id : Z) : M (list (Z * string)) :=
  let query := sql_select [Column; Column]
                 (fun d => map (fun r => (uh_user_id r, uh_handle r))
                             (filter (fun r => (uh_guild_id r =? guild_id)
                                               && sql_eq (uh_active r) 1)
                                     (user_handle d))) in
  cur <- execute query ;;
  res <- fetchall (PyCursor cur) ;;
  ret res.

Definition reset_status (id : Z) : M unit :=
  let inactive_query := sql_update user_handle set_user_handle
                          (fun r => uh_guild_id r =? id) (with_active 0) in
  execute inactive_query ;;;
  commit.

Definition update_status (guild_id : Z) (active_ids : list Z) : M Z :=
  match active_ids with
  | [] => ret 0
  | _ :: _ =>
      let active_query :=
        sql_update user_handle set_user_handle
          (fun r => existsb (fun id => uh_user_id r =? id) active_ids
                    && (uh_guild_id r =? guild_id))
          (with_active 1) in
      cur <- execute active_query ;;
      let rc := rowcount cur in
      commit ;;;
      ret rc
  end.

(** ** Duels *)

Definition check_duel_challenge (userid : Z) : M (option Z) :=
  let query := sql_select [Column]
                 (fun d => map d_id
                             (filter (fun r =>
                                        involves userid r
                                        && (sql_eq (d_status r)
                                                   (Duel.value Duel.ONGOING)
                                            || sql_eq (d_status r)
                                                      (Duel.value Duel.PENDING)))
                                     (duel d))) in
  cur <- execute query ;;
  fetchone (PyCursor cur).

Definition check_duel_accept (challengee : Z)
  : M (option (Z * Z * option string)) :=
  let query := sql_select [Column; Column; Column]
                 (fun d => map (fun r => (d_id r, d_challenger r,
                                          d_problem_name r))
                             (filter (fun r =>
                                        (d_challengee r =? challengee)
                                        && sql_eq (d_status r)
                                                  (Duel.value Duel.PENDING))
                                     (duel d))) in
  cur <- execute query ;;
  fetchone (PyCursor cur).

(** The row of [get_duel_wins]. *)
Record duel_win := {
  dw_start_time : option time;
  dw_finish_time : option time;
  dw_problem_name : option string;
  dw_challenger : Z;
  dw_challengee : Z
}.

Definition is_win_of (userid : Z) (r : duel_row) : bool :=
  ((d_challenger r =? userid)
   && sql_eq (d_winner r) (Winner.value Winner.CHALLENGER))
  || ((d_challengee r =? userid)
      && sql_eq (d_winner r) (Winner.value Winner.CHALLENGEE)).

Definition get_duel_wins (userid : Z) : M (list duel_win) :=
  let query := sql_select [Column; Column; Column; Column; Column]
                 (fun d => map (fun r =>
                                  {| dw_start_time := d_start_time r;
                                     dw_finish_time := d_finish_time r;
                                     dw_problem_name := d_problem_name r;
                                     dw_challenger := d_challenger r;
                                     dw_challengee := d_challengee r |})
                             (filter (fun r =>
                                        is_win_of userid r
                                        && sql_eq (d_status r)
                                                  (Duel.value Duel.COMPLETE))
                                     (duel d))) in
  cur <- execute query ;;
  fetchall (PyCursor cur).

(** [SELECT 1 FROM duelist WHERE user_id = %s]; the constant of the
    select list is no aggregate. *)
Definition is_duelist (userid : Z) : M (option Z) :=
  let query := sql_select [Column]
                 (fun d => map (fun _ => 1)
                             (filter (fun r => dl_user_id r =? userid)
                                     (duelist d))) in
  cur <- execute query ;;
  fetchone (PyCursor cur).

(** [INSERT INTO duelist (user_id, rating) VALUES (%s, 1500)
    ON CONFLICT DO NOTHING] *)
Definition insert_duelist (userid : Z) : statement unit :=
  fun s d =>
    if existsb (fun r => dl_user_id r =? userid) (duelist d)
    then (s, inr (d, {| rows := []; rowcount := 0;
                        lastrowid := InvalidOid |}))
    else (s, inr (set_duelist
                    (duelist d ++ [{| dl_user_id := userid;
                                      dl_rating := 1500 |}]) d,
                  {| rows := []; rowcount := 1; lastrowid := InvalidOid |})).

Definition register_duelist (userid : Z) : M Z :=
  with_conn (cur <- execute (insert_duelist userid) ;; ret (rowcount cur)).

(** ** Rated virtual contests *)

Definition with_vc_status (status : Z) (r : rated_vc_row) : rated_vc_row :=
  {| vc_id := vc_id r; vc_contest_id := vc_contest_id r;
     vc_start_time := vc_start_time r; vc_finish_time := vc_finish_time r;
     vc_status := Some status; vc_guild_id := vc_guild_id r |}.

Definition get_ongoing_rated_vc_ids : M (list Z) :=
  let query := sql_select [Column]
                 (fun d => map vc_id
                             (filter (fun r =>
                                        sql_eq (vc_status r)
                                               (RatedVC.value RatedVC.ONGOING))
                                     (rated_vcs d))) in
  vcs <- _fetchall query ;;
  let vc_ids := map (fun id => id) vcs in
  ret vc_ids.

Definition finish_rated_vc (vc : Z) : M unit :=
  let query := sql_update rated_vcs set_rated_vcs
                 (fun r => vc_id r =? vc)
                 (with_vc_status (RatedVC.value RatedVC.FINISHED)) in
  with_conn (execute query ;;; ret tt).

Definition get_vc_rating_history (user_id : Z) : M (list (Z * option Z)) :=
  let query := sql_select [Column; Column]
                 (fun d => map (fun r => (vu_vc_id r, vu_rating r))
                             (filter (is_rated user_id) (rated_vc_users d))) in
  ratings <- _fetchall query ;;
  ret ratings.

(** [INSERT INTO rated_vc_settings (guild_id, channel_id) VALUES (...)
    ON CONFLICT (guild_id) DO UPDATE SET channel_id = EXCLUDED.channel_id] *)
Definition upsert_rated_vc_channel (guild_id channel_id : Z)
  : statement unit :=
  fun s d =>
    let t := rated_vc_settings d in
    let row := {| vs_guild_id := guild_id; vs_channel_id := Some channel_id |} in
    if existsb (fun r => vs_guild_id r =? guild_id) t
    then (s, inr (set_rated_vc_settings
                    (update_where (fun r => vs_guild_id r =? guild_id)
                                  (fun _ => row) t) d,
                  {| rows := []; rowcount := 1; lastrowid := InvalidOid |}))
    else (s, inr (set_rated_vc_settings (t ++ [row]) d,
                  {| rows := []; rowcount := 1; lastrowid := InvalidOid |})).

Definition set_rated_vc_channel (guild_id channel_id : Z) : M unit :=
  with_conn (execute (upsert_rated_vc_channel guild_id channel_id) ;;; ret tt).

(** * Reference statements for the further properties *)

(** The duel is PENDING or ONGOING. *)
Definition is_open (r : duel_row) : bool :=
  sql_eq (d_status r) (Duel.value Duel.PENDING)
  || sql_eq (d_status r) (Duel.value Duel.ONGOING).

(** The sum of the ratings of the ledger. *)
Definition total_rating (t : list duelist_row) : Z :=
  fold_right (fun r acc => dl_rating r + acc) 0 t.

(** Duel 1 is COMPLETE, duel 2 is ONGOING; users 10 and 20 are
    registered duelists. *)
Definition db_duels : db :=
  set_duel
    [ a_duel 1 10 20 Duel.COMPLETE (Some (Winner.value Winner.CHALLENGER));
      a_duel 2 10 20 Duel.ONGOING None ]
    (set_duelist [ {| dl_user_id := 10; dl_rating := 1520 |};
                   {| dl_user_id := 20; dl_rating := 1480 |} ]
                 empty_db).

(** A duel row as the bot writes it: the two sides differ, a COMPLETE
    duel carries one of the three winner values, and no other duel
    carries a winner. *)
Definition well_formed_duel (r : duel_row) : bool :=
  negb (d_challenger r =? d_challengee r)
  && match d_winner r with
     | None => negb (is_complete r)
     | Some w =>
         is_complete r
         && ((w =? Winner.value Winner.DRAW)
             || (w =? Winner.value Winner.CHALLENGER)
             || (w =? Winner.value Winner.CHALLENGEE))
     end.

(** 1 for a selected row, 0 for another. *)
Definition indicator (b : bool) : Z := if b then 1 else 0.

(** The challengee has a PENDING challenge to answer. *)
Definition is_challenged (challengee : Z) (r : duel_row) : bool :=
  (d_challengee r =? challengee)
  && sql_eq (d_status r) (Duel.value Duel.PENDING).


(** In guild 1 user 100 holds tourist and user 200 holds Petr; in guild 2
    user 100 holds Um_nik, inactive. *)
Definition db_two_guilds : db :=
  set_user_handle
    [ {| uh_user_id := 100; uh_guild_id := 1; uh_handle := "tourist";
         uh_active := Some 1 |};
      {| uh_user_id := 200; uh_guild_id := 1; uh_handle := "Petr";
         uh_active := Some 1 |};
      {| uh_user_id := 100; uh_guild_id := 2; uh_handle := "Um_nik";
         uh_active := Some 0 |} ]
    empty_db.

(** The (guild_id, user_id) pair of a binding. *)
Definition guild_user (r : user_handle_row) : Z * Z :=
  (uh_guild_id r, uh_user_id r).

(** The rated VC is ONGOING. *)
Definition is_ongoing_vc (r : rated_vc_row) : bool :=
  sql_eq (vc_status r) (RatedVC.value RatedVC.ONGOING).

(** VC 3 is finished, VCs 7 and 8 are running. *)
Definition db_running_vcs : db :=
  set_rated_vcs
    [ {| vc_id := 3; vc_contest_id := 1000; vc_start_time := Some 0;
         vc_finish_time := Some 10;
         vc_status := Some (RatedVC.value RatedVC.FINISHED);
         vc_guild_id := Some 1 |};
      {| vc_id := 7; vc_contest_id := 1001; vc_start_time := Some 20;
         vc_finish_time := Some 30;
         vc_status := Some (RatedVC.value RatedVC.ONGOING);
         vc_guild_id := Some 1 |};
      {| vc_id := 8; vc_contest_id := 1002; vc_start_time := Some 20;
         vc_finish_time := Some 30;
         vc_status := Some (RatedVC.value RatedVC.ONGOING);
         vc_guild_id := Some 2 |} ]
    (set_rated_vc_users
       [ {| vu_vc_id := 3; vu_user_id := 7; vu_rating := Some 1600 |};
         {| vu_vc_id := 7; vu_user_id := 7; vu_rating := None |} ]
       empty_db).

(** The settings table after [upsert_rated_vc_channel]. *)
Definition channel_recorded (guild_id channel_id : Z)
    (t : list rated_vc_settings_row) : list rated_vc_settings_row :=
  if existsb (fun r => vs_guild_id r =? guild_id) t
  then update_where (fun r => vs_guild_id r =? guild_id)
                    (fun _ => {| vs_guild_id := guild_id;
                                 vs_channel_id := Some channel_id |}) t
  else t ++ [{| vs_guild_id := guild_id; vs_channel_id := Some channel_id |}].

(** Guild 1 has its rated VC channel set to 555. *)
Definition db_vc_channel : db :=
  set_rated_vc_settings
    [ {| vs_guild_id := 1; vs_channel_id := Some 555 |} ] empty_db.

(** [get_gudgitters]: every user with the cumulative score. *)
Definition get_gudgitters : M (list (Z * Z)) :=
  let query := sql_select [Column; Column]
                 (fun d => map (fun r => (uc_user_id r, uc_score r))
                             (user_challenge d)) in
  cur <- execute query ;;
  fetchall (PyCursor cur).

(** [howgud]: the rating deltas of the user's finished challenges. *)
Definition howgud (user_id : Z) : M (list Z) :=
  let query := sql_select [Column]
                 (fun d => map ch_rating_delta
                             (filter (fun r =>
                                        (ch_user_id r =? user_id)
                                        && match ch_finish_time r with
                                           | Some _ => true
                                           | None => false
                                           end)
                                     (challenge d))) in
  cur <- execute query ;;
  fetchall (PyCursor cur).

(** [WHERE (challengee = %s OR challenger = %s) AND (status = ONGOING OR
    status = PENDING)]: the duel keeps the user busy. *)
Definition keeps_busy (userid : Z) (r : duel_row) : bool :=
  involves userid r
  && (sql_eq (d_status r) (Duel.value Duel.ONGOING)
      || sql_eq (d_status r) (Duel.value Duel.PENDING)).
(** * Properties *)

(** ** Counting rows under a primary key *)

Section Keys.
Context {Row K : Type} (key : Row -> K).

Lemma count_where_cons (p : Row -> bool) (r : Row) (t : list Row) :
  count_where p (r :: t) = (if p r then 1 else 0) + count_where p t.
Proof.
  unfold count_where. simpl. destruct (p r); simpl length; lia.
Qed.

Lemma count_where_none (p : Row -> bool) (t : list Row) :
  existsb p t = false -> count_where p t = 0.
Proof.
  induction t as [|r t IH]; intros H; [reflexivity|].
  simpl in H. apply orb_false_iff in H. destruct H as [Hr Ht].
  rewrite count_where_cons, Hr, IH by assumption. reflexivity.
Qed.

(** A condition that fixes the key selects at most one row. *)
Lemma count_where_unique (k : K) (sel : Row -> bool) (t : list Row) :
  (forall r, sel r = true -> key r = k) ->
  NoDup (map key t) ->
  count_where sel t = if existsb sel t then 1 else 0.
Proof.
  intros Hsel. induction t as [|r t IH]; intros Hnd; [reflexivity|].
  simpl in Hnd. inversion Hnd as [|? ? Hnotin Hnd']; subst.
  rewrite count_where_cons. simpl existsb.
  destruct (sel r) eqn:Hr.
  - simpl. rewrite count_where_none; [reflexivity|].
    apply not_true_is_false. intros Hex. apply existsb_exists in Hex.
    destruct Hex as [r' [Hin Hr']].
    apply Hnotin. rewrite (Hsel r Hr), <- (Hsel r' Hr'). now apply in_map.
  - simpl. now apply IH.
Qed.

(** Under the key, the selected rows are the one row that has it. *)
Lemma filter_unique (k : K) (sel : Row -> bool) (t : list Row) (r : Row) :
  (forall x, sel x = true -> key x = k) ->
  NoDup (map key t) ->
  In r t -> sel r = true ->
  filter sel t = [r].
Proof.
  intros Hsel. induction t as [|x t IH]; intros Hnd Hin Hr; [contradiction|].
  simpl in Hnd. inversion Hnd as [|? ? Hnotin Hnd']; subst.
  assert (Hrest : forall y, In y t -> sel y = true -> In k (map key t)).
  { intros y Hy Hsy. rewrite <- (Hsel y Hsy). now apply in_map. }
  simpl. destruct Hin as [Heq | Hin].
  - subst x. rewrite Hr. f_equal.
    destruct (filter sel t) as [|y l] eqn:Hf; [reflexivity|].
    assert (Hy : In y (filter sel t)) by (rewrite Hf; now left).
    apply filter_In in Hy. destruct Hy as [Hy Hsy].
    elim Hnotin. rewrite (Hsel r Hr). now apply (Hrest y).
  - destruct (sel x) eqn:Hx.
    + elim Hnotin. rewrite (Hsel x Hx). now apply (Hrest r).
    + now apply IH.
Qed.

End Keys.

Lemma count_where_key {Row : Type} (key : Row -> Z) (k : Z)
    (p : Row -> bool) (t : list Row) :
  NoDup (map key t) ->
  count_where (fun r => (key r =? k) && p r) t
  = if existsb (fun r => (key r =? k) && p r) t then 1 else 0.
Proof.
  apply (count_where_unique key k). intros r Hr.
  apply andb_true_iff in Hr. destruct Hr as [Hk _]. now apply Z.eqb_eq.
Qed.

(** ** Running a method from a connection at rest *)

Ltac run_method :=
  unfold bind, execute, commit, rollback, ret, raise, with_conn, at_rest;
  simpl.

(** ** C1: completing a duel *)

Lemma count_duel_in (st : Duel.t) (duelid : Z) (t : list duel_row) :
  NoDup (map d_id t) ->
  count_where (duel_in st duelid) t
  = if existsb (duel_in st duelid) t then 1 else 0.
Proof.
  intros Hnd. unfold duel_in.
  exact (count_where_key d_id duelid
           (fun r => sql_eq (d_status r) (Duel.value st)) t Hnd).
Qed.

(** C1 (amended).  [complete_duel] returns 1 exactly when the duel is
    ONGOING: it then commits the flip to COMPLETE with the winner and the
    finish time and, for an OFFICIAL duel, +delta on the winner's duelist
    rows and -delta on the loser's, a user without a duelist row being
    skipped.  Otherwise it returns 0 and the connection is as before. *)
Theorem complete_duel_spec :
  forall (d : db) (s : seqs) (duelid winner : Z) (finish_time : time)
         (winner_id loser_id delta dtype : Z),
    NoDup (map d_id (duel d)) ->
    complete_duel duelid winner finish_time winner_id loser_id delta dtype
                  (at_rest d s)
    = if existsb (duel_in Duel.ONGOING duelid) (duel d)
      then (Ret 1,
            at_rest
              (set_duelist
                 (settled dtype winner_id loser_id delta (duelist d))
                 (set_duel
                    (duels_completed duelid winner finish_time (duel d)) d))
              s)
      else (Ret 0, at_rest d s).
Proof.
  intros d s duelid winner finish_time winner_id loser_id delta dtype Hnd.
  unfold complete_duel, update_duel_rating, settled, credited, duels_completed.
  run_method.
  rewrite (count_duel_in Duel.ONGOING duelid (duel d) Hnd).
  destruct (existsb (duel_in Duel.ONGOING duelid) (duel d)); simpl.
  - destruct (dtype =? 1); simpl.
    + reflexivity.
    + destruct d; reflexivity.
  - reflexivity.
Qed.

Lemma in_update_where {Row : Type} (p : Row -> bool) (f : Row -> Row)
    (t : list Row) (r : Row) :
  In r t -> In (if p r then f r else r) (update_where p f t).
Proof.
  intros Hin. unfold update_where.
  now apply (in_map (fun r => if p r then f r else r)).
Qed.

(** With both duelists registered and distinct, an official completion
    moves exactly delta from the loser's rating to the winner's. *)
Lemma settled_official_ratings (winner_id loser_id delta : Z)
    (t : list duelist_row) (w l : duelist_row) :
  winner_id <> loser_id ->
  In w t -> dl_user_id w = winner_id ->
  In l t -> dl_user_id l = loser_id ->
  In {| dl_user_id := winner_id; dl_rating := dl_rating w + delta |}
     (settled (DuelType.value DuelType.OFFICIAL) winner_id loser_id delta t)
  /\ In {| dl_user_id := loser_id; dl_rating := dl_rating l - delta |}
        (settled (DuelType.value DuelType.OFFICIAL) winner_id loser_id
                 delta t).
Proof.
  intros Hneq Hw Hwid Hl Hlid. unfold settled, credited. simpl.
  split.
  - pose proof (in_update_where (fun r => dl_user_id r =? winner_id)
                  (with_rating_delta delta) t w Hw) as H1.
    cbv beta in H1. rewrite Hwid, Z.eqb_refl in H1.
    pose proof (in_update_where (fun r => dl_user_id r =? loser_id)
                  (with_rating_delta (- delta)) _ _ H1) as H2.
    simpl in H2. rewrite Hwid in H2.
    apply Z.eqb_neq in Hneq. rewrite Hneq in H2.
    unfold with_rating_delta in H2. now rewrite Hwid in H2.
  - pose proof (in_update_where (fun r => dl_user_id r =? winner_id)
                  (with_rating_delta delta) t l Hl) as H1.
    cbv beta in H1. rewrite Hlid in H1.
    assert (Hneq' : (loser_id =? winner_id) = false)
      by (apply Z.eqb_neq; congruence).
    rewrite Hneq' in H1.
    pose proof (in_update_where (fun r => dl_user_id r =? loser_id)
                  (with_rating_delta (- delta)) _ _ H1) as H2.
    cbv beta in H2. rewrite Hlid, Z.eqb_refl in H2.
    unfold with_rating_delta in H2. rewrite Hlid in H2.
    now replace (dl_rating l - delta) with (dl_rating l + - delta) by lia.
Qed.

Ltac nodup_by_computation :=
  cbv; repeat (constructor; [cbv; intuition congruence|]); constructor.

Lemma complete_duel_spec_witness :
  NoDup (map d_id (duel db_unregistered_winner)) /\
  complete_duel 1 (Winner.value Winner.CHALLENGER) 100 10 20 25
                (DuelType.value DuelType.OFFICIAL)
                (at_rest db_unregistered_winner fresh_seqs)
  = if existsb (duel_in Duel.ONGOING 1) (duel db_unregistered_winner)
    then (Ret 1,
          at_rest
            (set_duelist
               (settled (DuelType.value DuelType.OFFICIAL) 10 20 25
                        (duelist db_unregistered_winner))
               (set_duel
                  (duels_completed 1 (Winner.value Winner.CHALLENGER) 100
                                   (duel db_unregistered_winner))
                  db_unregistered_winner))
            fresh_seqs)
    else (Ret 0, at_rest db_unregistered_winner fresh_seqs).
Proof.
  split.
  - nodup_by_computation.
  - apply (complete_duel_spec db_unregistered_winner fresh_seqs 1
             (Winner.value Winner.CHALLENGER) 100 10 20 25
             (DuelType.value DuelType.OFFICIAL)).
    nodup_by_computation.
Defined.

(** What the completion of duel 1 leaves committed when the winner, user
    10, has no duelist row: the duel is COMPLETE and user 20 has lost 25
    points. *)
Example complete_duel_unregistered_winner :
  complete_duel 1 (Winner.value Winner.CHALLENGER) 100 10 20 25
                (DuelType.value DuelType.OFFICIAL)
                (at_rest db_unregistered_winner fresh_seqs)
  = (Ret 1,
     at_rest
       (set_duel
          [with_duel_completed 100 1 (a_duel 1 10 20 Duel.ONGOING None)]
          (set_duelist [{| dl_user_id := 20; dl_rating := 1475 |}] empty_db))
       fresh_seqs).
Proof. reflexivity. Qed.

(** C1, as stated, fails: with the winner's duelist row missing, the flip
    of the status and the loser's -delta are committed all the same. *)
Lemma complete_duel_not_all_or_nothing :
  ~ complete_duel_all_or_nothing db_unregistered_winner fresh_seqs
      1 (Winner.value Winner.CHALLENGER) 100 10 20 25.
Proof.
  unfold complete_duel_all_or_nothing. intros H.
  specialize (H eq_refl). vm_compute in H. discriminate H.
Qed.

(** The ledger update of [update_duel_rating] ends its own transaction:
    whatever the caller had written before is committed with it. *)
Lemma update_duel_rating_commits (userid delta : Z) (c : conn) :
  aborted c = false ->
  committed (snd (update_duel_rating userid delta c))
  = set_duelist (credited userid delta (duelist (working c))) (working c).
Proof.
  intros Hok. unfold update_duel_rating, credited. run_method.
  rewrite Hok. reflexivity.
Qed.

(** ** C2: starting a duel *)

Lemma start_duel_always_raises (d : db) (s : seqs) (duelid : Z)
    (start_time : time) :
  start_duel duelid start_time (at_rest d s)
  = (Raise SyntaxError,
     {| committed := d; working := d; aborted := true; sequences := s |}).
Proof. reflexivity. Qed.

(** C2 at a duel that is PENDING: [start_duel] raises the syntax error of
    its query text, where the claim has it return 1 with the duel set to
    ONGOING; no row is changed. *)
Theorem start_duel_pending_raises :
  start_duel 1 100 (at_rest db_pending_duel fresh_seqs)
  = (Raise SyntaxError,
     {| committed := db_pending_duel; working := db_pending_duel;
        aborted := true; sequences := fresh_seqs |}).
Proof. apply start_duel_always_raises. Qed.

(** The sibling transition out of PENDING is guarded as the claim says. *)
Lemma cancel_duel_spec (d : db) (s : seqs) (duelid status : Z) :
  NoDup (map d_id (duel d)) ->
  cancel_duel duelid status (at_rest d s)
  = if existsb (duel_in Duel.PENDING duelid) (duel d)
    then (Ret 1,
          at_rest (set_duel (update_where (duel_in Duel.PENDING duelid)
                                          (with_duel_status status) (duel d))
                            d) s)
    else (Ret 0, at_rest d s).
Proof.
  intros Hnd. unfold cancel_duel. run_method.
  rewrite (count_duel_in Duel.PENDING duelid (duel d) Hnd).
  destruct (existsb (duel_in Duel.PENDING duelid) (duel d)); reflexivity.
Qed.

(** ** C3: reads that find no row *)

Lemma check_duel_withdraw_always_raises (d : db) (s : seqs) (challenger : Z) :
  check_duel_withdraw challenger (at_rest d s)
  = (Raise AttributeError, at_rest d s).
Proof. reflexivity. Qed.

Lemma get_rated_vc_channel_always_raises (d : db) (s : seqs) (guild_id : Z) :
  get_rated_vc_channel guild_id (at_rest d s)
  = (Raise AttributeError, at_rest d s).
Proof. reflexivity. Qed.

Lemma get_duel_rating_unregistered (d : db) (s : seqs) (userid : Z) :
  has_duelist userid d = false ->
  get_duel_rating userid (at_rest d s) = (Raise TypeError, at_rest d s).
Proof.
  unfold has_duelist, get_duel_rating. run_method. intros Hno.
  assert (Hempty : filter (fun r => dl_user_id r =? userid) (duelist d) = []).
  { induction (duelist d) as [|r t IH]; [reflexivity|].
    simpl in Hno. apply orb_false_iff in Hno. destruct Hno as [Hr Ht].
    simpl. rewrite Hr. now apply IH. }
  rewrite Hempty. reflexivity.
Qed.

(** The sibling read [check_duel_decline] does return None without
    raising when the challengee has no PENDING duel. *)
Lemma check_duel_decline_none (d : db) (s : seqs) (challengee : Z) :
  existsb (fun r => (d_challengee r =? challengee)
                    && sql_eq (d_status r) (Duel.value Duel.PENDING))
          (duel d) = false ->
  check_duel_decline challengee (at_rest d s) = (Ret None, at_rest d s).
Proof.
  unfold check_duel_decline. run_method. intros Hno.
  induction (duel d) as [|r t IH]; [reflexivity|].
  simpl in Hno. apply orb_false_iff in Hno. destruct Hno as [Hr Ht].
  simpl. rewrite Hr. now apply IH.
Qed.

(** C3 on the empty database: the three reads named by the claim raise
    where the claim has them return an absent result. *)
Theorem reads_of_absent_rows_raise :
  check_duel_withdraw 10 (at_rest empty_db fresh_seqs)
  = (Raise AttributeError, at_rest empty_db fresh_seqs)
  /\ get_duel_rating 10 (at_rest empty_db fresh_seqs)
     = (Raise TypeError, at_rest empty_db fresh_seqs)
  /\ get_rated_vc_channel 1 (at_rest empty_db fresh_seqs)
     = (Raise AttributeError, at_rest empty_db fresh_seqs).
Proof. repeat split. Qed.

(** ** C4: creating duels and rated VCs *)

Lemma create_duel_returns_no_id (d : db) (s : seqs)
    (challenger challengee : Z) (issue_time : time) (prob : Problem)
    (dtype : Z) :
  fits_integer challenger && fits_integer challengee
  && fits_integer (contestId prob) && fits_integer dtype = true ->
  existsb (fun r => d_id r =? duel_id_seq s) (duel d) = false ->
  fst (create_duel challenger challengee issue_time prob dtype (at_rest d s))
  = Ret InvalidOid.
Proof.
  intros Hfits Hfree. unfold create_duel, insert_duel. run_method.
  rewrite Hfits. simpl. rewrite Hfree. reflexivity.
Qed.

(** C4 on the empty database.  [create_duel] inserts the PENDING duel
    with id 1 and returns 0; [create_rated_vc] with the participant 5
    files the participation under vc_id 0, which the foreign key rejects:
    it raises and no row is left. *)
Theorem create_returns_lastrowid :
  create_duel 10 20 50 a_problem (DuelType.value DuelType.OFFICIAL)
              (at_rest empty_db fresh_seqs)
  = (Ret 0,
     at_rest
       (set_duel
          [ {| d_id := 1; d_challenger := 10; d_challengee := 20;
               d_issue_time := 50; d_start_time := None;
               d_finish_time := None;
               d_problem_name := Some (name a_problem);
               d_contest_id := Some (contestId a_problem);
               d_p_index := Some (index a_problem);
               d_status := Some (Duel.value Duel.PENDING);
               d_winner := None;
               d_type := Some (DuelType.value DuelType.OFFICIAL) |} ]
          empty_db)
       {| duel_id_seq := 2; rated_vcs_id_seq := 1 |})
  /\ create_rated_vc 1000 0 10 1 [5] (at_rest empty_db fresh_seqs)
     = (Raise ForeignKeyViolation,
        at_rest empty_db {| duel_id_seq := 1; rated_vcs_id_seq := 2 |})
  /\ create_rated_vc 1000 0 10 1 [] (at_rest empty_db fresh_seqs)
     = (Ret 0,
        at_rest
          (set_rated_vcs
             [ {| vc_id := 1; vc_contest_id := 1000;
                  vc_start_time := Some 0; vc_finish_time := Some 10;
                  vc_status := Some (RatedVC.value RatedVC.ONGOING);
                  vc_guild_id := Some 1 |} ]
             empty_db)
          {| duel_id_seq := 1; rated_vcs_id_seq := 2 |}).
Proof. repeat split. Qed.

(** ** C6: the current VC rating *)

Lemma get_vc_rating_always_raises (d : db) (s : seqs) (user_id : Z)
    (default_if_not_exist : bool) :
  get_vc_rating user_id default_if_not_exist (at_rest d s)
  = (Raise GroupingError,
     {| committed := d; working := d; aborted := true; sequences := s |}).
Proof. reflexivity. Qed.

(** The row the select list is after does carry the rating of the
    largest vc_id: 1450 for the rows (3, 1600) and (7, 1450). *)
Example latest_rating_row_example :
  latest_rating_row 7 db_two_vc_ratings
  = {| latest_vc_id := Some 7; rating := Some 1450 |}.
Proof. reflexivity. Qed.

(** C6 on the rows (vc_id 3, rating 1600) and (vc_id 7, rating 1450) of
    user 7: the query is rejected and [get_vc_rating] raises, where the
    claim has it return 1450. *)
Theorem get_vc_rating_raises :
  get_vc_rating 7 true (at_rest db_two_vc_ratings fresh_seqs)
  = (Raise GroupingError,
     {| committed := db_two_vc_ratings; working := db_two_vc_ratings;
        aborted := true; sequences := fresh_seqs |}).
Proof. apply get_vc_rating_always_raises. Qed.

(** ** C5: duel statistics *)

Section Counting.
Context {Row : Type}.

Lemma count_where_ext (p q : Row -> bool) (t : list Row) :
  (forall r, In r t -> p r = q r) ->
  count_where p t = count_where q t.
Proof.
  induction t as [|r t IH]; intros H; [reflexivity|].
  rewrite !count_where_cons, (H r (or_introl eq_refl)), IH; [reflexivity|].
  intros r' Hin. apply H. now right.
Qed.

Lemma count_where_filter (p q : Row -> bool) (t : list Row) :
  count_where p (filter q t) = count_where (fun r => p r && q r) t.
Proof.
  induction t as [|r t IH]; [reflexivity|].
  simpl filter. rewrite count_where_cons. destruct (q r).
  - rewrite count_where_cons, IH, andb_true_r. reflexivity.
  - rewrite IH, andb_false_r. reflexivity.
Qed.

Lemma forallb_update_where (inv p : Row -> bool) (f : Row -> Row)
    (t : list Row) :
  forallb inv t = true ->
  (forall r, inv r = true -> p r = true -> inv (f r) = true) ->
  forallb inv (update_where p f t) = true.
Proof.
  intros Hall Hf. induction t as [|r t IH]; [reflexivity|].
  simpl in Hall. apply andb_true_iff in Hall. destruct Hall as [Hr Ht].
  simpl. apply andb_true_iff. split; [|now apply IH].
  destruct (p r) eqn:Hp; [now apply Hf | assumption].
Qed.

End Counting.

Lemma filter_all_complete (t : list duel_row) :
  filter is_complete (filter is_complete t) = filter is_complete t.
Proof.
  induction t as [|r t IH]; [reflexivity|].
  simpl. destruct (is_complete r) eqn:Hr; [|exact IH].
  simpl. now rewrite Hr, IH.
Qed.

Lemma count_duels_run (p : duel_row -> bool) (d : db) (s : seqs) :
  count_duels p (at_rest d s) = (Ret (count_where p (duel d)), at_rest d s).
Proof. reflexivity. Qed.

(** C5 (amended).  In every database [get_num_duel_completed] and
    [get_num_duel_losses] count COMPLETE rows only, by the user's role
    and the winner value, and the two decline counts count DECLINED rows
    by the user's role.  [get_num_duel_draws], which does not look at the
    status, equals the number of COMPLETE draws of the user in every
    database where a winner is recorded only on COMPLETE duels. *)
Theorem duel_counts_spec :
  forall (d : db) (s : seqs) (userid : Z),
    (winner_only_at_complete d = true ->
     get_num_duel_draws userid (at_rest d s)
     = (Ret (num_complete_draws userid d), at_rest d s))
    /\ get_num_duel_losses userid (at_rest d s)
       = (Ret (count_where (is_loss_of userid) (filter is_complete (duel d))),
          at_rest d s)
    /\ get_num_duel_completed userid (at_rest d s)
       = (Ret (count_where (involves userid) (filter is_complete (duel d))),
          at_rest d s)
    /\ get_num_duel_declined userid (at_rest d s)
       = (Ret (count_where (fun r => d_challengee r =? userid)
                           (filter is_declined (duel d))),
          at_rest d s)
    /\ get_num_duel_rdeclined userid (at_rest d s)
       = (Ret (count_where (fun r => d_challenger r =? userid)
                           (filter is_declined (duel d))),
          at_rest d s).
Proof.
  intros d s userid.
  unfold get_num_duel_draws, get_num_duel_losses, get_num_duel_completed,
    get_num_duel_declined, get_num_duel_rdeclined, num_complete_draws.
  rewrite !count_duels_run, !count_where_filter.
  split; [|repeat split].
  intros Hinv.
  f_equal. f_equal. apply count_where_ext. intros r Hin.
  unfold winner_only_at_complete in Hinv.
  rewrite forallb_forall in Hinv. specialize (Hinv r Hin).
  unfold is_draw_of, winner_at_complete in *.
  destruct (d_winner r) as [w|]; simpl.
  - rewrite Hinv, andb_true_r. reflexivity.
  - rewrite !andb_false_r. reflexivity.
Qed.

Lemma duel_counts_spec_witness :
  winner_only_at_complete db_draw_and_loss = true /\
  get_num_duel_draws 10 (at_rest db_draw_and_loss fresh_seqs)
  = (Ret 1, at_rest db_draw_and_loss fresh_seqs).
Proof.
  split; [reflexivity|].
  exact (proj1 (duel_counts_spec db_draw_and_loss fresh_seqs 10) eq_refl).
Defined.

(** The database of the declined challenge is one the module writes:
    [create_duel] followed by [cancel_duel] with DECLINED on the empty
    database. *)
Example declined_duel_is_produced :
  (create_duel 10 20 50 a_problem (DuelType.value DuelType.OFFICIAL) ;;;
   cancel_duel 1 (Duel.value Duel.DECLINED)) (at_rest empty_db fresh_seqs)
  = (Ret 1,
     at_rest db_declined_duel {| duel_id_seq := 2; rated_vcs_id_seq := 1 |}).
Proof. reflexivity. Qed.

(** C5, as stated, fails on the declined challenge: no duel is COMPLETE,
    and [get_num_duel_declined] counts one duel for the challengee. *)
Lemma declines_counted_outside_complete :
  ~ counts_complete_only get_num_duel_declined db_declined_duel fresh_seqs 20.
Proof.
  unfold counts_complete_only. vm_compute. discriminate.
Qed.

(** The counts that do filter on COMPLETE answer on every database as
    they do on its COMPLETE duels alone. *)
Lemma losses_and_completed_count_complete_only (d : db) (s : seqs)
    (userid : Z) :
  counts_complete_only get_num_duel_losses d s userid
  /\ counts_complete_only get_num_duel_completed d s userid.
Proof.
  unfold counts_complete_only, get_num_duel_losses, get_num_duel_completed.
  rewrite !count_duels_run. simpl.
  split; f_equal; rewrite <- (count_where_filter _ is_complete);
    rewrite <- (count_where_filter _ is_complete (filter is_complete (duel d)));
    f_equal; symmetry; apply filter_all_complete.
Qed.

(** The draws query has no status filter.  On a database where a duel
    that is not COMPLETE carries the winner value DRAW - a state that no
    writer of this module produces, see the lemmas below - it counts that
    duel. *)
Lemma draws_counted_outside_complete :
  ~ draws_count_complete_only db_invalid_draw fresh_seqs 10.
Proof.
  unfold draws_count_complete_only. vm_compute. discriminate.
Qed.

(** The transitions of the duel state machine keep winners on COMPLETE
    duels: the flip to COMPLETE records the winner in the same UPDATE, and
    the other flips leave PENDING or ONGOING, where no winner is recorded. *)

Lemma completed_keeps_winner_at_complete (duelid winner : Z)
    (finish_time : time) (t : list duel_row) :
  forallb winner_at_complete t = true ->
  forallb winner_at_complete
    (update_where (duel_in Duel.ONGOING duelid)
                  (with_duel_completed finish_time winner) t) = true.
Proof.
  intros H. apply forallb_update_where; [assumption|].
  intros r _ _. reflexivity.
Qed.

Lemma restatus_keeps_winner_at_complete (st : Duel.t) (duelid status : Z)
    (t : list duel_row) :
  st <> Duel.COMPLETE ->
  forallb winner_at_complete t = true ->
  forallb winner_at_complete
    (update_where (duel_in st duelid) (with_duel_status status) t) = true.
Proof.
  intros Hst H. apply forallb_update_where; [assumption|].
  intros r Hr Hp. unfold duel_in in Hp. apply andb_true_iff in Hp.
  destruct Hp as [_ Hs]. unfold winner_at_complete, is_complete in *.
  simpl. destruct (d_winner r); [|reflexivity].
  destruct (d_status r) as [x|]; simpl in *; [|discriminate].
  apply Z.eqb_eq in Hs. apply Z.eqb_eq in Hr. subst x.
  destruct st; simpl in Hs; try discriminate. now elim Hst.
Qed.

Lemma complete_duel_keeps_winner_at_complete (d : db) (s : seqs)
    (duelid winner : Z) (finish_time : time)
    (winner_id loser_id delta dtype : Z) :
  winner_only_at_complete d = true ->
  winner_only_at_complete
    (committed (snd (complete_duel duelid winner finish_time winner_id
                       loser_id delta dtype (at_rest d s)))) = true.
Proof.
  intros Hinv. unfold complete_duel, update_duel_rating. run_method.
  destruct (count_where (duel_in Duel.ONGOING duelid) (duel d) =? 1); simpl.
  - destruct (dtype =? 1); simpl;
      now apply completed_keeps_winner_at_complete.
  - assumption.
Qed.

Lemma cancel_duel_keeps_winner_at_complete (d : db) (s : seqs)
    (duelid status : Z) :
  winner_only_at_complete d = true ->
  winner_only_at_complete
    (committed (snd (cancel_duel duelid status (at_rest d s)))) = true.
Proof.
  intros Hinv. unfold cancel_duel. run_method.
  destruct (count_where (duel_in Duel.PENDING duelid) (duel d) =? 1); simpl.
  - now apply restatus_keeps_winner_at_complete.
  - assumption.
Qed.

Lemma invalidate_duel_keeps_winner_at_complete (d : db) (s : seqs)
    (duelid : Z) :
  winner_only_at_complete d = true ->
  winner_only_at_complete
    (committed (snd (invalidate_duel duelid (at_rest d s)))) = true.
Proof.
  intros Hinv. unfold invalidate_duel. run_method.
  destruct (count_where (duel_in Duel.ONGOING duelid) (duel d) =? 1); simpl.
  - now apply restatus_keeps_winner_at_complete.
  - assumption.
Qed.

Lemma create_duel_keeps_winner_at_complete (d : db) (s : seqs)
    (challenger challengee : Z) (issue_time : time) (prob : Problem)
    (dtype : Z) :
  winner_only_at_complete d = true ->
  winner_only_at_complete
    (committed (snd (create_duel challenger challengee issue_time prob dtype
                       (at_rest d s)))) = true.
Proof.
  intros Hinv. unfold create_duel, insert_duel. run_method.
  destruct (fits_integer challenger && fits_integer challengee
            && fits_integer (contestId prob) && fits_integer dtype); simpl;
    [|assumption].
  destruct (existsb (fun r => d_id r =? duel_id_seq s) (duel d)); simpl.
  - assumption.
  - unfold winner_only_at_complete in *. simpl.
    rewrite forallb_app, Hinv. reflexivity.
Qed.

(** ** C8: completing and skipping a challenge *)

Lemma count_is_gitgud (challenge_id : Z) (t : list challenge_row) :
  NoDup (map ch_id t) ->
  count_where (is_gitgud challenge_id) t
  = if existsb (is_gitgud challenge_id) t then 1 else 0.
Proof.
  intros Hnd. unfold is_gitgud.
  exact (count_where_key ch_id challenge_id
           (fun r => ch_status r =? Gitgud.value Gitgud.GITGUD) t Hnd).
Qed.

Lemma count_has_active (user_id challenge_id : Z)
    (t : list user_challenge_row) :
  NoDup (map uc_user_id t) ->
  count_where (has_active user_id challenge_id) t
  = if existsb (has_active user_id challenge_id) t then 1 else 0.
Proof.
  intros Hnd. unfold has_active.
  exact (count_where_key uc_user_id user_id
           (fun r => sql_eq (uc_active_challenge_id r) challenge_id) t Hnd).
Qed.

Lemma map_update_where_same {Row A : Type} (g : Row -> A) (p : Row -> bool)
    (f : Row -> Row) (t : list Row) :
  (forall r, g (f r) = g r) ->
  map g (update_where p f t) = map g t.
Proof.
  intros Hg. unfold update_where. rewrite map_map. apply map_ext.
  intros r. destruct (p r); [apply Hg | reflexivity].
Qed.

(** C8 (amended).  Both methods return 1 exactly when the challenge is
    GITGUD and sits in the user's active slot, and otherwise return 0 and
    leave the connection as it was.  [complete_challenge] then commits
    status GOTGUD with the finish time, the cleared slot, score + delta
    and num_completed + 1; [skip_challenge] commits the given status and
    the cleared slot.  No call of [skip_challenge] changes a skip
    counter. *)
Theorem challenge_transitions_spec :
  forall (d : db) (s : seqs) (user_id challenge_id : Z) (finish_time : time)
         (delta status : Z),
    NoDup (map ch_id (challenge d)) ->
    NoDup (map uc_user_id (user_challenge d)) ->
    complete_challenge user_id challenge_id finish_time delta (at_rest d s)
    = (if is_active_gitgud user_id challenge_id d
       then (Ret 1,
             at_rest (challenge_completed user_id challenge_id finish_time
                                          delta d) s)
       else (Ret 0, at_rest d s))
    /\ skip_challenge user_id challenge_id status (at_rest d s)
       = (if is_active_gitgud user_id challenge_id d
          then (Ret 1,
                at_rest (challenge_skipped user_id challenge_id status d) s)
          else (Ret 0, at_rest d s))
    /\ map uc_num_skipped
           (user_challenge
              (committed (snd (skip_challenge user_id challenge_id status
                                 (at_rest d s)))))
       = map uc_num_skipped (user_challenge d).
Proof.
  intros d s user_id challenge_id finish_time delta status Hch Huc.
  assert (Hskip :
    skip_challenge user_id challenge_id status (at_rest d s)
    = (if is_active_gitgud user_id challenge_id d
       then (Ret 1,
             at_rest (challenge_skipped user_id challenge_id status d) s)
       else (Ret 0, at_rest d s))).
  { unfold skip_challenge, is_active_gitgud, challenge_skipped. run_method.
    rewrite (count_has_active user_id challenge_id _ Huc).
    destruct (existsb (has_active user_id challenge_id) (user_challenge d));
      simpl; [|now rewrite andb_false_r].
    rewrite (count_is_gitgud challenge_id _ Hch).
    destruct (existsb (is_gitgud challenge_id) (challenge d));
      reflexivity. }
  split; [|split].
  - unfold complete_challenge, is_active_gitgud, challenge_completed.
    run_method.
    rewrite (count_is_gitgud challenge_id _ Hch).
    destruct (existsb (is_gitgud challenge_id) (challenge d));
      simpl; [|reflexivity].
    rewrite (count_has_active user_id challenge_id _ Huc).
    destruct (existsb (has_active user_id challenge_id) (user_challenge d));
      reflexivity.
  - exact Hskip.
  - rewrite Hskip.
    destruct (is_active_gitgud user_id challenge_id d); simpl;
      [|reflexivity].
    apply map_update_where_same. reflexivity.
Qed.

Lemma challenge_transitions_spec_witness :
  NoDup (map ch_id (challenge db_active_challenge)) /\
  NoDup (map uc_user_id (user_challenge db_active_challenge)) /\
  complete_challenge 7 1 90 100 (at_rest db_active_challenge fresh_seqs)
  = (if is_active_gitgud 7 1 db_active_challenge
     then (Ret 1,
           at_rest (challenge_completed 7 1 90 100 db_active_challenge)
                   fresh_seqs)
     else (Ret 0, at_rest db_active_challenge fresh_seqs)).
Proof.
  assert (H1 : NoDup (map ch_id (challenge db_active_challenge)))
    by nodup_by_computation.
  assert (H2 : NoDup (map uc_user_id (user_challenge db_active_challenge)))
    by nodup_by_computation.
  split; [exact H1 | split; [exact H2|]].
  exact (proj1 (challenge_transitions_spec db_active_challenge fresh_seqs
                  7 1 90 100 (Gitgud.value Gitgud.NOGUD) H1 H2)).
Defined.

(** What the two methods commit for user 7 and challenge 1. *)
Example complete_challenge_example :
  complete_challenge 7 1 90 100 (at_rest db_active_challenge fresh_seqs)
  = (Ret 1,
     at_rest
       (set_challenge
          [ {| ch_id := 1; ch_user_id := 7; ch_issue_time := 50;
               ch_finish_time := Some 90; ch_problem_name := "Watermelon";
               ch_contest_id := 4; ch_p_index := "A";
               ch_rating_delta := 100;
               ch_status := Gitgud.value Gitgud.GOTGUD |} ]
          (set_user_challenge
             [ {| uc_user_id := 7; uc_active_challenge_id := None;
                  uc_issue_time := None; uc_score := 140;
                  uc_num_completed := 3; uc_num_skipped := 3 |} ]
             empty_db))
       fresh_seqs).
Proof. reflexivity. Qed.

Example skip_challenge_example :
  skip_challenge 7 1 (Gitgud.value Gitgud.NOGUD)
                 (at_rest db_active_challenge fresh_seqs)
  = (Ret 1,
     at_rest
       (set_challenge
          [ {| ch_id := 1; ch_user_id := 7; ch_issue_time := 50;
               ch_finish_time := None; ch_problem_name := "Watermelon";
               ch_contest_id := 4; ch_p_index := "A";
               ch_rating_delta := 100;
               ch_status := Gitgud.value Gitgud.NOGUD |} ]
          (set_user_challenge
             [ {| uc_user_id := 7; uc_active_challenge_id := None;
                  uc_issue_time := None; uc_score := 40;
                  uc_num_completed := 2; uc_num_skipped := 3 |} ]
             empty_db))
       fresh_seqs).
Proof. reflexivity. Qed.

(** C8, as stated, fails: the skip of challenge 1 succeeds and user 7
    still has three skips on record. *)
Lemma skip_challenge_keeps_counter :
  ~ skip_counter_updated db_active_challenge fresh_seqs 7 1
      (Gitgud.value Gitgud.NOGUD).
Proof.
  unfold skip_counter_updated. intros H. apply (H eq_refl). reflexivity.
Qed.

(** ** C7: recording a VC rating twice *)

Section Upsert.
Variables vc user_id : Z.

Let same := same_participation vc user_id.

Lemma same_participation_key (r : rated_vc_user_row) :
  same_participation vc user_id r = true <-> vc_key r = (vc, user_id).
Proof.
  unfold same_participation, vc_key. rewrite andb_true_iff, !Z.eqb_eq.
  split; [intros [-> ->]; reflexivity | intros H; now inversion H].
Qed.

Lemma rating_recorded_present (rating : Z) (t : list rated_vc_user_row) :
  existsb same (rating_recorded vc user_id rating t) = true.
Proof.
  unfold rating_recorded. fold same.
  destruct (existsb same t) eqn:Hex.
  - apply existsb_exists in Hex. destruct Hex as [r [Hin Hr]].
    apply existsb_exists. exists (with_vc_rating rating r). split.
    + unfold update_where. apply in_map_iff. exists r. rewrite Hr. now split.
    + exact Hr.
  - rewrite existsb_app. simpl. unfold same, same_participation. simpl.
    rewrite !Z.eqb_refl. now rewrite orb_true_r.
Qed.

Lemma rating_recorded_keys (rating : Z) (t : list rated_vc_user_row) :
  NoDup (map vc_key t) ->
  NoDup (map vc_key (rating_recorded vc user_id rating t)).
Proof.
  intros Hnd. unfold rating_recorded. fold same.
  destruct (existsb same t) eqn:Hex.
  - unfold update_where. rewrite map_map.
    rewrite (map_ext _ vc_key); [assumption|].
    intros r. now destruct (same r).
  - rewrite map_app. simpl.
    apply NoDup_app; [assumption | repeat constructor; intros [] |].
    intros k Hk [Heq | []]. subst k. apply in_map_iff in Hk.
    destruct Hk as [r [Hkey Hin]].
    apply same_participation_key in Hkey.
    assert (Hcontra : existsb same t = true)
      by (apply existsb_exists; now exists r).
    congruence.
Qed.

Lemma rating_recorded_value (rating : Z) (t : list rated_vc_user_row)
    (r : rated_vc_user_row) :
  In r (rating_recorded vc user_id rating t) ->
  same r = true ->
  vu_rating r = Some rating.
Proof.
  unfold rating_recorded. fold same.
  destruct (existsb same t) eqn:Hex; intros Hin Hr.
  - unfold update_where in Hin. apply in_map_iff in Hin.
    destruct Hin as [r0 [Heq Hin]].
    destruct (same r0) eqn:Hr0; subst r; [reflexivity | congruence].
  - apply in_app_or in Hin. destruct Hin as [Hin | [Heq | []]].
    + assert (Hcontra : existsb same t = true)
        by (apply existsb_exists; now exists r).
      congruence.
    + now subst r.
Qed.

Lemma rating_recorded_others (rating : Z) (t : list rated_vc_user_row)
    (r : rated_vc_user_row) :
  same r = false ->
  (In r (rating_recorded vc user_id rating t) <-> In r t).
Proof.
  intros Hr. unfold rating_recorded. fold same.
  destruct (existsb same t) eqn:Hex.
  - unfold update_where. rewrite in_map_iff. split.
    + intros [r0 [Heq Hin]]. destruct (same r0) eqn:Hr0.
      * subst r. unfold same, same_participation in *. simpl in Hr.
        congruence.
      * now subst r.
    + intros Hin. exists r. rewrite Hr. now split.
  - rewrite in_app_iff. split; [|now left].
    intros [Hin | [Heq | []]]; [assumption|].
    subst r. unfold same, same_participation in Hr. simpl in Hr.
    rewrite !Z.eqb_refl in Hr. discriminate.
Qed.

Lemma update_vc_rating_run (rating : Z) (d : db) (s : seqs) :
  references_vc vc d = true ->
  update_vc_rating vc user_id rating (at_rest d s)
  = (Ret tt,
     at_rest (set_rated_vc_users
                (rating_recorded vc user_id rating (rated_vc_users d)) d) s).
Proof.
  intros Hfk. unfold update_vc_rating, upsert_vc_rating, rating_recorded.
  run_method.
  destruct (existsb (same_participation vc user_id) (rated_vc_users d));
    simpl; [reflexivity|].
  rewrite Hfk. reflexivity.
Qed.

End Upsert.

(** C7 (amended).  For the id [vc] of a rated VC, as the foreign key
    [fk_vc] requires, and a participation table with its primary key:
    after [update_vc_rating vc user r1] followed by
    [update_vc_rating vc user r2] exactly one row has the key
    (vc, user), its rating is r2, and the rows of every other key are
    the ones from before. *)
Theorem update_vc_rating_overwrites :
  forall (d : db) (s : seqs) (vc user_id r1 r2 : Z),
    NoDup (map vc_key (rated_vc_users d)) ->
    references_vc vc d = true ->
    exists t2 : list rated_vc_user_row,
      (update_vc_rating vc user_id r1 ;;; update_vc_rating vc user_id r2)
        (at_rest d s)
      = (Ret tt, at_rest (set_rated_vc_users t2 d) s)
      /\ count_where (same_participation vc user_id) t2 = 1
      /\ (forall r, In r t2 -> same_participation vc user_id r = true ->
                    vu_rating r = Some r2)
      /\ (forall r, same_participation vc user_id r = false ->
                    (In r t2 <-> In r (rated_vc_users d)))
      /\ NoDup (map vc_key t2).
Proof.
  intros d s vc user_id r1 r2 Hnd Hfk.
  set (t1 := rating_recorded vc user_id r1 (rated_vc_users d)).
  exists (rating_recorded vc user_id r2 t1).
  assert (Hnd1 : NoDup (map vc_key t1))
    by now apply rating_recorded_keys.
  assert (Hnd2 : NoDup (map vc_key (rating_recorded vc user_id r2 t1)))
    by now apply rating_recorded_keys.
  repeat split.
  - unfold bind. rewrite (update_vc_rating_run vc user_id r1 d s Hfk).
    fold t1.
    rewrite (update_vc_rating_run vc user_id r2
               (set_rated_vc_users t1 d) s Hfk).
    reflexivity.
  - rewrite (count_where_unique vc_key (vc, user_id)); [|
      intros r Hr; now apply same_participation_key | assumption].
    now rewrite rating_recorded_present.
  - intros r. apply rating_recorded_value.
  - intros Hin. apply (rating_recorded_others vc user_id r1); [assumption|].
    now apply (rating_recorded_others vc user_id r2 t1).
  - intros Hin. apply (rating_recorded_others vc user_id r2 t1);
      [assumption|].
    now apply (rating_recorded_others vc user_id r1).
  - assumption.
Qed.

Lemma update_vc_rating_overwrites_witness :
  NoDup (map vc_key (rated_vc_users db_two_vc_ratings)) /\
  references_vc 7 db_two_vc_ratings = true /\
  exists t2 : list rated_vc_user_row,
    (update_vc_rating 7 7 1500 ;;; update_vc_rating 7 7 1525)
      (at_rest db_two_vc_ratings fresh_seqs)
    = (Ret tt, at_rest (set_rated_vc_users t2 db_two_vc_ratings) fresh_seqs)
    /\ count_where (same_participation 7 7) t2 = 1
    /\ (forall r, In r t2 -> same_participation 7 7 r = true ->
                  vu_rating r = Some 1525)
    /\ (forall r, same_participation 7 7 r = false ->
                  (In r t2 <-> In r (rated_vc_users db_two_vc_ratings)))
    /\ NoDup (map vc_key t2).
Proof.
  assert (H1 : NoDup (map vc_key (rated_vc_users db_two_vc_ratings)))
    by nodup_by_computation.
  split; [exact H1 | split; [reflexivity|]].
  exact (update_vc_rating_overwrites db_two_vc_ratings fresh_seqs
           7 7 1500 1525 H1 eq_refl).
Defined.

(** The same two calls, run: row (7, 7) is overwritten in place. *)
Example update_vc_rating_example :
  (update_vc_rating 7 7 1500 ;;; update_vc_rating 7 7 1525)
    (at_rest db_two_vc_ratings fresh_seqs)
  = (Ret tt,
     at_rest
       (set_rated_vc_users
          [ {| vu_vc_id := 3; vu_user_id := 7; vu_rating := Some 1600 |};
            {| vu_vc_id := 7; vu_user_id := 7; vu_rating := Some 1525 |} ]
          db_two_vc_ratings)
       fresh_seqs).
Proof. reflexivity. Qed.

(** A rating for a vc_id that is no rated VC is refused by [fk_vc]. *)
Example update_vc_rating_unknown_vc :
  update_vc_rating 9 7 1500 (at_rest db_two_vc_ratings fresh_seqs)
  = (Raise ForeignKeyViolation, at_rest db_two_vc_ratings fresh_seqs).
Proof. reflexivity. Qed.

(** For the id of a rated VC the claim's count does hold. *)
Lemma one_row_with_rated_vc (d : db) (s : seqs) (vc user_id r1 r2 : Z) :
  NoDup (map vc_key (rated_vc_users d)) ->
  references_vc vc d = true ->
  one_row_after_two_ratings d s vc user_id r1 r2.
Proof.
  intros Hnd Hfk. unfold one_row_after_two_ratings.
  rewrite (update_vc_rating_run vc user_id r1 d s Hfk). simpl snd.
  rewrite (update_vc_rating_run vc user_id r2
             (set_rated_vc_users
                (rating_recorded vc user_id r1 (rated_vc_users d)) d)
             s Hfk).
  simpl.
  rewrite (count_where_unique vc_key (vc, user_id)).
  - now rewrite rating_recorded_present.
  - intros r Hr. now apply same_participation_key.
  - now apply rating_recorded_keys, rating_recorded_keys.
Qed.

(** C7, as stated, fails for a vc id that is no rated VC: with the rated
    VCs 3 and 7, both calls for vc id 9 raise ForeignKeyViolation and no
    row has the key (9, 7) afterwards. *)
Lemma update_vc_rating_needs_rated_vc :
  ~ one_row_after_two_ratings db_two_vc_ratings fresh_seqs 9 7 1500 1525.
Proof.
  unfold one_row_after_two_ratings. vm_compute. discriminate.
Qed.

Example update_vc_rating_unknown_vc_twice :
  update_vc_rating 9 7 1525
    (snd (update_vc_rating 9 7 1500 (at_rest db_two_vc_ratings fresh_seqs)))
  = (Raise ForeignKeyViolation, at_rest db_two_vc_ratings fresh_seqs).
Proof. reflexivity. Qed.

(** ** C9: binding a handle *)

Lemma same_handle_key (guild_id : Z) (handle : string) (r : user_handle_row) :
  same_handle guild_id handle r = true -> handle_key r = (guild_id, handle).
Proof.
  unfold same_handle, handle_key. rewrite andb_true_iff.
  intros [Hg Hh]. apply Z.eqb_eq in Hg. apply String.eqb_eq in Hh.
  now subst.
Qed.

Lemma same_handle_of_row (r : user_handle_row) :
  same_handle (uh_guild_id r) (uh_handle r) r = true.
Proof.
  unfold same_handle. now rewrite Z.eqb_refl, String.eqb_refl.
Qed.

(** The binding read back after every row selected by [p] was replaced by
    one row that [p] selects again. *)
Lemma first_of_replaced {Row A : Type} (g : Row -> A) (p : Row -> bool)
    (row : Row) (t : list Row) :
  p row = true ->
  existsb p t = true ->
  hd_error (map g (filter p (update_where p (fun _ => row) t)))
  = Some (g row).
Proof.
  intros Hrow. induction t as [|x t IH]; intros Hex; [discriminate|].
  simpl in Hex. simpl. destruct (p x) eqn:Hx.
  - rewrite Hrow. reflexivity.
  - rewrite Hx. simpl in Hex. now apply IH.
Qed.

(** C9.  Under the unique index on (guild_id, handle): [set_handle u g h]
    raises UniqueConstraintFailed and leaves the connection as it was
    when h is active for another user of guild g; when h is bound to u in
    g it returns without raising, and [get_handle u g] then yields h. *)
Theorem set_handle_spec :
  forall (d : db) (s : seqs) (user_id guild_id : Z) (handle : string),
    NoDup (map handle_key (user_handle d)) ->
    (forall other : Z,
        other <> user_id ->
        handle_active other guild_id handle d ->
        set_handle user_id guild_id handle (at_rest d s)
        = (Raise UniqueConstraintFailed, at_rest d s))
    /\ (handle_bound user_id guild_id handle d ->
        exists d' : db,
          set_handle user_id guild_id handle (at_rest d s)
          = (Ret 1, at_rest d' s)
          /\ get_handle user_id guild_id (at_rest d' s)
             = (Ret (Some handle), at_rest d' s)).
Proof.
  intros d s user_id guild_id handle Hnd.
  assert (Hone : forall r, In r (user_handle d) ->
                           same_handle guild_id handle r = true ->
                           filter (same_handle guild_id handle) (user_handle d)
                           = [r]).
  { intros r Hin Hr.
    apply (filter_unique handle_key (guild_id, handle)); try assumption.
    intros x. apply same_handle_key. }
  split.
  - intros other Hother [r [Hin [Hu [Hg [Hh _]]]]].
    assert (Hr : same_handle guild_id handle r = true)
      by (subst guild_id handle; apply same_handle_of_row).
    unfold set_handle. run_method. rewrite (Hone r Hin Hr). simpl.
    rewrite Hu. apply Z.eqb_neq in Hother. rewrite Hother. reflexivity.
  - intros [r [Hin [Hu [Hg Hh]]]].
    assert (Hr : same_handle guild_id handle r = true)
      by (subst guild_id handle; apply same_handle_of_row).
    assert (Hb : same_binding user_id guild_id r = true).
    { unfold same_binding. subst user_id guild_id.
      now rewrite !Z.eqb_refl. }
    assert (Hmine : existsb (same_binding user_id guild_id) (user_handle d)
                    = true)
      by (apply existsb_exists; now exists r).
    assert (Hfree : existsb (fun x => same_handle guild_id handle x
                                      && negb (same_binding user_id guild_id x))
                            (user_handle d) = false).
    { apply not_true_is_false. intros Hex. apply existsb_exists in Hex.
      destruct Hex as [x [Hx Hsel]]. apply andb_true_iff in Hsel.
      destruct Hsel as [Hsx Hnb].
      assert (Hxr : In x [r]).
      { rewrite <- (Hone r Hin Hr). apply filter_In. now split. }
      destruct Hxr as [Heq | []]. subst x. rewrite Hb in Hnb. discriminate. }
    eexists. split.
    + unfold set_handle, upsert_user_handle. run_method.
      rewrite (Hone r Hin Hr). simpl. rewrite Hu, Z.eqb_refl. simpl.
      rewrite Hfree, Hmine. reflexivity.
    + unfold get_handle. run_method.
      rewrite (first_of_replaced uh_handle (same_binding user_id guild_id));
        [reflexivity | | assumption].
      unfold same_binding. simpl. now rewrite !Z.eqb_refl.
Qed.

Lemma set_handle_spec_witness :
  NoDup (map handle_key (user_handle db_handles)) /\
  set_handle 200 1 "tourist" (at_rest db_handles fresh_seqs)
  = (Raise UniqueConstraintFailed, at_rest db_handles fresh_seqs).
Proof.
  assert (H : NoDup (map handle_key (user_handle db_handles)))
    by nodup_by_computation.
  split; [exact H|].
  apply (proj1 (set_handle_spec db_handles fresh_seqs 200 1 "tourist" H))
    with (other := 100).
  - discriminate.
  - exists {| uh_user_id := 100; uh_guild_id := 1; uh_handle := "tourist";
              uh_active := Some 1 |}.
    simpl. repeat split. now left.
Defined.

(** Both cases of the claim, run on the two bindings of guild 1. *)
Example set_handle_taken :
  set_handle 200 1 "tourist" (at_rest db_handles fresh_seqs)
  = (Raise UniqueConstraintFailed, at_rest db_handles fresh_seqs).
Proof. reflexivity. Qed.

Example set_handle_again :
  set_handle 100 1 "tourist" (at_rest db_handles fresh_seqs)
  = (Ret 1, at_rest db_handles fresh_seqs)
  /\ get_handle 100 1 (at_rest db_handles fresh_seqs)
     = (Ret (Some "tourist"%string), at_rest db_handles fresh_seqs).
Proof. split; reflexivity. Qed.

(** ** C10: removing the last participation *)

Lemma sql_max_fold (l : list Z) (acc : option Z) :
  match fold_left (fun acc x => match acc with
                                | None => Some x
                                | Some m => Some (Z.max m x)
                                end) l acc with
  | None => acc = None /\ l = []
  | Some m => (In m l \/ acc = Some m)
              /\ (forall x, In x l -> x <= m)
              /\ (forall a, acc = Some a -> a <= m)
  end.
Proof.
  revert acc. induction l as [|x l IH]; intros acc; simpl.
  - destruct acc as [a|]; [|now split].
    split; [now right | split; [intros ? [] |]].
    intros a' Ha. inversion Ha. lia.
  - specialize (IH (match acc with
                    | None => Some x
                    | Some m => Some (Z.max m x)
                    end)).
    destruct (fold_left _ l _) as [m|].
    + destruct IH as [Hm [Hle Hacc]]. split; [|split].
      * destruct Hm as [Hm | Hm]; [left; now right|].
        destruct acc as [a|]; inversion Hm; subst.
        -- destruct (Z.max_spec a x) as [[_ ->] | [_ ->]];
             [left; now left | now right].
        -- left; now left.
      * intros y [Hy | Hy]; [subst y | now apply Hle].
        destruct acc as [a|]; [|now apply Hacc].
        specialize (Hacc _ eq_refl). lia.
      * intros a Ha. subst acc. specialize (Hacc _ eq_refl). lia.
    + destruct IH as [Hnone _]. destruct acc; discriminate.
Qed.

Lemma sql_max_spec (l : list Z) :
  match sql_max l with
  | None => l = []
  | Some m => In m l /\ forall x, In x l -> x <= m
  end.
Proof.
  unfold sql_max. pose proof (sql_max_fold l None) as H.
  destruct (fold_left _ l None) as [m|].
  - destruct H as [[Hin | Habs] [Hle _]]; [now split | discriminate].
  - now destruct H.
Qed.

Lemma filter_all {Row : Type} (p : Row -> bool) (t : list Row) :
  (forall r, p r = true) -> filter p t = t.
Proof.
  intros Hp. induction t as [|r t IH]; [reflexivity|].
  simpl. now rewrite Hp, IH.
Qed.

Lemma filter_nothing {Row : Type} (p : Row -> bool) (t : list Row) :
  (forall r, p r = false) -> filter p t = [].
Proof.
  intros Hp. induction t as [|r t IH]; [reflexivity|].
  simpl. now rewrite Hp, IH.
Qed.

Lemma key_injective {Row K : Type} (key : Row -> K) (t : list Row)
    (a b : Row) :
  NoDup (map key t) -> In a t -> In b t -> key a = key b -> a = b.
Proof.
  induction t as [|x t IH]; intros Hnd Ha Hb Hk; [contradiction|].
  simpl in Hnd. inversion Hnd as [|? ? Hnotin Hnd']; subst.
  destruct Ha as [Ha | Ha], Hb as [Hb | Hb]; subst.
  - reflexivity.
  - elim Hnotin. rewrite Hk. now apply in_map.
  - elim Hnotin. rewrite <- Hk. now apply in_map.
  - now apply IH.
Qed.

Lemma set_rated_vc_users_same (d : db) :
  set_rated_vc_users (rated_vc_users d) d = d.
Proof. now destruct d. Qed.

(** C10.  Under the primary key of [rated_vc_users]: for a user with a
    participation, [remove_last_ratedvc_participation] deletes the one
    row with the largest vc_id among all rows of the user, rated or not,
    keeps every other row and returns 1; for a user without any it
    returns 0 and leaves the connection as it was. *)
Theorem remove_last_ratedvc_participation_spec :
  forall (d : db) (s : seqs) (user_id : Z),
    NoDup (map vc_key (rated_vc_users d)) ->
    match participations user_id d with
    | [] =>
        remove_last_ratedvc_participation user_id (at_rest d s)
        = (Ret 0, at_rest d s)
    | _ :: _ =>
        exists (last : rated_vc_user_row) (t' : list rated_vc_user_row),
          In last (rated_vc_users d)
          /\ vu_user_id last = user_id
          /\ (forall r, In r (rated_vc_users d) -> vu_user_id r = user_id ->
                        vu_vc_id r <= vu_vc_id last)
          /\ remove_last_ratedvc_participation user_id (at_rest d s)
             = (Ret 1, at_rest (set_rated_vc_users t' d) s)
          /\ (forall r, In r t' <-> In r (rated_vc_users d) /\ r <> last)
    end.
Proof.
  intros d s user_id Hnd. unfold participations.
  pose proof (sql_max_spec
                (map vu_vc_id (filter (fun r => vu_user_id r =? user_id)
                                      (rated_vc_users d)))) as Hmax.
  destruct (filter (fun r => vu_user_id r =? user_id) (rated_vc_users d))
    as [|r0 mine] eqn:Hmine.
  - unfold remove_last_ratedvc_participation, _fetchone. run_method.
    rewrite Hmine. simpl. unfold delete_where, count_where.
    rewrite (filter_all (fun r => negb ((vu_user_id r =? user_id) && false)));
      [| intros r; now rewrite andb_false_r].
    rewrite (filter_nothing (fun r => (vu_user_id r =? user_id) && false));
      [| intros r; now rewrite andb_false_r].
    rewrite set_rated_vc_users_same. reflexivity.
  - destruct (sql_max (map vu_vc_id (r0 :: mine))) as [m|] eqn:Hm;
      [|discriminate].
    destruct Hmax as [Hin Hle]. apply in_map_iff in Hin.
    destruct Hin as [last [Hvc Hlast]]. rewrite <- Hmine in Hlast.
    apply filter_In in Hlast. destruct Hlast as [Hlast Hu].
    apply Z.eqb_eq in Hu.
    set (sel := fun r => (vu_user_id r =? user_id) && (vu_vc_id r =? m)).
    assert (Hkey : forall r, sel r = true -> vc_key r = (m, user_id)).
    { intros r Hr. unfold sel in Hr. simpl in Hr.
      apply andb_true_iff in Hr. destruct Hr as [Hru Hrv].
      apply Z.eqb_eq in Hru. apply Z.eqb_eq in Hrv.
      unfold vc_key. now rewrite Hru, Hrv. }
    assert (Hsel : sel last = true).
    { unfold sel. simpl. rewrite Hu, Hvc. now rewrite !Z.eqb_refl. }
    exists last, (delete_where sel (rated_vc_users d)).
    split; [exact Hlast | split; [exact Hu | split; [| split]]].
    + intros r Hr Hru. rewrite Hvc. apply Hle. apply in_map.
      rewrite <- Hmine.
      apply filter_In. split; [assumption | now apply Z.eqb_eq].
    + unfold remove_last_ratedvc_participation, _fetchone. run_method.
      rewrite Hmine, Hm. simpl. fold sel.
      rewrite (count_where_unique vc_key (m, user_id) sel _ Hkey Hnd).
      assert (Hex : existsb sel (rated_vc_users d) = true)
        by (apply existsb_exists; now exists last).
      rewrite Hex. reflexivity.
    + intros r. unfold delete_where. rewrite filter_In. split.
      * intros [Hr Hnot]. split; [assumption|].
        intros Heq. subst r. rewrite Hsel in Hnot. discriminate.
      * intros [Hr Hneq]. split; [assumption|].
        destruct (sel r) eqn:Hsr; [|reflexivity].
        elim Hneq. apply (key_injective vc_key (rated_vc_users d));
          try assumption.
        now rewrite (Hkey r Hsr), (Hkey last Hsel).
Qed.

Lemma remove_last_ratedvc_participation_spec_witness :
  NoDup (map vc_key (rated_vc_users db_unrated_last)) /\
  exists (last : rated_vc_user_row) (t' : list rated_vc_user_row),
    In last (rated_vc_users db_unrated_last)
    /\ vu_user_id last = 7
    /\ (forall r, In r (rated_vc_users db_unrated_last) ->
                  vu_user_id r = 7 -> vu_vc_id r <= vu_vc_id last)
    /\ remove_last_ratedvc_participation 7 (at_rest db_unrated_last fresh_seqs)
       = (Ret 1, at_rest (set_rated_vc_users t' db_unrated_last) fresh_seqs)
    /\ (forall r, In r t' <-> In r (rated_vc_users db_unrated_last)
                              /\ r <> last).
Proof.
  assert (H : NoDup (map vc_key (rated_vc_users db_unrated_last)))
    by nodup_by_computation.
  split; [exact H|].
  exact (remove_last_ratedvc_participation_spec db_unrated_last fresh_seqs
           7 H).
Defined.

(** The last participation of user 7 is the unrated one of VC 7; a user
    without participations loses nothing. *)
Example remove_last_unrated :
  remove_last_ratedvc_participation 7 (at_rest db_unrated_last fresh_seqs)
  = (Ret 1,
     at_rest
       (set_rated_vc_users
          [ {| vu_vc_id := 3; vu_user_id := 7; vu_rating := Some 1600 |};
            {| vu_vc_id := 7; vu_user_id := 8; vu_rating := Some 1450 |} ]
          db_unrated_last)
       fresh_seqs).
Proof. reflexivity. Qed.

Example remove_last_of_stranger :
  remove_last_ratedvc_participation 99 (at_rest db_unrated_last fresh_seqs)
  = (Ret 0, at_rest db_unrated_last fresh_seqs).
Proof. reflexivity. Qed.

(** * Further properties *)

(** ** Duel transitions *)

Lemma update_where_none {Row : Type} (p : Row -> bool) (f : Row -> Row)
    (t : list Row) :
  existsb p t = false -> update_where p f t = t.
Proof.
  induction t as [|r t IH]; intros H; [reflexivity|].
  simpl in H. apply orb_false_iff in H. destruct H as [Hr Ht].
  simpl. rewrite Hr. f_equal. now apply IH.
Qed.

Lemma set_duel_same (d : db) : set_duel (duel d) d = d.
Proof. now destruct d. Qed.

Lemma set_duelist_same (d : db) : set_duelist (duelist d) d = d.
Proof. now destruct d. Qed.

(** X1.  Under the primary key of [duel], [invalidate_duel] returns 1
    exactly when the duel is ONGOING and then commits status INVALID on
    that duel alone; otherwise it returns 0 and the connection is as
    before. *)
Theorem invalidate_duel_spec :
  forall (d : db) (s : seqs) (duelid : Z),
    NoDup (map d_id (duel d)) ->
    invalidate_duel duelid (at_rest d s)
    = if existsb (duel_in Duel.ONGOING duelid) (duel d)
      then (Ret 1,
            at_rest
              (set_duel
                 (update_where (duel_in Duel.ONGOING duelid)
                               (with_duel_status (Duel.value Duel.INVALID))
                               (duel d)) d) s)
      else (Ret 0, at_rest d s).
Proof.
  intros d s duelid Hnd. unfold invalidate_duel. run_method.
  rewrite (count_duel_in Duel.ONGOING duelid (duel d) Hnd).
  destruct (existsb (duel_in Duel.ONGOING duelid) (duel d)); reflexivity.
Qed.

Lemma invalidate_duel_spec_witness :
  NoDup (map d_id (duel db_duels)) /\
  invalidate_duel 2 (at_rest db_duels fresh_seqs)
  = (Ret 1,
     at_rest
       (set_duel
          [ a_duel 1 10 20 Duel.COMPLETE (Some (Winner.value Winner.CHALLENGER));
            a_duel 2 10 20 Duel.INVALID None ]
          db_duels)
       fresh_seqs).
Proof.
  assert (H : NoDup (map d_id (duel db_duels))) by nodup_by_computation.
  split; [exact H|].
  exact (invalidate_duel_spec db_duels fresh_seqs 2 H).
Defined.

Lemma not_open_not_in (st : Duel.t) (duelid : Z) (t : list duel_row) :
  st = Duel.PENDING \/ st = Duel.ONGOING ->
  (forall r, In r t -> d_id r = duelid -> is_open r = false) ->
  existsb (duel_in st duelid) t = false.
Proof.
  intros Hst Hclosed. apply not_true_is_false. intros Hex.
  apply existsb_exists in Hex. destruct Hex as [r [Hin Hr]].
  unfold duel_in in Hr. apply andb_true_iff in Hr. destruct Hr as [Hid Hs].
  apply Z.eqb_eq in Hid. specialize (Hclosed r Hin Hid).
  unfold is_open in Hclosed. apply orb_false_iff in Hclosed.
  destruct Hclosed as [Hp Ho].
  destruct Hst; subst st; congruence.
Qed.

(** X2.  A duel id whose rows are neither PENDING nor ONGOING - a duel
    that was declined, withdrawn, expired, completed or invalidated, or
    an id that is not in the table - is out of reach of the three
    transitions: each returns 0 and leaves the connection as it was. *)
Theorem settled_duel_is_final :
  forall (d : db) (s : seqs) (duelid status winner : Z) (finish_time : time)
         (winner_id loser_id delta dtype : Z),
    (forall r, In r (duel d) -> d_id r = duelid -> is_open r = false) ->
    cancel_duel duelid status (at_rest d s) = (Ret 0, at_rest d s)
    /\ invalidate_duel duelid (at_rest d s) = (Ret 0, at_rest d s)
    /\ complete_duel duelid winner finish_time winner_id loser_id delta dtype
                     (at_rest d s)
       = (Ret 0, at_rest d s).
Proof.
  intros d s duelid status winner finish_time winner_id loser_id delta dtype
         Hclosed.
  pose proof (not_open_not_in Duel.PENDING duelid (duel d)
                (or_introl eq_refl) Hclosed) as Hp.
  pose proof (not_open_not_in Duel.ONGOING duelid (duel d)
                (or_intror eq_refl) Hclosed) as Ho.
  unfold cancel_duel, invalidate_duel, complete_duel. run_method.
  rewrite (count_where_none _ _ Hp), (count_where_none _ _ Ho).
  repeat split.
Qed.

Lemma settled_duel_is_final_witness :
  (forall r, In r (duel db_duels) -> d_id r = 1 -> is_open r = false) /\
  cancel_duel 1 (Duel.value Duel.WITHDRAWN) (at_rest db_duels fresh_seqs)
  = (Ret 0, at_rest db_duels fresh_seqs).
Proof.
  assert (H : forall r, In r (duel db_duels) -> d_id r = 1 ->
                        is_open r = false).
  { intros r [Hr | [Hr | []]] Hid; subst r; [reflexivity|].
    simpl in Hid. discriminate. }
  split; [exact H|].
  exact (proj1 (settled_duel_is_final db_duels fresh_seqs 1
                  (Duel.value Duel.WITHDRAWN) 0 0 0 0 0 0 H)).
Defined.

Lemma completed_not_ongoing (duelid winner : Z) (finish_time : time)
    (t : list duel_row) :
  existsb (duel_in Duel.ONGOING duelid)
          (update_where (duel_in Duel.ONGOING duelid)
                        (with_duel_completed finish_time winner) t)
  = false.
Proof.
  induction t as [|r t IH]; [reflexivity|].
  simpl. rewrite IH, orb_false_r.
  destruct (duel_in Duel.ONGOING duelid r) eqn:Hr; [|exact Hr].
  unfold duel_in. simpl. now rewrite andb_false_r.
Qed.

(** X3.  A completion applies once: whatever the first call of
    [complete_duel] on a duel did, a second call on the same duel returns
    0 and leaves the connection as the first call left it, so no rating
    is moved twice. *)
Theorem complete_duel_applies_once :
  forall (d : db) (s : seqs) (duelid : Z)
         (winner winner' : Z) (finish_time finish_time' : time)
         (winner_id loser_id delta dtype : Z)
         (winner_id' loser_id' delta' dtype' : Z),
    (complete_duel duelid winner finish_time winner_id loser_id delta dtype ;;;
     complete_duel duelid winner' finish_time' winner_id' loser_id' delta'
                   dtype')
      (at_rest d s)
    = (Ret 0,
       snd (complete_duel duelid winner finish_time winner_id loser_id delta
                          dtype (at_rest d s))).
Proof.
  intros. unfold complete_duel, update_duel_rating. run_method.
  destruct (count_where (duel_in Duel.ONGOING duelid) (duel d) =? 1) eqn:Hc;
    simpl.
  - destruct (dtype =? 1); simpl;
      rewrite (count_where_none _ _
                 (completed_not_ongoing duelid winner finish_time (duel d)));
      reflexivity.
  - rewrite Hc. reflexivity.
Qed.

(** ** The duelist ledger *)

Lemma total_rating_credited (userid delta : Z) (t : list duelist_row) :
  total_rating (credited userid delta t)
  = total_rating t
    + delta * count_where (fun r => dl_user_id r =? userid) t.
Proof.
  unfold credited, update_where.
  induction t as [|r t IH]; [unfold count_where; simpl; lia|].
  rewrite count_where_cons.
  change (total_rating (map (fun r0 => if dl_user_id r0 =? userid
                                       then with_rating_delta delta r0
                                       else r0) (r :: t)))
    with (dl_rating (if dl_user_id r =? userid
                     then with_rating_delta delta r else r)
          + total_rating (map (fun r0 => if dl_user_id r0 =? userid
                                         then with_rating_delta delta r0
                                         else r0) t)).
  change (total_rating (r :: t)) with (dl_rating r + total_rating t).
  rewrite IH. destruct (dl_user_id r =? userid); simpl dl_rating; lia.
Qed.

Lemma credited_ids (userid delta : Z) (t : list duelist_row) :
  map dl_user_id (credited userid delta t) = map dl_user_id t.
Proof.
  unfold credited. now apply map_update_where_same.
Qed.

Lemma count_duelist (userid : Z) (t : list duelist_row) :
  NoDup (map dl_user_id t) ->
  count_where (fun r => dl_user_id r =? userid) t
  = if existsb (fun r => dl_user_id r =? userid) t then 1 else 0.
Proof.
  apply (count_where_unique dl_user_id userid).
  intros r Hr. now apply Z.eqb_eq.
Qed.

Lemma existsb_credited (userid other delta : Z) (t : list duelist_row) :
  existsb (fun r => dl_user_id r =? userid) (credited other delta t)
  = existsb (fun r => dl_user_id r =? userid) t.
Proof.
  unfold credited, update_where. induction t as [|r t IH]; [reflexivity|].
  simpl. rewrite IH. now destruct (dl_user_id r =? other).
Qed.

(** X4.  Completing a duel is zero-sum on the ledger: when the ledger has
    its primary key and both the winner and the loser are registered, the
    sum of all ratings committed after [complete_duel] is the sum from
    before, whatever the call returns. *)
Theorem complete_duel_zero_sum :
  forall (d : db) (s : seqs) (duelid winner : Z) (finish_time : time)
         (winner_id loser_id delta dtype : Z),
    NoDup (map dl_user_id (duelist d)) ->
    has_duelist winner_id d = true ->
    has_duelist loser_id d = true ->
    total_rating
      (duelist (committed (snd (complete_duel duelid winner finish_time
                                  winner_id loser_id delta dtype
                                  (at_rest d s)))))
    = total_rating (duelist d).
Proof.
  intros d s duelid winner finish_time winner_id loser_id delta dtype
         Hnd Hw Hl.
  unfold has_duelist in Hw, Hl.
  unfold complete_duel, update_duel_rating. run_method.
  destruct (count_where (duel_in Duel.ONGOING duelid) (duel d) =? 1); simpl;
    [|reflexivity].
  destruct (dtype =? 1); simpl; [|reflexivity].
  fold (credited winner_id delta (duelist d)).
  fold (credited loser_id (- delta) (credited winner_id delta (duelist d))).
  rewrite !total_rating_credited.
  rewrite (count_duelist loser_id (credited winner_id delta (duelist d)))
    by (now rewrite credited_ids).
  rewrite existsb_credited, Hl, (count_duelist winner_id _ Hnd), Hw.
  lia.
Qed.

Lemma complete_duel_zero_sum_witness :
  NoDup (map dl_user_id (duelist db_duels)) /\
  has_duelist 10 db_duels = true /\
  has_duelist 20 db_duels = true /\
  total_rating
    (duelist (committed (snd (complete_duel 2 (Winner.value Winner.CHALLENGEE)
                                100 20 10 30
                                (DuelType.value DuelType.OFFICIAL)
                                (at_rest db_duels fresh_seqs)))))
  = total_rating (duelist db_duels).
Proof.
  assert (H : NoDup (map dl_user_id (duelist db_duels)))
    by nodup_by_computation.
  split; [exact H | split; [reflexivity | split; [reflexivity|]]].
  exact (complete_duel_zero_sum db_duels fresh_seqs 2
           (Winner.value Winner.CHALLENGEE) 100 20 10 30
           (DuelType.value DuelType.OFFICIAL) H eq_refl eq_refl).
Defined.

Lemma filter_nothing_of {Row : Type} (p : Row -> bool) (t : list Row) :
  existsb p t = false -> filter p t = [].
Proof.
  induction t as [|r t IH]; intros H; [reflexivity|].
  simpl in H. apply orb_false_iff in H. destruct H as [Hr Ht].
  simpl. rewrite Hr. now apply IH.
Qed.

(** X5.  [update_duel_rating] on a user without a duelist row returns 0
    and leaves the database as it was: no row is created.  On a
    registered user, under the primary key of the ledger, the rating that
    [get_duel_rating] reads afterwards is the old rating plus delta. *)
Theorem update_duel_rating_spec :
  forall (d : db) (s : seqs) (userid delta : Z),
    (has_duelist userid d = false ->
     update_duel_rating userid delta (at_rest d s) = (Ret 0, at_rest d s))
    /\ (forall r : duelist_row,
           NoDup (map dl_user_id (duelist d)) ->
           In r (duelist d) -> dl_user_id r = userid ->
           (update_duel_rating userid delta ;;; get_duel_rating userid)
             (at_rest d s)
           = (Ret (dl_rating r + delta),
              at_rest (set_duelist (credited userid delta (duelist d)) d) s)).
Proof.
  intros d s userid delta. split.
  - unfold has_duelist. intros Hno.
    unfold update_duel_rating. run_method.
    rewrite (count_where_none _ _ Hno), (update_where_none _ _ _ Hno).
    now rewrite set_duelist_same.
  - intros r Hnd Hin Hid.
    unfold update_duel_rating, get_duel_rating. run_method.
    fold (credited userid delta (duelist d)).
    rewrite (filter_unique dl_user_id userid
               (fun r => dl_user_id r =? userid)
               (credited userid delta (duelist d))
               (with_rating_delta delta r)).
    + reflexivity.
    + intros x Hx. now apply Z.eqb_eq.
    + now rewrite credited_ids.
    + pose proof (in_update_where (fun r => dl_user_id r =? userid)
                    (with_rating_delta delta) (duelist d) r Hin) as H.
      cbv beta in H. rewrite Hid, Z.eqb_refl in H. exact H.
    + simpl. rewrite Hid. apply Z.eqb_refl.
Qed.

Lemma update_duel_rating_spec_witness :
  has_duelist 30 db_duels = false /\
  update_duel_rating 30 25 (at_rest db_duels fresh_seqs)
  = (Ret 0, at_rest db_duels fresh_seqs).
Proof.
  split; [reflexivity|].
  exact (proj1 (update_duel_rating_spec db_duels fresh_seqs 30 25) eq_refl).
Defined.

Lemma first_of_constant {Row A : Type} (p : Row -> bool) (c : A)
    (t : list Row) :
  existsb p t = true ->
  hd_error (map (fun _ => c) (filter p t)) = Some c.
Proof.
  induction t as [|r t IH]; intros H; [discriminate|].
  simpl in H. simpl. destruct (p r); [reflexivity | now apply IH].
Qed.

(** X6.  [register_duelist] is idempotent: a second call for the same
    user returns 0 and leaves the connection as the first call left it,
    and after a call [is_duelist] finds the user.  A user who was not
    registered is rated 1500 afterwards; for a user who was, the call
    returns 0 and changes nothing. *)
Theorem register_duelist_spec :
  forall (d : db) (s : seqs) (userid : Z),
    (register_duelist userid ;;; register_duelist userid) (at_rest d s)
    = (Ret 0, snd (register_duelist userid (at_rest d s)))
    /\ fst ((register_duelist userid ;;; is_duelist userid) (at_rest d s))
       = Ret (Some 1)
    /\ (has_duelist userid d = false ->
        (register_duelist userid ;;; get_duel_rating userid) (at_rest d s)
        = (Ret 1500,
           at_rest (set_duelist
                      (duelist d ++ [{| dl_user_id := userid;
                                        dl_rating := 1500 |}]) d) s))
    /\ (has_duelist userid d = true ->
        register_duelist userid (at_rest d s) = (Ret 0, at_rest d s)).
Proof.
  intros d s userid. unfold has_duelist.
  unfold register_duelist, insert_duelist, get_duel_rating, is_duelist.
  run_method.
  destruct (existsb (fun r => dl_user_id r =? userid) (duelist d)) eqn:Hex;
    simpl.
  - rewrite Hex. simpl.
    rewrite (first_of_constant (fun r => dl_user_id r =? userid) 1 _ Hex).
    repeat split. discriminate.
  - rewrite existsb_app, Hex. simpl. rewrite Z.eqb_refl. simpl.
    rewrite filter_app, (filter_nothing_of _ _ Hex). simpl.
    rewrite Z.eqb_refl. simpl.
    split; [reflexivity | split; [reflexivity | split; [|discriminate]]].
    intros _. reflexivity.
Qed.

Lemma register_duelist_spec_witness :
  has_duelist 30 db_duels = false /\
  (register_duelist 30 ;;; get_duel_rating 30) (at_rest db_duels fresh_seqs)
  = (Ret 1500,
     at_rest (set_duelist
                (duelist db_duels ++ [{| dl_user_id := 30;
                                         dl_rating := 1500 |}]) db_duels)
             fresh_seqs).
Proof.
  split; [reflexivity|].
  exact (proj1 (proj2 (proj2 (register_duelist_spec db_duels fresh_seqs 30)))
               eq_refl).
Defined.

(** ** Duel statistics add up *)

Lemma count_where_split3 {Row : Type} (p a b c : Row -> bool)
    (t : list Row) :
  (forall r, In r t ->
             indicator (p r)
             = indicator (a r) + indicator (b r) + indicator (c r)) ->
  count_where p t = count_where a t + count_where b t + count_where c t.
Proof.
  induction t as [|r t IH]; intros H; [reflexivity|].
  rewrite !count_where_cons.
  pose proof (H r (or_introl eq_refl)) as Hr. unfold indicator in Hr.
  rewrite IH by (intros x Hx; apply H; now right).
  lia.
Qed.

Lemma well_formed_duel_split (userid : Z) (r : duel_row) :
  well_formed_duel r = true ->
  indicator (involves userid r
             && sql_eq (d_status r) (Duel.value Duel.COMPLETE))
  = indicator (is_win_of userid r
               && sql_eq (d_status r) (Duel.value Duel.COMPLETE))
    + indicator (is_loss_of userid r
                 && sql_eq (d_status r) (Duel.value Duel.COMPLETE))
    + indicator (involves userid r
                 && sql_eq (d_winner r) (Winner.value Winner.DRAW)).
Proof.
  unfold well_formed_duel, is_complete, involves, is_win_of, is_loss_of,
    sql_eq, indicator.
  destruct (d_winner r) as [w|], (d_status r) as [st|]; simpl;
    repeat match goal with
           | |- context [?x =? ?y] => destruct (Z.eqb_spec x y)
           end; simpl; try reflexivity; try discriminate; try lia;
    intros; try discriminate; try lia.
Qed.

(** X7.  On a duel table whose rows are well formed, the statistics of a
    user add up: the number of completed duels is the number of wins
    listed by [get_duel_wins] plus the losses plus the draws. *)
Theorem duel_statistics_add_up :
  forall (d : db) (s : seqs) (userid : Z),
    forallb well_formed_duel (duel d) = true ->
    exists (wins : list duel_win) (losses draws : Z),
      get_duel_wins userid (at_rest d s) = (Ret wins, at_rest d s)
      /\ get_num_duel_losses userid (at_rest d s) = (Ret losses, at_rest d s)
      /\ get_num_duel_draws userid (at_rest d s) = (Ret draws, at_rest d s)
      /\ get_num_duel_completed userid (at_rest d s)
         = (Ret (Z.of_nat (length wins) + losses + draws), at_rest d s).
Proof.
  intros d s userid Hwf.
  unfold get_duel_wins, get_num_duel_losses, get_num_duel_draws,
    get_num_duel_completed.
  rewrite !count_duels_run. run_method.
  eexists. eexists. eexists.
  split; [reflexivity | split; [reflexivity | split; [reflexivity|]]].
  f_equal. f_equal. rewrite length_map.
  change (Z.of_nat (length (filter ?p ?t))) with (count_where p t).
  apply count_where_split3. intros r Hin.
  rewrite forallb_forall in Hwf.
  exact (well_formed_duel_split userid r (Hwf r Hin)).
Qed.

Lemma duel_statistics_add_up_witness :
  forallb well_formed_duel (duel db_draw_and_loss) = true /\
  exists (wins : list duel_win) (losses draws : Z),
    get_duel_wins 10 (at_rest db_draw_and_loss fresh_seqs)
    = (Ret wins, at_rest db_draw_and_loss fresh_seqs)
    /\ get_num_duel_losses 10 (at_rest db_draw_and_loss fresh_seqs)
       = (Ret losses, at_rest db_draw_and_loss fresh_seqs)
    /\ get_num_duel_draws 10 (at_rest db_draw_and_loss fresh_seqs)
       = (Ret draws, at_rest db_draw_and_loss fresh_seqs)
    /\ get_num_duel_completed 10 (at_rest db_draw_and_loss fresh_seqs)
       = (Ret (Z.of_nat (length wins) + losses + draws),
          at_rest db_draw_and_loss fresh_seqs).
Proof.
  split; [reflexivity|].
  exact (duel_statistics_add_up db_draw_and_loss fresh_seqs 10 eq_refl).
Defined.

(** ** Issuing a duel *)

(** X8.  A challenge can be found by its challengee: when the two user
    ids, the contest id and the duel type fit an INTEGER column, the next
    id of the sequence is free and the challengee has no other PENDING
    challenge, [check_duel_accept] after [create_duel] yields the id the
    new duel really has - the next value of the sequence, not the
    [lastrowid] that [create_duel] returns - with the challenger and the
    problem name.  With a user id outside the INTEGER range [create_duel]
    raises and no duel is written. *)
Theorem create_duel_then_check_duel_accept :
  forall (d : db) (s : seqs) (challenger challengee : Z) (issue_time : time)
         (prob : Problem) (dtype : Z),
    (fits_integer challenger && fits_integer challengee
     && fits_integer (contestId prob) && fits_integer dtype = true ->
     existsb (fun r => d_id r =? duel_id_seq s) (duel d) = false ->
     existsb (is_challenged challengee) (duel d) = false ->
     exists c : conn,
       (create_duel challenger challengee issue_time prob dtype ;;;
        check_duel_accept challengee) (at_rest d s)
       = (Ret (Some (duel_id_seq s, challenger, Some (name prob))), c)
       /\ committed c = working c
       /\ duel_id_seq (sequences c) = duel_id_seq s + 1)
    /\ (fits_integer challenger && fits_integer challengee = false ->
        exists c : conn,
          create_duel challenger challengee issue_time prob dtype
                      (at_rest d s)
          = (Raise NumericValueOutOfRange, c)
          /\ committed c = d).
Proof.
  intros d s challenger challengee issue_time prob dtype. split.
  - intros Hfits Hfree Hnone.
    unfold create_duel, insert_duel, check_duel_accept. run_method.
    rewrite Hfits. simpl. rewrite Hfree. simpl.
    unfold is_challenged in Hnone. simpl in Hnone.
    rewrite filter_app, (filter_nothing_of _ _ Hnone). simpl.
    rewrite Z.eqb_refl. simpl.
    eexists. split; [reflexivity|]. split; reflexivity.
  - intros Hbig. unfold create_duel, insert_duel. run_method.
    rewrite Hbig. simpl. eexists. split; reflexivity.
Qed.

Lemma create_duel_then_check_duel_accept_witness :
  fits_integer 10 && fits_integer 20
  && fits_integer (contestId a_problem)
  && fits_integer (DuelType.value DuelType.OFFICIAL) = true
  /\ existsb (fun r => d_id r =? duel_id_seq fresh_seqs) (duel empty_db)
     = false
  /\ existsb (is_challenged 20) (duel empty_db) = false
  /\ exists c : conn,
       (create_duel 10 20 50 a_problem (DuelType.value DuelType.OFFICIAL) ;;;
        check_duel_accept 20) (at_rest empty_db fresh_seqs)
       = (Ret (Some (duel_id_seq fresh_seqs, 10, Some (name a_problem))), c)
       /\ committed c = working c
       /\ duel_id_seq (sequences c) = duel_id_seq fresh_seqs + 1.
Proof.
  split; [reflexivity | split; [reflexivity | split; [reflexivity|]]].
  exact (proj1 (create_duel_then_check_duel_accept empty_db fresh_seqs 10 20
                  50 a_problem (DuelType.value DuelType.OFFICIAL))
               eq_refl eq_refl eq_refl).
Defined.

(** A Discord user id does not fit the INTEGER columns of [duel]. *)
Example create_duel_with_discord_ids :
  fst (create_duel 306450915005497345 261111222333444555 50 a_problem
                   (DuelType.value DuelType.OFFICIAL)
                   (at_rest empty_db fresh_seqs))
  = Raise NumericValueOutOfRange
  /\ committed (snd (create_duel 306450915005497345 261111222333444555 50
                                 a_problem (DuelType.value DuelType.OFFICIAL)
                                 (at_rest empty_db fresh_seqs)))
     = empty_db.
Proof. split; reflexivity. Qed.

(** ** Handles *)

Lemma set_user_handle_same (d : db) : set_user_handle (user_handle d) d = d.
Proof. now destruct d. Qed.

(** X10.  Binding and reading back: when no row of another user holds
    handle h in guild g, [set_handle u g h] returns 1, [get_handle u g]
    then yields h, and the bindings of the other (user, guild) pairs are
    the ones from before. *)
Theorem set_handle_then_get_handle :
  forall (d : db) (s : seqs) (user_id guild_id : Z) (handle : string),
    (forall r, In r (user_handle d) ->
               same_handle guild_id handle r = true ->
               uh_user_id r = user_id) ->
    exists d' : db,
      set_handle user_id guild_id handle (at_rest d s) = (Ret 1, at_rest d' s)
      /\ get_handle user_id guild_id (at_rest d' s)
         = (Ret (Some handle), at_rest d' s)
      /\ (forall r, same_binding user_id guild_id r = false ->
                    (In r (user_handle d') <-> In r (user_handle d))).
Proof.
  intros d s user_id guild_id handle Hmine.
  set (row := {| uh_user_id := user_id; uh_guild_id := guild_id;
                 uh_handle := handle; uh_active := Some 1 |}).
  assert (Hrow : same_binding user_id guild_id row = true)
    by (unfold same_binding; simpl; now rewrite !Z.eqb_refl).
  assert (Hfirst :
    match hd_error (map uh_user_id
                        (filter (same_handle guild_id handle)
                                (user_handle d))) with
    | Some owner => owner = user_id
    | None => True
    end).
  { destruct (filter (same_handle guild_id handle) (user_handle d))
      as [|x l] eqn:Hf; [exact I|].
    assert (Hx : In x (filter (same_handle guild_id handle) (user_handle d)))
      by (rewrite Hf; now left).
    apply filter_In in Hx. destruct Hx as [Hx Hsx]. simpl.
    now apply Hmine. }
  assert (Hfree :
    existsb (fun x => same_handle guild_id handle x
                      && negb (same_binding user_id guild_id x))
            (user_handle d) = false).
  { apply not_true_is_false. intros Hex. apply existsb_exists in Hex.
    destruct Hex as [x [Hx Hsel]]. apply andb_true_iff in Hsel.
    destruct Hsel as [Hsx Hnb].
    pose proof (Hmine x Hx Hsx) as Hu.
    unfold same_handle in Hsx. apply andb_true_iff in Hsx.
    destruct Hsx as [Hg _]. unfold same_binding in Hnb.
    rewrite Hu, Z.eqb_refl, Hg in Hnb. discriminate. }
  assert (Hset : forall d',
    (if existsb (same_binding user_id guild_id) (user_handle d)
     then set_user_handle
            (update_where (same_binding user_id guild_id) (fun _ => row)
                          (user_handle d)) d
     else set_user_handle (user_handle d ++ [row]) d) = d' ->
    set_handle user_id guild_id handle (at_rest d s) = (Ret 1, at_rest d' s)).
  { intros d' Hd'. unfold set_handle, upsert_user_handle. run_method.
    fold row.
    destruct (hd_error (map uh_user_id
                            (filter (same_handle guild_id handle)
                                    (user_handle d)))) as [owner|];
      simpl.
    - rewrite Hfirst, Z.eqb_refl. simpl. rewrite Hfree.
      destruct (existsb (same_binding user_id guild_id) (user_handle d));
        simpl; now rewrite <- Hd'.
    - rewrite Hfree.
      destruct (existsb (same_binding user_id guild_id) (user_handle d));
        simpl; now rewrite <- Hd'. }
  destruct (existsb (same_binding user_id guild_id) (user_handle d)) eqn:Hex.
  - eexists. split; [apply Hset; reflexivity|]. split.
    + unfold get_handle. run_method.
      now rewrite (first_of_replaced uh_handle
                     (same_binding user_id guild_id) row _ Hrow Hex).
    + intros r Hr. simpl. unfold update_where. rewrite in_map_iff. split.
      * intros [x [Heq Hx]].
        destruct (same_binding user_id guild_id x) eqn:Hbx;
          subst r; [congruence | assumption].
      * intros Hin. exists r. now rewrite Hr.
  - eexists. split; [apply Hset; reflexivity|]. split.
    + unfold get_handle. run_method.
      rewrite filter_app, (filter_nothing_of _ _ Hex). simpl.
      fold row. now rewrite Hrow.
    + intros r Hr. simpl. rewrite in_app_iff. split; [|now left].
      intros [Hin | [Heq | []]]; [assumption|].
      subst r. congruence.
Qed.

Lemma set_handle_then_get_handle_witness :
  (forall r, In r (user_handle db_two_guilds) ->
             same_handle 2 "Radewoosh" r = true -> uh_user_id r = 200) /\
  exists d' : db,
    set_handle 200 2 "Radewoosh" (at_rest db_two_guilds fresh_seqs)
    = (Ret 1, at_rest d' fresh_seqs)
    /\ get_handle 200 2 (at_rest d' fresh_seqs)
       = (Ret (Some "Radewoosh"%string), at_rest d' fresh_seqs)
    /\ (forall r, same_binding 200 2 r = false ->
                  (In r (user_handle d') <-> In r (user_handle db_two_guilds))).
Proof.
  assert (H : forall r, In r (user_handle db_two_guilds) ->
                        same_handle 2 "Radewoosh" r = true ->
                        uh_user_id r = 200).
  { intros r [Hr | [Hr | [Hr | []]]] Hs; subst r; discriminate Hs. }
  split; [exact H|].
  exact (set_handle_then_get_handle db_two_guilds fresh_seqs 200 2
           "Radewoosh" H).
Defined.

(** X11.  Under the primary key of [user_handle], [remove_handle u g]
    returns 1 for a bound user and 0 for another; afterwards
    [get_handle u g] yields None and the bindings of the other
    (user, guild) pairs are the ones from before. *)
Theorem remove_handle_spec :
  forall (d : db) (s : seqs) (user_id guild_id : Z),
    NoDup (map (fun r => (uh_user_id r, uh_guild_id r)) (user_handle d)) ->
    exists d' : db,
      remove_handle user_id guild_id (at_rest d s)
      = (Ret (if existsb (same_binding user_id guild_id) (user_handle d)
              then 1 else 0),
         at_rest d' s)
      /\ get_handle user_id guild_id (at_rest d' s)
         = (Ret None, at_rest d' s)
      /\ (forall r, In r (user_handle d')
                    <-> In r (user_handle d)
                        /\ same_binding user_id guild_id r = false).
Proof.
  intros d s user_id guild_id Hnd.
  exists (set_user_handle
            (delete_where (same_binding user_id guild_id) (user_handle d)) d).
  split; [|split].
  - unfold remove_handle. run_method. f_equal. f_equal.
    apply (count_where_unique (fun r => (uh_user_id r, uh_guild_id r))
                              (user_id, guild_id)); [|assumption].
    intros r Hr. unfold same_binding in Hr. apply andb_true_iff in Hr.
    destruct Hr as [Hu Hg]. apply Z.eqb_eq in Hu. apply Z.eqb_eq in Hg.
    now rewrite Hu, Hg.
  - unfold get_handle. run_method.
    rewrite (filter_nothing_of (same_binding user_id guild_id)); [reflexivity|].
    apply not_true_is_false. intros Hex. apply existsb_exists in Hex.
    destruct Hex as [r [Hin Hr]]. unfold delete_where in Hin.
    apply filter_In in Hin. destruct Hin as [_ Hn]. rewrite Hr in Hn.
    discriminate.
  - intros r. simpl. unfold delete_where. rewrite filter_In.
    now rewrite negb_true_iff.
Qed.

Lemma remove_handle_spec_witness :
  NoDup (map (fun r => (uh_user_id r, uh_guild_id r))
             (user_handle db_two_guilds)) /\
  exists d' : db,
    remove_handle 100 1 (at_rest db_two_guilds fresh_seqs)
    = (Ret 1, at_rest d' fresh_seqs)
    /\ get_handle 100 1 (at_rest d' fresh_seqs)
       = (Ret None, at_rest d' fresh_seqs)
    /\ (forall r, In r (user_handle d')
                  <-> In r (user_handle db_two_guilds)
                      /\ same_binding 100 1 r = false).
Proof.
  assert (H : NoDup (map (fun r => (uh_user_id r, uh_guild_id r))
                         (user_handle db_two_guilds)))
    by nodup_by_computation.
  split; [exact H|].
  exact (remove_handle_spec db_two_guilds fresh_seqs 100 1 H).
Defined.






Lemma pair_in_dec (p : Z * Z) (l : list (Z * Z)) : {In p l} + {~ In p l}.
Proof.
  apply in_dec. intros [a b] [a' b'].
  destruct (Z.eq_dec a a') as [->|Ha], (Z.eq_dec b b') as [->|Hb];
    [now left | right | right | right]; congruence.
Qed.

(** The statements of [set_inactive], run one after the other. *)
Lemma executemany_set_inactive (pairs : list (Z * Z)) :
  forall (total : Z) (cm w : db) (sq : seqs),
    exists (n : Z) (t' : list user_handle_row),
      executemany_from
        (fun pair : Z * Z =>
           sql_update user_handle set_user_handle
             (fun r => (uh_guild_id r =? fst pair)
                       && (uh_user_id r =? snd pair))
             (with_active 0))
        pairs total
        {| committed := cm; working := w; aborted := false;
           sequences := sq |}
      = (Ret n, {| committed := cm; working := set_user_handle t' w;
                   aborted := false; sequences := sq |})
      /\ total <= n
      /\ (forall r, In r t' -> In (guild_user r) pairs ->
                    uh_active r = Some 0)
      /\ (forall r, ~ In (guild_user r) pairs ->
                    (In r t' <-> In r (user_handle w))).
Proof.
  induction pairs as [|pair pairs IH]; intros total cm w sq.
  - exists total, (user_handle w). simpl.
    rewrite set_user_handle_same. unfold ret.
    split; [reflexivity | split; [lia | split]].
    + intros r _ [].
    + intros r _. reflexivity.
  - set (sel := fun r : user_handle_row =>
                  (uh_guild_id r =? fst pair) && (uh_user_id r =? snd pair)).
    assert (Hsel : forall r, sel r = true <-> guild_user r = pair).
    { intros r. unfold sel, guild_user. destruct pair as [g u]. simpl.
      rewrite andb_true_iff, !Z.eqb_eq.
      split; [intros [-> ->]; reflexivity | intros H; now inversion H]. }
    destruct (IH (total + count_where sel (user_handle w)) cm
                 (set_user_handle
                    (update_where sel (with_active 0) (user_handle w)) w)
                 sq) as [n [t' [Hrun [Hn [Hoff Hkeep]]]]].
    exists n, t'. split; [|split; [|split]].
    + simpl. unfold bind at 1. unfold execute at 1. simpl.
      fold sel. exact Hrun.
    + assert (0 <= count_where sel (user_handle w))
        by (unfold count_where; lia).
      lia.
    + intros r Hr Hin.
      destruct (pair_in_dec (guild_user r) pairs) as [Hp | Hp];
        [now apply Hoff|].
      destruct Hin as [Heq | Hin]; [|contradiction].
      apply (Hkeep r Hp) in Hr. simpl in Hr.
      unfold update_where in Hr. apply in_map_iff in Hr.
      destruct Hr as [x [Hx _]].
      destruct (sel x) eqn:Hsx; [now subst r|].
      subst x. symmetry in Heq. apply Hsel in Heq. congruence.
    + intros r Hnot. rewrite (Hkeep r); [|intros Hin; apply Hnot; now right].
      simpl. unfold update_where. rewrite in_map_iff.
      assert (Hr : sel r = false).
      { apply not_true_is_false. intros Hs. apply Hsel in Hs.
        apply Hnot. now left. }
      split.
      * intros [x [Hx Hin]]. destruct (sel x) eqn:Hsx; [|now subst r].
        elim Hnot. left. apply Hsel in Hsx. subst r.
        unfold guild_user in *. simpl. now symmetry.
      * intros Hin. exists r. now rewrite Hr.
Qed.

(** X13.  After [set_inactive pairs], no listed (guild, user) pair is
    among the active handles that [get_handles_for_guild] reports for its
    guild, and the bindings of the pairs that are not listed are the ones
    from before. *)
Theorem set_inactive_spec :
  forall (d : db) (s : seqs) (pairs : list (Z * Z)),
    exists (n : Z) (d' : db),
      set_inactive pairs (at_rest d s) = (Ret n, at_rest d' s)
      /\ 0 <= n
      /\ (forall guild_id user_id handle,
             In (guild_id, user_id) pairs ->
             exists active : list (Z * string),
               get_handles_for_guild guild_id (at_rest d' s)
               = (Ret active, at_rest d' s)
               /\ ~ In (user_id, handle) active)
      /\ (forall r, ~ In (guild_user r) pairs ->
                    (In r (user_handle d') <-> In r (user_handle d))).
Proof.
  intros d s pairs.
  destruct (executemany_set_inactive pairs 0 d d s)
    as [n [t' [Hrun [Hn [Hoff Hkeep]]]]].
  exists n, (set_user_handle t' d).
  split; [|split; [assumption | split]].
  - unfold set_inactive, executemany, with_conn, at_rest.
    rewrite Hrun. reflexivity.
  - intros guild_id user_id handle Hin. eexists. split; [reflexivity|].
    simpl. rewrite in_map_iff. intros [r [Heq Hr]].
    apply filter_In in Hr. destruct Hr as [Hr Hact].
    apply andb_true_iff in Hact. destruct Hact as [Hg Ha].
    apply Z.eqb_eq in Hg. inversion Heq as [[Hu Hh]].
    assert (Hoff' : uh_active r = Some 0).
    { apply Hoff; [assumption|]. unfold guild_user. now rewrite Hg, Hu. }
    rewrite Hoff' in Ha. discriminate.
  - exact Hkeep.
Qed.

(** The two synchronisations, run on guild 1. *)
Example reset_then_update_status_example :
  (reset_status 1 ;;; update_status 1 [200; 300] ;;; get_handles_for_guild 1)
    (at_rest db_two_guilds fresh_seqs)
  = (Ret [(200, "Petr"%string)],
     at_rest
       (set_user_handle
          [ {| uh_user_id := 100; uh_guild_id := 1; uh_handle := "tourist";
               uh_active := Some 0 |};
            {| uh_user_id := 200; uh_guild_id := 1; uh_handle := "Petr";
               uh_active := Some 1 |};
            {| uh_user_id := 100; uh_guild_id := 2; uh_handle := "Um_nik";
               uh_active := Some 0 |} ]
          db_two_guilds)
       fresh_seqs).
Proof. reflexivity. Qed.

Example set_inactive_example :
  (set_inactive [(1, 100); (2, 100); (1, 300)] ;;; get_handles_for_guild 1)
    (at_rest db_two_guilds fresh_seqs)
  = (Ret [(200, "Petr"%string)],
     at_rest
       (set_user_handle
          [ {| uh_user_id := 100; uh_guild_id := 1; uh_handle := "tourist";
               uh_active := Some 0 |};
            {| uh_user_id := 200; uh_guild_id := 1; uh_handle := "Petr";
               uh_active := Some 1 |};
            {| uh_user_id := 100; uh_guild_id := 2; uh_handle := "Um_nik";
               uh_active := Some 0 |} ]
          db_two_guilds)
       fresh_seqs)
  /\ fst (set_inactive [(1, 100); (2, 100); (1, 300)]
                       (at_rest db_two_guilds fresh_seqs))
     = Ret 2.
Proof. split; reflexivity. Qed.

(** ** Rated virtual contests *)

Lemma ongoing_after_finish (vc : Z) (t : list rated_vc_row) :
  map vc_id
      (filter (fun r => sql_eq (vc_status r) (RatedVC.value RatedVC.ONGOING))
              (update_where (fun r => vc_id r =? vc)
                            (with_vc_status (RatedVC.value RatedVC.FINISHED))
                            t))
  = filter (fun id => negb (id =? vc))
           (map vc_id
                (filter (fun r => sql_eq (vc_status r)
                                         (RatedVC.value RatedVC.ONGOING)) t)).
Proof.
  unfold update_where. simpl (RatedVC.value _).
  induction t as [|r t IH]; [reflexivity|].
  simpl. destruct (vc_id r =? vc) eqn:Hid; simpl.
  - rewrite IH. destruct (sql_eq (vc_status r) 0); simpl;
      [now rewrite Hid | reflexivity].
  - destruct (sql_eq (vc_status r) 0); simpl; [|exact IH].
    rewrite Hid. simpl. now rewrite IH.
Qed.

Lemma update_where_twice {Row : Type} (p : Row -> bool) (f : Row -> Row)
    (t : list Row) :
  (forall r, p r = true -> f (f r) = f r) ->
  (forall r, p r = true -> p (f r) = true) ->
  update_where p f (update_where p f t) = update_where p f t.
Proof.
  intros Hf Hp. unfold update_where. rewrite map_map. apply map_ext.
  intros r. destruct (p r) eqn:Hr; [|now rewrite Hr].
  now rewrite (Hp r Hr), (Hf r Hr).
Qed.

Lemma finish_rated_vc_run :
  forall (d : db) (s : seqs) (vc : Z),
    exists (before : list Z) (d' : db),
      get_ongoing_rated_vc_ids (at_rest d s) = (Ret before, at_rest d s)
      /\ (finish_rated_vc vc ;;; get_ongoing_rated_vc_ids) (at_rest d s)
         = (Ret (filter (fun id => negb (id =? vc)) before), at_rest d' s)
      /\ (finish_rated_vc vc ;;; finish_rated_vc vc) (at_rest d s)
         = finish_rated_vc vc (at_rest d s).
Proof.
  intros d s vc. eexists. eexists.
  split; [reflexivity | split].
  - unfold finish_rated_vc, get_ongoing_rated_vc_ids, _fetchall. run_method.
    rewrite !map_id. rewrite ongoing_after_finish. reflexivity.
  - unfold finish_rated_vc. run_method.
    rewrite update_where_twice; [reflexivity | reflexivity |].
    intros r Hr. exact Hr.
Qed.

(** X14.  [finish_rated_vc vc] takes vc, and only vc, off the ids that
    [get_ongoing_rated_vc_ids] returns, and finishing a second time
    changes nothing. *)
Theorem finish_rated_vc_spec :
  forall (d : db) (s : seqs) (vc : Z),
    exists (before after : list Z) (d' : db),
      get_ongoing_rated_vc_ids (at_rest d s) = (Ret before, at_rest d s)
      /\ (finish_rated_vc vc ;;; get_ongoing_rated_vc_ids) (at_rest d s)
         = (Ret after, at_rest d' s)
      /\ (forall id, In id after <-> In id before /\ id <> vc)
      /\ (finish_rated_vc vc ;;; finish_rated_vc vc) (at_rest d s)
         = finish_rated_vc vc (at_rest d s).
Proof.
  intros d s vc.
  destruct (finish_rated_vc_run d s vc) as [before [d' [Hb [Ha Hi]]]].
  exists before, (filter (fun id => negb (id =? vc)) before), d'.
  split; [exact Hb | split; [exact Ha | split; [|exact Hi]]].
  intros id. rewrite filter_In, negb_true_iff, Z.eqb_neq. reflexivity.
Qed.

Example finish_rated_vc_example :
  (finish_rated_vc 7 ;;; get_ongoing_rated_vc_ids)
    (at_rest db_running_vcs fresh_seqs)
  = (Ret [8],
     at_rest
       (set_rated_vcs
          (update_where (fun r => vc_id r =? 7)
                        (with_vc_status (RatedVC.value RatedVC.FINISHED))
                        (rated_vcs db_running_vcs))
          db_running_vcs)
       fresh_seqs).
Proof. reflexivity. Qed.

Lemma rated_vcs_once (user_id : Z) (t : list rated_vc_user_row) :
  NoDup (map vc_key t) ->
  NoDup (map vu_vc_id (filter (is_rated user_id) t)).
Proof.
  induction t as [|r t IH]; intros Hnd; [constructor|].
  simpl in Hnd. inversion Hnd as [|? ? Hnotin Hnd']; subst.
  simpl. destruct (is_rated user_id r) eqn:Hr; [|now apply IH].
  simpl. constructor; [|now apply IH].
  intros Hin. apply in_map_iff in Hin. destruct Hin as [x [Hvc Hx]].
  apply filter_In in Hx. destruct Hx as [Hx Hrx].
  apply Hnotin. apply in_map_iff. exists x. split; [|assumption].
  unfold is_rated in Hr, Hrx.
  apply andb_true_iff in Hr. destruct Hr as [Hu _].
  apply andb_true_iff in Hrx. destruct Hrx as [Hux _].
  apply Z.eqb_eq in Hu. apply Z.eqb_eq in Hux.
  unfold vc_key. now rewrite Hvc, Hu, Hux.
Qed.

(** X15.  Recording and reading back: for a rated VC [vc] and a
    participation table with its primary key, the history that
    [get_vc_rating_history] returns after [update_vc_rating vc user r]
    has the entry (vc, r), no other entry for vc, every VC at most once,
    and for the other VCs the entries from before. *)
Theorem update_vc_rating_then_history :
  forall (d : db) (s : seqs) (vc user_id rating : Z),
    NoDup (map vc_key (rated_vc_users d)) ->
    references_vc vc d = true ->
    exists (before history : list (Z * option Z)) (d' : db),
      get_vc_rating_history user_id (at_rest d s) = (Ret before, at_rest d s)
      /\ (update_vc_rating vc user_id rating ;;; get_vc_rating_history user_id)
           (at_rest d s)
         = (Ret history, at_rest d' s)
      /\ In (vc, Some rating) history
      /\ (forall x, In (vc, x) history -> x = Some rating)
      /\ NoDup (map fst history)
      /\ (forall vc' x, vc' <> vc ->
                        (In (vc', x) history <-> In (vc', x) before)).
Proof.
  intros d s vc user_id rating Hnd Hfk.
  set (t' := rating_recorded vc user_id rating (rated_vc_users d)).
  exists (map (fun r => (vu_vc_id r, vu_rating r))
              (filter (is_rated user_id) (rated_vc_users d))),
         (map (fun r => (vu_vc_id r, vu_rating r))
              (filter (is_rated user_id) t')),
         (set_rated_vc_users t' d).
  assert (Hrated : forall r, same_participation vc user_id r = true ->
                             In r t' -> is_rated user_id r = true).
  { intros r Hs Hin. unfold is_rated.
    rewrite (rating_recorded_value vc user_id rating _ r Hin Hs).
    unfold same_participation in Hs. apply andb_true_iff in Hs.
    destruct Hs as [_ Hu]. now rewrite Hu. }
  assert (Hsame : forall r, is_rated user_id r = true -> vu_vc_id r = vc ->
                            same_participation vc user_id r = true).
  { intros r Hr Hv. unfold is_rated in Hr. apply andb_true_iff in Hr.
    destruct Hr as [Hu _]. unfold same_participation.
    now rewrite Hv, Z.eqb_refl, Hu. }
  split; [reflexivity | split; [|split; [|split; [|split]]]].
  - unfold bind. rewrite (update_vc_rating_run vc user_id rating d s Hfk).
    reflexivity.
  - pose proof (rating_recorded_present vc user_id rating (rated_vc_users d))
      as Hex.
    apply existsb_exists in Hex. destruct Hex as [r [Hin Hs]].
    apply in_map_iff. exists r. split.
    + rewrite (rating_recorded_value vc user_id rating _ r Hin Hs).
      apply same_participation_key in Hs. unfold vc_key in Hs.
      now inversion Hs.
    + apply filter_In. split; [assumption | now apply Hrated].
  - intros x Hin. apply in_map_iff in Hin. destruct Hin as [r [Heq Hr]].
    apply filter_In in Hr. destruct Hr as [Hr Hrt].
    inversion Heq as [[Hv Hx]].
    apply (rating_recorded_value vc user_id rating _ r Hr).
    now apply Hsame.
  - rewrite map_map. simpl.
    apply rated_vcs_once. now apply rating_recorded_keys.
  - intros vc' x Hneq. rewrite !in_map_iff.
    assert (Hother : forall r, vu_vc_id r = vc' ->
                               same_participation vc user_id r = false).
    { intros r Hv. unfold same_participation. rewrite Hv.
      apply Z.eqb_neq in Hneq. now rewrite Hneq. }
    split; intros [r [Heq Hr]]; exists r; (split; [assumption|]);
      apply filter_In in Hr; destruct Hr as [Hr Hrt]; apply filter_In;
      (split; [|assumption]); inversion Heq as [[Hv Hx]];
      apply (rating_recorded_others vc user_id rating _ r (Hother r Hv));
      assumption.
Qed.

Lemma update_vc_rating_then_history_witness :
  NoDup (map vc_key (rated_vc_users db_running_vcs)) /\
  references_vc 7 db_running_vcs = true /\
  exists (before history : list (Z * option Z)) (d' : db),
    get_vc_rating_history 7 (at_rest db_running_vcs fresh_seqs)
    = (Ret before, at_rest db_running_vcs fresh_seqs)
    /\ (update_vc_rating 7 7 1450 ;;; get_vc_rating_history 7)
         (at_rest db_running_vcs fresh_seqs)
       = (Ret history, at_rest d' fresh_seqs)
    /\ In (7, Some 1450) history
    /\ (forall x, In (7, x) history -> x = Some 1450)
    /\ NoDup (map fst history)
    /\ (forall vc' x, vc' <> 7 ->
                      (In (vc', x) history <-> In (vc', x) before)).
Proof.
  assert (H : NoDup (map vc_key (rated_vc_users db_running_vcs)))
    by nodup_by_computation.
  split; [exact H | split; [reflexivity|]].
  exact (update_vc_rating_then_history db_running_vcs fresh_seqs 7 7 1450
           H eq_refl).
Defined.

Example update_vc_rating_then_history_example :
  fst ((update_vc_rating 7 7 1450 ;;; get_vc_rating_history 7)
         (at_rest db_running_vcs fresh_seqs))
  = Ret [(3, Some 1600); (7, Some 1450)].
Proof. reflexivity. Qed.

Section ChannelUpsert.
Variables guild_id channel_id : Z.

Let of_guild := fun r : rated_vc_settings_row => vs_guild_id r =? guild_id.
Let row := {| vs_guild_id := guild_id; vs_channel_id := Some channel_id |}.

Lemma channel_recorded_present (t : list rated_vc_settings_row) :
  existsb of_guild (channel_recorded guild_id channel_id t) = true.
Proof.
  unfold channel_recorded. fold of_guild row.
  destruct (existsb of_guild t) eqn:Hex.
  - apply existsb_exists in Hex. destruct Hex as [r [Hin Hr]].
    apply existsb_exists. exists row. split.
    + unfold update_where. apply in_map_iff. exists r. now rewrite Hr.
    + unfold of_guild, row. simpl. apply Z.eqb_refl.
  - rewrite existsb_app. simpl. unfold of_guild at 2. simpl.
    rewrite Z.eqb_refl. now rewrite orb_true_r.
Qed.

Lemma channel_recorded_keys (t : list rated_vc_settings_row) :
  NoDup (map vs_guild_id t) ->
  NoDup (map vs_guild_id (channel_recorded guild_id channel_id t)).
Proof.
  intros Hnd. unfold channel_recorded. fold of_guild row.
  destruct (existsb of_guild t) eqn:Hex.
  - unfold update_where. rewrite map_map.
    rewrite (map_ext _ vs_guild_id); [assumption|].
    intros r. destruct (of_guild r) eqn:Hr; [|reflexivity].
    simpl. symmetry. now apply Z.eqb_eq.
  - rewrite map_app. simpl.
    apply NoDup_app; [assumption | repeat constructor; intros [] |].
    intros k Hk [Heq | []]. subst k. apply in_map_iff in Hk.
    destruct Hk as [r [Hkey Hin]].
    assert (Hcontra : existsb of_guild t = true).
    { apply existsb_exists. exists r. split; [assumption|].
      unfold of_guild. now apply Z.eqb_eq. }
    congruence.
Qed.

Lemma channel_recorded_value (t : list rated_vc_settings_row)
    (r : rated_vc_settings_row) :
  In r (channel_recorded guild_id channel_id t) ->
  vs_guild_id r = guild_id ->
  vs_channel_id r = Some channel_id.
Proof.
  unfold channel_recorded. fold of_guild row.
  destruct (existsb of_guild t) eqn:Hex; intros Hin Hr.
  - unfold update_where in Hin. apply in_map_iff in Hin.
    destruct Hin as [x [Heq Hin]].
    destruct (of_guild x) eqn:Hx; subst r; [reflexivity|].
    unfold of_guild in Hx. apply Z.eqb_neq in Hx. contradiction.
  - apply in_app_or in Hin. destruct Hin as [Hin | [Heq | []]].
    + assert (Hcontra : existsb of_guild t = true).
      { apply existsb_exists. exists r. split; [assumption|].
        unfold of_guild. now apply Z.eqb_eq. }
      congruence.
    + now subst r.
Qed.

Lemma channel_recorded_others (t : list rated_vc_settings_row)
    (r : rated_vc_settings_row) :
  vs_guild_id r <> guild_id ->
  (In r (channel_recorded guild_id channel_id t) <-> In r t).
Proof.
  intros Hr. unfold channel_recorded. fold of_guild row.
  assert (Hnot : of_guild r = false) by now apply Z.eqb_neq.
  destruct (existsb of_guild t) eqn:Hex.
  - unfold update_where. rewrite in_map_iff. split.
    + intros [x [Heq Hin]]. destruct (of_guild x) eqn:Hx; [|now subst r].
      subst r. now elim Hr.
    + intros Hin. exists r. now rewrite Hnot.
  - rewrite in_app_iff. split; [|now left].
    intros [Hin | [Heq | []]]; [assumption|].
    subst r. now elim Hr.
Qed.

Lemma set_rated_vc_channel_run (d : db) (s : seqs) :
  set_rated_vc_channel guild_id channel_id (at_rest d s)
  = (Ret tt,
     at_rest (set_rated_vc_settings
                (channel_recorded guild_id channel_id (rated_vc_settings d))
                d) s).
Proof.
  unfold set_rated_vc_channel, upsert_rated_vc_channel, channel_recorded.
  run_method.
  destruct (existsb (fun r => vs_guild_id r =? guild_id)
                    (rated_vc_settings d)); reflexivity.
Qed.

End ChannelUpsert.

(** X16.  The rated VC channel of a guild is one row: under the primary
    key of [rated_vc_settings], after [set_rated_vc_channel g c1] and
    [set_rated_vc_channel g c2] exactly one row is of guild g, it holds
    c2, and the rows of the other guilds are the ones from before. *)
Theorem set_rated_vc_channel_overwrites :
  forall (d : db) (s : seqs) (guild_id c1 c2 : Z),
    NoDup (map vs_guild_id (rated_vc_settings d)) ->
    exists t2 : list rated_vc_settings_row,
      (set_rated_vc_channel guild_id c1 ;;; set_rated_vc_channel guild_id c2)
        (at_rest d s)
      = (Ret tt, at_rest (set_rated_vc_settings t2 d) s)
      /\ count_where (fun r => vs_guild_id r =? guild_id) t2 = 1
      /\ (forall r, In r t2 -> vs_guild_id r = guild_id ->
                    vs_channel_id r = Some c2)
      /\ (forall r, vs_guild_id r <> guild_id ->
                    (In r t2 <-> In r (rated_vc_settings d))).
Proof.
  intros d s guild_id c1 c2 Hnd.
  set (t1 := channel_recorded guild_id c1 (rated_vc_settings d)).
  exists (channel_recorded guild_id c2 t1).
  split; [|split; [|split]].
  - unfold bind. rewrite set_rated_vc_channel_run. fold t1.
    rewrite set_rated_vc_channel_run. reflexivity.
  - rewrite (count_where_unique vs_guild_id guild_id).
    + now rewrite channel_recorded_present.
    + intros r Hr. now apply Z.eqb_eq.
    + apply channel_recorded_keys. now apply channel_recorded_keys.
  - intros r. apply channel_recorded_value.
  - intros r Hr.
    rewrite (channel_recorded_others guild_id c2 t1 r Hr).
    now apply channel_recorded_others.
Qed.

Lemma set_rated_vc_channel_overwrites_witness :
  NoDup (map vs_guild_id (rated_vc_settings db_vc_channel)) /\
  exists t2 : list rated_vc_settings_row,
    (set_rated_vc_channel 1 777 ;;; set_rated_vc_channel 1 888)
      (at_rest db_vc_channel fresh_seqs)
    = (Ret tt, at_rest (set_rated_vc_settings t2 db_vc_channel) fresh_seqs)
    /\ count_where (fun r => vs_guild_id r =? 1) t2 = 1
    /\ (forall r, In r t2 -> vs_guild_id r = 1 -> vs_channel_id r = Some 888)
    /\ (forall r, vs_guild_id r <> 1 ->
                  (In r t2 <-> In r (rated_vc_settings db_vc_channel))).
Proof.
  assert (H : NoDup (map vs_guild_id (rated_vc_settings db_vc_channel)))
    by nodup_by_computation.
  split; [exact H|].
  exact (set_rated_vc_channel_overwrites db_vc_channel fresh_seqs 1 777 888 H).
Defined.

Lemma filter_all_in {Row : Type} (p : Row -> bool) (t : list Row) :
  (forall r, In r t -> p r = true) -> filter p t = t.
Proof.
  induction t as [|r t IH]; intros H; [reflexivity|].
  simpl. rewrite (H r (or_introl eq_refl)). f_equal.
  apply IH. intros x Hx. apply H. now right.
Qed.

Lemma sql_max_last (l : list Z) (v : Z) :
  (forall x, In x l -> x < v) -> sql_max (l ++ [v]) = Some v.
Proof.
  intros Hlt. pose proof (sql_max_spec (l ++ [v])) as H.
  destruct (sql_max (l ++ [v])) as [m|].
  - destruct H as [Hin Hle]. f_equal.
    assert (Hv : v <= m) by (apply Hle, in_or_app; right; now left).
    apply in_app_or in Hin. destruct Hin as [Hin | [Heq | []]];
      [|now symmetry].
    specialize (Hlt m Hin). lia.
  - destruct l; discriminate.
Qed.

(** X17.  [remove_last_ratedvc_participation] undoes the latest record:
    for a rated VC [vc] whose id is above the ids of all participations
    of user u, [update_vc_rating vc u r] followed by
    [remove_last_ratedvc_participation u] returns 1 and leaves the
    database as it was. *)
Theorem update_vc_rating_then_remove_last :
  forall (d : db) (s : seqs) (vc user_id rating : Z),
    references_vc vc d = true ->
    (forall r, In r (rated_vc_users d) -> vu_user_id r = user_id ->
               vu_vc_id r < vc) ->
    (update_vc_rating vc user_id rating ;;;
     remove_last_ratedvc_participation user_id) (at_rest d s)
    = (Ret 1, at_rest d s).
Proof.
  intros d s vc user_id rating Hfk Hlt.
  set (row := {| vu_vc_id := vc; vu_user_id := user_id;
                 vu_rating := Some rating |}).
  assert (Hother : forall r, In r (rated_vc_users d) ->
                             (vu_user_id r =? user_id) && (vu_vc_id r =? vc)
                             = false).
  { intros r Hin. apply not_true_is_false. intros Hr.
    apply andb_true_iff in Hr. destruct Hr as [Hu Hv].
    apply Z.eqb_eq in Hu. apply Z.eqb_eq in Hv.
    specialize (Hlt r Hin Hu). lia. }
  assert (Hnew : existsb (same_participation vc user_id) (rated_vc_users d)
                 = false).
  { apply not_true_is_false. intros Hex. apply existsb_exists in Hex.
    destruct Hex as [r [Hin Hr]]. unfold same_participation in Hr.
    rewrite andb_comm, (Hother r Hin) in Hr. discriminate. }
  assert (Hsel : filter (fun r => (vu_user_id r =? user_id)
                                  && (vu_vc_id r =? vc))
                        (rated_vc_users d) = []).
  { apply filter_nothing_of. apply not_true_is_false. intros Hex.
    apply existsb_exists in Hex. destruct Hex as [r [Hin Hr]].
    rewrite (Hother r Hin) in Hr. discriminate. }
  unfold bind. rewrite (update_vc_rating_run vc user_id rating d s Hfk).
  unfold rating_recorded. rewrite Hnew. fold row.
  unfold remove_last_ratedvc_participation, _fetchone. run_method.
  rewrite filter_app. simpl. rewrite Z.eqb_refl. rewrite map_app. simpl.
  rewrite sql_max_last.
  - simpl. unfold count_where, delete_where. rewrite !filter_app. simpl.
    rewrite !Z.eqb_refl. simpl. rewrite Hsel. simpl.
    rewrite (filter_all_in (fun r => negb ((vu_user_id r =? user_id)
                                           && (vu_vc_id r =? vc)))).
    + rewrite app_nil_r.
      change (set_rated_vc_users (rated_vc_users d)
                (set_rated_vc_users (rated_vc_users d ++ [row]) d))
        with (set_rated_vc_users (rated_vc_users d) d).
      now rewrite set_rated_vc_users_same.
    + intros r Hin. now rewrite (Hother r Hin).
  - intros x Hx. apply in_map_iff in Hx. destruct Hx as [r [Hv Hr]].
    apply filter_In in Hr. destruct Hr as [Hr Hu]. apply Z.eqb_eq in Hu.
    subst x. now apply Hlt.
Qed.

Lemma update_vc_rating_then_remove_last_witness :
  references_vc 8 db_running_vcs = true /\
  (forall r, In r (rated_vc_users db_running_vcs) -> vu_user_id r = 7 ->
             vu_vc_id r < 8) /\
  (update_vc_rating 8 7 1500 ;;; remove_last_ratedvc_participation 7)
    (at_rest db_running_vcs fresh_seqs)
  = (Ret 1, at_rest db_running_vcs fresh_seqs).
Proof.
  assert (H : forall r, In r (rated_vc_users db_running_vcs) ->
                        vu_user_id r = 7 -> vu_vc_id r < 8).
  { intros r [Hr | [Hr | []]] _; subst r; reflexivity. }
  split; [reflexivity | split; [exact H|]].
  exact (update_vc_rating_then_remove_last db_running_vcs fresh_seqs 8 7 1500
           eq_refl H).
Defined.

(** ** Challenges *)

Lemma cleared_not_active (user_id challenge_id : Z)
    (f : user_challenge_row -> user_challenge_row)
    (t : list user_challenge_row) :
  (forall r, uc_active_challenge_id (f r) = None) ->
  count_where (has_active user_id challenge_id)
              (update_where (has_active user_id challenge_id) f t)
  = 0.
Proof.
  intros Hf. apply count_where_none. induction t as [|r t IH]; [reflexivity|].
  simpl. rewrite IH, orb_false_r.
  destruct (has_active user_id challenge_id r) eqn:Hr; [|exact Hr].
  unfold has_active. rewrite Hf. simpl. now rewrite andb_false_r.
Qed.

Lemma complete_challenge_run (d : db) (s : seqs) (user_id challenge_id : Z)
    (finish_time : time) (delta : Z) :
  complete_challenge user_id challenge_id finish_time delta (at_rest d s)
  = if (count_where (is_gitgud challenge_id) (challenge d) =? 1)
       && (count_where (has_active user_id challenge_id) (user_challenge d)
           =? 1)
    then (Ret 1,
          at_rest (challenge_completed user_id challenge_id finish_time delta
                                       d) s)
    else (Ret 0, at_rest d s).
Proof.
  unfold complete_challenge, challenge_completed. run_method.
  destruct (count_where (is_gitgud challenge_id) (challenge d) =? 1);
    simpl; [|reflexivity].
  destruct (count_where (has_active user_id challenge_id) (user_challenge d)
            =? 1); reflexivity.
Qed.

Lemma skip_challenge_run (d : db) (s : seqs) (user_id challenge_id status : Z) :
  skip_challenge user_id challenge_id status (at_rest d s)
  = if (count_where (has_active user_id challenge_id) (user_challenge d)
        =? 1)
       && (count_where (is_gitgud challenge_id) (challenge d) =? 1)
    then (Ret 1,
          at_rest (challenge_skipped user_id challenge_id status d) s)
    else (Ret 0, at_rest d s).
Proof.
  unfold skip_challenge, challenge_skipped. run_method.
  destruct (count_where (has_active user_id challenge_id) (user_challenge d)
            =? 1); simpl; [|reflexivity].
  destruct (count_where (is_gitgud challenge_id) (challenge d) =? 1);
    reflexivity.
Qed.

(** X18.  A challenge is settled once: after [complete_challenge] or
    [skip_challenge] was called for a user and a challenge, whatever it
    returned, a further call of either for the same user and challenge
    returns 0 and leaves the connection as the first call left it; no
    score is added twice. *)
Theorem challenge_settles_once :
  forall (d : db) (s : seqs) (user_id challenge_id : Z)
         (finish_time finish_time' : time) (delta delta' status status' : Z),
    (complete_challenge user_id challenge_id finish_time delta ;;;
     complete_challenge user_id challenge_id finish_time' delta')
      (at_rest d s)
    = (Ret 0,
       snd (complete_challenge user_id challenge_id finish_time delta
                               (at_rest d s)))
    /\ (complete_challenge user_id challenge_id finish_time delta ;;;
        skip_challenge user_id challenge_id status') (at_rest d s)
       = (Ret 0,
          snd (complete_challenge user_id challenge_id finish_time delta
                                  (at_rest d s)))
    /\ (skip_challenge user_id challenge_id status ;;;
        complete_challenge user_id challenge_id finish_time' delta')
         (at_rest d s)
       = (Ret 0,
          snd (skip_challenge user_id challenge_id status (at_rest d s)))
    /\ (skip_challenge user_id challenge_id status ;;;
        skip_challenge user_id challenge_id status') (at_rest d s)
       = (Ret 0,
          snd (skip_challenge user_id challenge_id status (at_rest d s))).
Proof.
  intros.
  pose proof (cleared_not_active user_id challenge_id (with_completed delta)
                (user_challenge d) (fun _ => eq_refl)) as Hcompleted.
  pose proof (cleared_not_active user_id challenge_id with_slot_cleared
                (user_challenge d) (fun _ => eq_refl)) as Hcleared.
  unfold bind.
  rewrite (complete_challenge_run d s user_id challenge_id finish_time delta),
          (skip_challenge_run d s user_id challenge_id status).
  destruct ((count_where (is_gitgud challenge_id) (challenge d) =? 1)
            && (count_where (has_active user_id challenge_id)
                            (user_challenge d) =? 1)) eqn:Hc;
    rewrite (andb_comm (count_where (has_active user_id challenge_id)
                                    (user_challenge d) =? 1)), Hc.
  - rewrite !complete_challenge_run, !skip_challenge_run.
    unfold challenge_completed, challenge_skipped. simpl.
    rewrite Hcompleted, Hcleared. simpl. rewrite !andb_false_r.
    repeat split.
  - rewrite !complete_challenge_run, !skip_challenge_run.
    rewrite (andb_comm (count_where (has_active user_id challenge_id)
                                    (user_challenge d) =? 1)), Hc.
    repeat split.
Qed.

(** X19.  Reading back a completion: when challenge c is GITGUD and sits
    in the active slot of user u (tables with their primary keys),
    [get_gudgitters] after [complete_challenge u c t delta] lists u with
    the old score plus delta and every other user with the old score, and
    [howgud] of the challenge's owner then lists the rating delta stored
    with the challenge. *)
Theorem complete_challenge_then_scores :
  forall (d : db) (s : seqs) (user_id challenge_id : Z) (finish_time : time)
         (delta : Z) (r : user_challenge_row) (ch : challenge_row),
    NoDup (map ch_id (challenge d)) ->
    NoDup (map uc_user_id (user_challenge d)) ->
    In r (user_challenge d) -> has_active user_id challenge_id r = true ->
    In ch (challenge d) -> is_gitgud challenge_id ch = true ->
    exists (scores : list (Z * Z)) (deltas : list Z) (d' : db),
      (complete_challenge user_id challenge_id finish_time delta ;;;
       get_gudgitters) (at_rest d s)
      = (Ret scores, at_rest d' s)
      /\ In (user_id, uc_score r + delta) scores
      /\ (forall r', In r' (user_challenge d) -> uc_user_id r' <> user_id ->
                     In (uc_user_id r', uc_score r') scores)
      /\ length scores = length (user_challenge d)
      /\ (complete_challenge user_id challenge_id finish_time delta ;;;
          howgud (ch_user_id ch)) (at_rest d s)
         = (Ret deltas, at_rest d' s)
      /\ In (ch_rating_delta ch) deltas.
Proof.
  intros d s user_id challenge_id finish_time delta r ch
         Hch Huc Hr Hactive Hc Hgitgud.
  assert (Hrun :
    complete_challenge user_id challenge_id finish_time delta (at_rest d s)
    = (Ret 1,
       at_rest (challenge_completed user_id challenge_id finish_time delta d)
               s)).
  { rewrite complete_challenge_run,
            (count_is_gitgud challenge_id _ Hch),
            (count_has_active user_id challenge_id _ Huc).
    assert (H1 : existsb (is_gitgud challenge_id) (challenge d) = true)
      by (apply existsb_exists; now exists ch).
    assert (H2 : existsb (has_active user_id challenge_id) (user_challenge d)
                 = true)
      by (apply existsb_exists; now exists r).
    now rewrite H1, H2. }
  eexists. eexists. eexists.
  split; [unfold bind; rewrite Hrun; reflexivity|].
  split; [|split; [|split; [|split]]].
  - simpl. apply in_map_iff. exists (with_completed delta r). split.
    + simpl. unfold has_active in Hactive. apply andb_true_iff in Hactive.
      destruct Hactive as [Hu _]. apply Z.eqb_eq in Hu. now rewrite Hu.
    + pose proof (in_update_where (has_active user_id challenge_id)
                    (with_completed delta) _ r Hr) as H.
      cbv beta in H. now rewrite Hactive in H.
  - intros r' Hr' Hneq. simpl. apply in_map_iff. exists r'.
    split; [reflexivity|].
    pose proof (in_update_where (has_active user_id challenge_id)
                  (with_completed delta) _ r' Hr') as H.
    cbv beta in H.
    assert (Hno : has_active user_id challenge_id r' = false).
    { unfold has_active. apply Z.eqb_neq in Hneq. now rewrite Hneq. }
    now rewrite Hno in H.
  - simpl. unfold update_where. now rewrite !length_map.
  - unfold bind. rewrite Hrun. reflexivity.
  - simpl. apply in_map_iff. exists (with_challenge_done finish_time ch).
    split; [reflexivity|]. apply filter_In. split.
    + pose proof (in_update_where (is_gitgud challenge_id)
                    (with_challenge_done finish_time) _ ch Hc) as H.
      cbv beta in H. now rewrite Hgitgud in H.
    + simpl. now rewrite Z.eqb_refl.
Qed.

Lemma complete_challenge_then_scores_witness :
  NoDup (map ch_id (challenge db_active_challenge)) /\
  NoDup (map uc_user_id (user_challenge db_active_challenge)) /\
  exists (scores : list (Z * Z)) (deltas : list Z) (d' : db),
    (complete_challenge 7 1 90 100 ;;; get_gudgitters)
      (at_rest db_active_challenge fresh_seqs)
    = (Ret scores, at_rest d' fresh_seqs)
    /\ In (7, 40 + 100) scores
    /\ (forall r', In r' (user_challenge db_active_challenge) ->
                   uc_user_id r' <> 7 ->
                   In (uc_user_id r', uc_score r') scores)
    /\ length scores = length (user_challenge db_active_challenge)
    /\ (complete_challenge 7 1 90 100 ;;; howgud 7)
         (at_rest db_active_challenge fresh_seqs)
       = (Ret deltas, at_rest d' fresh_seqs)
    /\ In 100 deltas.
Proof.
  assert (H1 : NoDup (map ch_id (challenge db_active_challenge)))
    by nodup_by_computation.
  assert (H2 : NoDup (map uc_user_id (user_challenge db_active_challenge)))
    by nodup_by_computation.
  split; [exact H1 | split; [exact H2|]].
  exact (complete_challenge_then_scores db_active_challenge fresh_seqs
           7 1 90 100
           {| uc_user_id := 7; uc_active_challenge_id := Some 1;
              uc_issue_time := Some 50; uc_score := 40;
              uc_num_completed := 2; uc_num_skipped := 3 |}
           {| ch_id := 1; ch_user_id := 7; ch_issue_time := 50;
              ch_finish_time := None; ch_problem_name := "Watermelon";
              ch_contest_id := 4; ch_p_index := "A"; ch_rating_delta := 100;
              ch_status := Gitgud.value Gitgud.GITGUD |}
           H1 H2 (or_introl eq_refl) eq_refl (or_introl eq_refl) eq_refl).
Defined.

(** ** A user is free again after the duel *)

Lemma free_after_settling (userid duelid : Z) (f : duel_row -> duel_row)
    (t : list duel_row) (r : duel_row) :
  NoDup (map d_id t) ->
  In r t -> duel_in Duel.ONGOING duelid r = true ->
  (forall x, In x t -> keeps_busy userid x = true -> d_id x = duelid) ->
  (forall x, keeps_busy userid (f x) = false) ->
  filter (keeps_busy userid) (update_where (duel_in Duel.ONGOING duelid) f t)
  = [].
Proof.
  intros Hnd Hr Hongoing Hsolo Hf. apply filter_nothing_of.
  apply not_true_is_false. intros Hex. apply existsb_exists in Hex.
  destruct Hex as [y [Hy Hbusy]]. unfold update_where in Hy.
  apply in_map_iff in Hy. destruct Hy as [x [Heq Hx]].
  destruct (duel_in Duel.ONGOING duelid x) eqn:Hdx; subst y.
  - rewrite Hf in Hbusy. discriminate.
  - assert (Hid : d_id x = duelid) by now apply Hsolo.
    assert (Hxr : x = r).
    { apply (key_injective d_id t); try assumption.
      unfold duel_in in Hongoing. apply andb_true_iff in Hongoing.
      destruct Hongoing as [Hrid _]. apply Z.eqb_eq in Hrid. congruence. }
    subst x. congruence.
Qed.

Lemma complete_duel_run (d : db) (s : seqs) (duelid winner : Z)
    (finish_time : time) (winner_id loser_id delta dtype : Z) :
  complete_duel duelid winner finish_time winner_id loser_id delta dtype
                (at_rest d s)
  = if count_where (duel_in Duel.ONGOING duelid) (duel d) =? 1
    then (Ret 1,
          at_rest
            (set_duelist
               (settled dtype winner_id loser_id delta (duelist d))
               (set_duel
                  (duels_completed duelid winner finish_time (duel d)) d))
            s)
    else (Ret 0, at_rest d s).
Proof.
  unfold complete_duel, update_duel_rating, settled, credited, duels_completed.
  run_method.
  destruct (count_where (duel_in Duel.ONGOING duelid) (duel d) =? 1); simpl;
    [|reflexivity].
  destruct (dtype =? 1); simpl; [reflexivity | now destruct d].
Qed.

Lemma invalidate_duel_run (d : db) (s : seqs) (duelid : Z) :
  invalidate_duel duelid (at_rest d s)
  = if count_where (duel_in Duel.ONGOING duelid) (duel d) =? 1
    then (Ret 1,
          at_rest
            (set_duel
               (update_where (duel_in Duel.ONGOING duelid)
                             (with_duel_status (Duel.value Duel.INVALID))
                             (duel d)) d) s)
    else (Ret 0, at_rest d s).
Proof.
  unfold invalidate_duel. run_method.
  destruct (count_where (duel_in Duel.ONGOING duelid) (duel d) =? 1) eqn:Hc;
    simpl; [|reflexivity].
  apply Z.eqb_eq in Hc. now rewrite Hc.
Qed.

Lemma check_duel_challenge_run (d : db) (s : seqs) (userid : Z) :
  check_duel_challenge userid (at_rest d s)
  = (Ret (hd_error (map d_id (filter (keeps_busy userid) (duel d)))),
     at_rest d s).
Proof. reflexivity. Qed.

(** X20.  Settling a duel frees its users: under the primary key of
    [duel], when the ONGOING duel [duelid] is the only PENDING or ONGOING
    duel of a user, [check_duel_challenge] for that user yields None
    after [complete_duel duelid] and after [invalidate_duel duelid], so
    the user may be challenged again. *)
Theorem settled_duel_frees_user :
  forall (d : db) (s : seqs) (userid duelid winner : Z) (finish_time : time)
         (winner_id loser_id delta dtype : Z) (r : duel_row),
    NoDup (map d_id (duel d)) ->
    In r (duel d) -> duel_in Duel.ONGOING duelid r = true ->
    (forall x, In x (duel d) -> keeps_busy userid x = true ->
               d_id x = duelid) ->
    fst ((complete_duel duelid winner finish_time winner_id loser_id delta
                        dtype ;;;
          check_duel_challenge userid) (at_rest d s))
    = Ret None
    /\ fst ((invalidate_duel duelid ;;; check_duel_challenge userid)
              (at_rest d s))
       = Ret None.
Proof.
  intros d s userid duelid winner finish_time winner_id loser_id delta dtype
         r Hnd Hr Hongoing Hsolo.
  assert (Hex : existsb (duel_in Duel.ONGOING duelid) (duel d) = true)
    by (apply existsb_exists; now exists r).
  assert (Hone : (count_where (duel_in Duel.ONGOING duelid) (duel d) =? 1)
                 = true)
    by now rewrite (count_duel_in Duel.ONGOING duelid (duel d) Hnd), Hex.
  unfold bind.
  rewrite complete_duel_run, invalidate_duel_run, Hone.
  rewrite !check_duel_challenge_run.
  cbn [duel set_duelist set_duel fst]. unfold duels_completed.
  rewrite !(free_after_settling userid duelid _ (duel d) r
              Hnd Hr Hongoing Hsolo).
  - split; reflexivity.
  - intros x. unfold keeps_busy. simpl. now rewrite andb_false_r.
  - intros x. unfold keeps_busy. simpl. now rewrite andb_false_r.
Qed.

Lemma settled_duel_frees_user_witness :
  NoDup (map d_id (duel db_duels)) /\
  (forall x, In x (duel db_duels) -> keeps_busy 10 x = true -> d_id x = 2) /\
  fst ((complete_duel 2 (Winner.value Winner.CHALLENGEE) 100 20 10 30
                      (DuelType.value DuelType.OFFICIAL) ;;;
        check_duel_challenge 10) (at_rest db_duels fresh_seqs))
  = Ret None.
Proof.
  assert (H1 : NoDup (map d_id (duel db_duels))) by nodup_by_computation.
  assert (H2 : forall x, In x (duel db_duels) -> keeps_busy 10 x = true ->
                         d_id x = 2).
  { intros x [Hx | [Hx | []]] Hb; subst x; [discriminate Hb | reflexivity]. }
  split; [exact H1 | split; [exact H2|]].
  exact (proj1 (settled_duel_frees_user db_duels fresh_seqs 10 2
                  (Winner.value Winner.CHALLENGEE) 100 20 10 30
                  (DuelType.value DuelType.OFFICIAL)
                  (a_duel 2 10 20 Duel.ONGOING None)
                  H1 (or_intror (or_introl eq_refl)) eq_refl H2)).
Defined.
